(** * DataDex: the on-ledger marketplace and reward system

    A shallow embedding of the two Move modules of the repository,
    [DataDex::Marketplace] (contracts/sources/Marketplace.move) and
    [DataDex::RewardSystem], followed by the properties of the
    specification that concern them.

    Conventions of the embedding.
    - [u64] values are integers in [Z]; Move arithmetic aborts on overflow,
      underflow and division by zero, which [add_u64], [sub_u64], [mul_u64]
      and [div_u64] write out.
    - An entry function is a function from the state before the transaction
      to a [result]: [Ok] of the state after it, or [Err] of the reason for
      which the transaction aborted.  An aborted Move transaction has no
      effect, which [commit] writes out.
    - Global storage is a finite map from addresses to resources, one map
      per resource type.  [borrow_global] on an absent resource and
      [move_to] on a present one abort.
    - A [vector] is a list, an [EventHandle] the list of the events emitted
      on it, oldest first.
    - [timestamp::now_seconds()] is the argument [now] of the transaction;
      reading the clock, creating an event handle and emitting an event are
      taken not to abort.
    - The [aptos_framework::coin] module is not part of the repository: its
      two operations used here are the fields of the class [CoinLedger]. *)

From Stdlib Require Import ZArith List Bool String Lia.
From stdpp Require Import gmap list.
Import ListNotations.

Local Open Scope Z_scope.

(** ** Values, aborts and checked arithmetic *)

Definition address := N.

Inductive error :=
| Abort (code : Z)      (* [assert!(_, code)] of the module itself *)
| MissingResource       (* [borrow_global] of a resource that is not there *)
| ResourceExists        (* [move_to] onto an address that holds one *)
| ArithmeticError       (* overflow, underflow, division by zero *)
| IndexOutOfBounds      (* [vector::borrow] past the end *)
| OptionNotSet          (* [option::extract] of [none] *)
| FrameworkAbort.       (* an abort inside [aptos_framework::coin] *)

Inductive result (A : Type) :=
| Ok (a : A)
| Err (e : error).

Arguments Ok {A} a.
Arguments Err {A} e.

Definition bind {A B : Type} (r : result A) (k : A -> result B) : result B :=
  match r with
  | Ok a => k a
  | Err e => Err e
  end.

Notation "'let*' x ':=' r 'in' k" := (bind r (fun x => k))
  (at level 10, x name, r at level 100, k at level 200).
Notation "'let*' ' p ':=' r 'in' k" := (bind r (fun x => match x with p => k end))
  (at level 10, p pattern, r at level 100, k at level 200).
Notation "r ';;' k" := (bind r (fun _ => k))
  (at level 100, k at level 200, right associativity).

Definition assert (b : bool) (code : Z) : result unit :=
  if b then Ok tt else Err (Abort code).

Definition of_framework {A : Type} (o : option A) : result A :=
  match o with
  | Some a => Ok a
  | None => Err FrameworkAbort
  end.

Definition borrow_global {R : Type} (store : gmap address R) (a : address) : result R :=
  match store !! a with
  | Some r => Ok r
  | None => Err MissingResource
  end.

Definition move_to {R : Type} (store : gmap address R) (a : address) (r : R)
  : result (gmap address R) :=
  match store !! a with
  | Some _ => Err ResourceExists
  | None => Ok (<[a := r]> store)
  end.

Definition vector_borrow {A : Type} (v : list A) (i : nat) : result A :=
  match v !! i with
  | Some x => Ok x
  | None => Err IndexOutOfBounds
  end.

Definition option_is_some {A : Type} (o : option A) : bool :=
  match o with
  | Some _ => true
  | None => false
  end.

(** [option::extract] after [option::is_some] has been asserted. *)
Definition option_extract {A : Type} (o : option A) : result A :=
  match o with
  | Some x => Ok x
  | None => Err OptionNotSet
  end.

Definition exists_at {R : Type} (store : gmap address R) (a : address) : bool :=
  match store !! a with
  | Some _ => true
  | None => false
  end.

Definition commit {S : Type} (tx : S -> result S) (s : S) : S :=
  match tx s with
  | Ok s' => s'
  | Err _ => s
  end.

Definition MAX_U64 : Z := 18446744073709551615.

Definition is_u64 (x : Z) : Prop := 0 <= x <= MAX_U64.

Definition add_u64 (a b : Z) : result Z :=
  if a + b <=? MAX_U64 then Ok (a + b) else Err ArithmeticError.

Definition sub_u64 (a b : Z) : result Z :=
  if b <=? a then Ok (a - b) else Err ArithmeticError.

Definition mul_u64 (a b : Z) : result Z :=
  if a * b <=? MAX_U64 then Ok (a * b) else Err ArithmeticError.

Definition div_u64 (a b : Z) : result Z :=
  if b =? 0 then Err ArithmeticError else Ok (a / b).

(** [vector::contains] on a [vector<u64>]. *)
Fixpoint vector_contains (v : list Z) (x : Z) : bool :=
  match v with
  | [] => false
  | y :: rest => if y =? x then true else vector_contains rest x
  end.

(** [aborts_within codes r]: when [r] is an abort of one of the modules'
    own [assert!]s, its code is among [codes]. *)
Definition aborts_within {A : Type} (codes : list Z) (r : result A) : Prop :=
  forall c, r = Err (Abort c) -> c ∈ codes.

(** ** The coin module, as the two modules use it *)

Class CoinLedger (C : Type) := {
  (* [coin::balance<AptosCoin>(a)]; [None] when the framework aborts *)
  coin_balance : C -> address -> option Z;
  (* [coin::transfer<AptosCoin>(from, to, amount)]; [None] when it aborts *)
  coin_transfer : C -> address -> address -> Z -> option C
}.

(** A small ledger to run the modules on: an account is registered when it
    has an entry, a transfer needs both accounts and enough funds. *)
Module SimpleCoin.

Definition ledger_balance (c : gmap address Z) (a : address) : option Z := c !! a.

Definition ledger_transfer (c : gmap address Z) (from to : address) (amount : Z)
  : option (gmap address Z) :=
  match c !! from with
  | None => None
  | Some bf =>
      if amount <=? bf then
        let c1 := <[from := bf - amount]> c in
        match c1 !! to with
        | None => None
        | Some bt => Some (<[to := bt + amount]> c1)
        end
      else None
  end.

#[global] Instance ledger : CoinLedger (gmap address Z) :=
  {| coin_balance := ledger_balance; coin_transfer := ledger_transfer |}.

End SimpleCoin.

(** ** DataDex::Marketplace *)

Module Marketplace.

Definition E_NOT_INITIALIZED : Z := 1.
Definition E_ALREADY_INITIALIZED : Z := 2.
Definition E_DATASET_NOT_FOUND : Z := 3.
Definition E_INSUFFICIENT_BALANCE : Z := 4.
Definition E_UNAUTHORIZED : Z := 5.
Definition E_INVALID_PRICE : Z := 6.
Definition E_DATASET_ALREADY_PURCHASED : Z := 7.

Module Dataset.
Record t := mk {
  id : Z;
  ipfs_hash : string;
  title : string;
  description : string;
  category : string;
  price : Z;
  owner : address;
  created_at : Z;
  total_purchases : Z;
  is_active : bool
}.
End Dataset.

Module Purchase.
Record t := mk {
  dataset_id : Z;
  buyer : address;
  seller : address;
  price : Z;
  purchased_at : Z
}.
End Purchase.

Module DatasetUploadedEvent.
Record t := mk {
  dataset_id : Z;
  owner : address;
  ipfs_hash : string;
  title : string;
  price : Z;
  timestamp : Z
}.
End DatasetUploadedEvent.

Module DatasetPurchasedEvent.
Record t := mk {
  dataset_id : Z;
  buyer : address;
  seller : address;
  price : Z;
  timestamp : Z
}.
End DatasetPurchasedEvent.

Module RewardPaidEvent.
Record t := mk {
  recipient : address;
  amount : Z;
  dataset_id : Z;
  timestamp : Z
}.
End RewardPaidEvent.

Module DataMarketplace.
Record t := mk {
  datasets : list Dataset.t;
  purchases : list Purchase.t;
  next_dataset_id : Z;
  platform_fee_percentage : Z;
  platform_fee_recipient : address;
  dataset_uploaded_events : list DatasetUploadedEvent.t;
  dataset_purchased_events : list DatasetPurchasedEvent.t;
  reward_paid_events : list RewardPaidEvent.t
}.
End DataMarketplace.

Module UserStats.
Record t := mk {
  datasets_uploaded : Z;
  datasets_purchased : Z;
  total_earned : Z;
  total_spent : Z
}.
End UserStats.

(** [find_dataset_by_id]: the index of the first dataset with that id. *)
Fixpoint find_from (datasets : list Dataset.t) (dataset_id : Z) (i : nat) : option nat :=
  match datasets with
  | [] => None
  | dataset :: rest =>
      if Dataset.id dataset =? dataset_id then Some i
      else find_from rest dataset_id (S i)
  end.

Definition find_dataset_by_id (datasets : list Dataset.t) (dataset_id : Z) : option nat :=
  find_from datasets dataset_id 0.

Fixpoint has_purchased_dataset (purchases : list Purchase.t) (buyer : address)
  (dataset_id : Z) : bool :=
  match purchases with
  | [] => false
  | purchase :: rest =>
      if (Purchase.buyer purchase =? buyer)%N && (Purchase.dataset_id purchase =? dataset_id)
      then true
      else has_purchased_dataset rest buyer dataset_id
  end.

(** Lines 200-201 of [purchase_dataset]: the platform fee and what is left
    for the seller. *)
Definition payment_split (price fee_percentage : Z) : result (Z * Z) :=
  let* product := mul_u64 price fee_percentage in
  let* platform_fee := div_u64 product 100 in
  let* seller_amount := sub_u64 price platform_fee in
  Ok (platform_fee, seller_amount).

Definition new_user_stats : UserStats.t :=
  UserStats.mk 0 0 0 0.

Definition set_total_purchases (d : Dataset.t) (n : Z) : Dataset.t :=
  Dataset.mk (Dataset.id d) (Dataset.ipfs_hash d) (Dataset.title d)
    (Dataset.description d) (Dataset.category d) (Dataset.price d)
    (Dataset.owner d) (Dataset.created_at d) n (Dataset.is_active d).

Definition set_is_active (d : Dataset.t) (b : bool) : Dataset.t :=
  Dataset.mk (Dataset.id d) (Dataset.ipfs_hash d) (Dataset.title d)
    (Dataset.description d) (Dataset.category d) (Dataset.price d)
    (Dataset.owner d) (Dataset.created_at d) (Dataset.total_purchases d) b.

Definition set_price (d : Dataset.t) (p : Z) : Dataset.t :=
  Dataset.mk (Dataset.id d) (Dataset.ipfs_hash d) (Dataset.title d)
    (Dataset.description d) (Dataset.category d) p
    (Dataset.owner d) (Dataset.created_at d) (Dataset.total_purchases d)
    (Dataset.is_active d).

Definition set_datasets (m : DataMarketplace.t) (ds : list Dataset.t) : DataMarketplace.t :=
  DataMarketplace.mk ds (DataMarketplace.purchases m)
    (DataMarketplace.next_dataset_id m) (DataMarketplace.platform_fee_percentage m)
    (DataMarketplace.platform_fee_recipient m)
    (DataMarketplace.dataset_uploaded_events m)
    (DataMarketplace.dataset_purchased_events m)
    (DataMarketplace.reward_paid_events m).

(** What a purchase does to a buyer's statistics, and to a seller's. *)
Definition buyer_bump (price : Z) (st : UserStats.t) : UserStats.t :=
  UserStats.mk (UserStats.datasets_uploaded st) (UserStats.datasets_purchased st + 1)
    (UserStats.total_earned st) (UserStats.total_spent st + price).

Definition seller_credit (seller_amount : Z) (st : UserStats.t) : UserStats.t :=
  UserStats.mk (UserStats.datasets_uploaded st) (UserStats.datasets_purchased st)
    (UserStats.total_earned st + seller_amount) (UserStats.total_spent st).

(** How one transaction may change a marketplace: not at all, by a listing
    appended under the next id, by a purchase recorded against a listing, or
    by an edit of a listing that keeps its id and owner. *)
Inductive evolves (m m' : DataMarketplace.t) : Prop :=
| evolves_same : m' = m -> evolves m m'
| evolves_upload (d : Dataset.t) :
    DataMarketplace.datasets m' = DataMarketplace.datasets m ++ [d] ->
    Dataset.id d = DataMarketplace.next_dataset_id m ->
    DataMarketplace.next_dataset_id m' = DataMarketplace.next_dataset_id m + 1 ->
    DataMarketplace.purchases m' = DataMarketplace.purchases m ->
    DataMarketplace.platform_fee_percentage m' = DataMarketplace.platform_fee_percentage m ->
    evolves m m'
| evolves_purchase (i : nat) (d : Dataset.t) (p : Purchase.t) :
    find_dataset_by_id (DataMarketplace.datasets m) (Purchase.dataset_id p) = Some i ->
    DataMarketplace.datasets m !! i = Some d ->
    Dataset.is_active d = true ->
    Dataset.owner d <> Purchase.buyer p ->
    has_purchased_dataset (DataMarketplace.purchases m) (Purchase.buyer p)
      (Purchase.dataset_id p) = false ->
    DataMarketplace.datasets m' =
      <[i := set_total_purchases d (Dataset.total_purchases d + 1)]>
        (DataMarketplace.datasets m) ->
    DataMarketplace.purchases m' = DataMarketplace.purchases m ++ [p] ->
    DataMarketplace.next_dataset_id m' = DataMarketplace.next_dataset_id m ->
    DataMarketplace.platform_fee_percentage m' = DataMarketplace.platform_fee_percentage m ->
    evolves m m'
| evolves_edit (i : nat) (d d' : Dataset.t) :
    DataMarketplace.datasets m !! i = Some d ->
    Dataset.id d' = Dataset.id d ->
    Dataset.owner d' = Dataset.owner d ->
    DataMarketplace.datasets m' = <[i := d']> (DataMarketplace.datasets m) ->
    DataMarketplace.purchases m' = DataMarketplace.purchases m ->
    DataMarketplace.next_dataset_id m' = DataMarketplace.next_dataset_id m ->
    DataMarketplace.platform_fee_percentage m' = DataMarketplace.platform_fee_percentage m ->
    evolves m m'.

(** The marketplace that [initialize] publishes. *)
Definition fresh_marketplace (fee : Z) (recipient : address) : DataMarketplace.t :=
  DataMarketplace.mk [] [] 1 fee recipient [] [] [].

(** The pair that must not repeat among the purchases. *)
Definition purchase_key (p : Purchase.t) : address * Z :=
  (Purchase.buyer p, Purchase.dataset_id p).

(** What holds of every marketplace in a reachable state: the fee is a
    percentage of at most 20, the listings carry the ids 1, 2, 3, ... in
    the order of their creation and the next id follows them, every
    purchase is of a listing whose owner is not the buyer, and no pair of
    buyer and dataset id occurs twice among the purchases. *)
Record marketplace_inv (m : DataMarketplace.t) : Prop := {
  inv_fee : 0 <= DataMarketplace.platform_fee_percentage m <= 20;
  inv_ids : forall i d, DataMarketplace.datasets m !! i = Some d ->
            Dataset.id d = Z.of_nat i + 1;
  inv_next : DataMarketplace.next_dataset_id m =
             Z.of_nat (length (DataMarketplace.datasets m)) + 1;
  inv_purchases : forall p, p ∈ DataMarketplace.purchases m ->
      exists i d, find_dataset_by_id (DataMarketplace.datasets m) (Purchase.dataset_id p) = Some i
                  /\ DataMarketplace.datasets m !! i = Some d
                  /\ Dataset.owner d <> Purchase.buyer p;
  inv_unique : NoDup (purchase_key <$> DataMarketplace.purchases m)
}.

(** How one transaction may change what an address holds: a marketplace
    that is there evolves, one that is not may be published. *)
Definition slot_step (o o' : option DataMarketplace.t) : Prop :=
  match o, o' with
  | Some m, Some m' => evolves m m'
  | None, Some m' => exists fee recipient, fee <= 20 /\ m' = fresh_marketplace fee recipient
  | None, None => True
  | Some _, None => False
  end.

(** The same for a transaction that publishes nothing. *)
Definition slot_evolves (o o' : option DataMarketplace.t) : Prop :=
  match o, o' with
  | Some m, Some m' => evolves m m'
  | None, None => True
  | _, _ => False
  end.

Section WithCoin.

Context {Coin : Type} `{CoinLedger Coin}.

(** The address the package is published at, [@DataDex]. *)
Variable DataDex : address.

Record State := mkState {
  marketplace_at : gmap address DataMarketplace.t;
  stats_at : gmap address UserStats.t;
  coins : Coin
}.

Definition initialize (admin : address) (platform_fee_percentage : Z)
  (platform_fee_recipient : address) (s : State) : result State :=
  let admin_addr := admin in
  assert (negb (exists_at (marketplace_at s) admin_addr)) E_ALREADY_INITIALIZED;;
  assert (platform_fee_percentage <=? 20) E_INVALID_PRICE;;
  let marketplace :=
    DataMarketplace.mk [] [] 1 platform_fee_percentage platform_fee_recipient [] [] [] in
  let* store := move_to (marketplace_at s) admin marketplace in
  Ok (mkState store (stats_at s) (coins s)).

Definition upload_dataset (account : address)
  (ipfs_hash title description category : string) (price : Z) (now : Z)
  (s : State) : result State :=
  assert (0 <? price) E_INVALID_PRICE;;
  let* marketplace := borrow_global (marketplace_at s) DataDex in
  let owner := account in
  let dataset_id := DataMarketplace.next_dataset_id marketplace in
  let current_time := now in
  let dataset :=
    Dataset.mk dataset_id ipfs_hash title description category price owner
      current_time 0 true in
  let datasets' := DataMarketplace.datasets marketplace ++ [dataset] in
  let* next_id := add_u64 dataset_id 1 in
  let* stats1 :=
    if negb (exists_at (stats_at s) owner)
    then move_to (stats_at s) account new_user_stats
    else Ok (stats_at s) in
  let* user_stats := borrow_global stats1 owner in
  let* uploaded := add_u64 (UserStats.datasets_uploaded user_stats) 1 in
  let user_stats' :=
    UserStats.mk uploaded (UserStats.datasets_purchased user_stats)
      (UserStats.total_earned user_stats) (UserStats.total_spent user_stats) in
  let event :=
    DatasetUploadedEvent.mk dataset_id owner (Dataset.ipfs_hash dataset)
      (Dataset.title dataset) price current_time in
  let marketplace' :=
    DataMarketplace.mk datasets' (DataMarketplace.purchases marketplace) next_id
      (DataMarketplace.platform_fee_percentage marketplace)
      (DataMarketplace.platform_fee_recipient marketplace)
      (DataMarketplace.dataset_uploaded_events marketplace ++ [event])
      (DataMarketplace.dataset_purchased_events marketplace)
      (DataMarketplace.reward_paid_events marketplace) in
  Ok (mkState (<[DataDex := marketplace']> (marketplace_at s))
        (<[owner := user_stats']> stats1) (coins s)).

Definition purchase_dataset (buyer : address) (dataset_id : Z) (now : Z)
  (s : State) : result State :=
  let* marketplace := borrow_global (marketplace_at s) DataDex in
  let buyer_addr := buyer in
  let dataset_option := find_dataset_by_id (DataMarketplace.datasets marketplace) dataset_id in
  assert (option_is_some dataset_option) E_DATASET_NOT_FOUND;;
  let* dataset_index := option_extract dataset_option in
  let* dataset := vector_borrow (DataMarketplace.datasets marketplace) dataset_index in
  assert (Dataset.is_active dataset) E_DATASET_NOT_FOUND;;
  assert (negb (Dataset.owner dataset =? buyer_addr)%N) E_UNAUTHORIZED;;
  assert (negb (has_purchased_dataset (DataMarketplace.purchases marketplace)
                  buyer_addr dataset_id)) E_DATASET_ALREADY_PURCHASED;;
  let price := Dataset.price dataset in
  let seller_addr := Dataset.owner dataset in
  let* balance := of_framework (coin_balance (coins s) buyer_addr) in
  assert (price <=? balance) E_INSUFFICIENT_BALANCE;;
  let* '(platform_fee, seller_amount) :=
    payment_split price (DataMarketplace.platform_fee_percentage marketplace) in
  let* coins1 :=
    if 0 <? platform_fee
    then of_framework (coin_transfer (coins s) buyer
                         (DataMarketplace.platform_fee_recipient marketplace) platform_fee)
    else Ok (coins s) in
  let* coins2 := of_framework (coin_transfer coins1 buyer seller_addr seller_amount) in
  let current_time := now in
  let purchase := Purchase.mk dataset_id buyer_addr seller_addr price current_time in
  let purchases' := DataMarketplace.purchases marketplace ++ [purchase] in
  let* total := add_u64 (Dataset.total_purchases dataset) 1 in
  let datasets' :=
    <[dataset_index := set_total_purchases dataset total]>
      (DataMarketplace.datasets marketplace) in
  let* stats1 :=
    if negb (exists_at (stats_at s) buyer_addr)
    then move_to (stats_at s) buyer new_user_stats
    else Ok (stats_at s) in
  let* buyer_stats := borrow_global stats1 buyer_addr in
  let* purchased := add_u64 (UserStats.datasets_purchased buyer_stats) 1 in
  let* spent := add_u64 (UserStats.total_spent buyer_stats) price in
  let buyer_stats' :=
    UserStats.mk (UserStats.datasets_uploaded buyer_stats) purchased
      (UserStats.total_earned buyer_stats) spent in
  let stats2 := <[buyer_addr := buyer_stats']> stats1 in
  let* stats3 :=
    if exists_at stats2 seller_addr then
      let* seller_stats := borrow_global stats2 seller_addr in
      let* earned := add_u64 (UserStats.total_earned seller_stats) seller_amount in
      Ok (<[seller_addr :=
              UserStats.mk (UserStats.datasets_uploaded seller_stats)
                (UserStats.datasets_purchased seller_stats) earned
                (UserStats.total_spent seller_stats)]> stats2)
    else Ok stats2 in
  let purchased_event :=
    DatasetPurchasedEvent.mk dataset_id buyer_addr seller_addr price current_time in
  let paid_event := RewardPaidEvent.mk seller_addr seller_amount dataset_id current_time in
  let marketplace' :=
    DataMarketplace.mk datasets' purchases'
      (DataMarketplace.next_dataset_id marketplace)
      (DataMarketplace.platform_fee_percentage marketplace)
      (DataMarketplace.platform_fee_recipient marketplace)
      (DataMarketplace.dataset_uploaded_events marketplace)
      (DataMarketplace.dataset_purchased_events marketplace ++ [purchased_event])
      (DataMarketplace.reward_paid_events marketplace ++ [paid_event]) in
  Ok (mkState (<[DataDex := marketplace']> (marketplace_at s)) stats3 coins2).

Definition deactivate_dataset (owner : address) (dataset_id : Z) (s : State)
  : result State :=
  let* marketplace := borrow_global (marketplace_at s) DataDex in
  let owner_addr := owner in
  let dataset_option := find_dataset_by_id (DataMarketplace.datasets marketplace) dataset_id in
  assert (option_is_some dataset_option) E_DATASET_NOT_FOUND;;
  let* dataset_index := option_extract dataset_option in
  let* dataset := vector_borrow (DataMarketplace.datasets marketplace) dataset_index in
  assert (Dataset.owner dataset =? owner_addr)%N E_UNAUTHORIZED;;
  let datasets' :=
    <[dataset_index := set_is_active dataset false]>
      (DataMarketplace.datasets marketplace) in
  Ok (mkState (<[DataDex := set_datasets marketplace datasets']> (marketplace_at s))
        (stats_at s) (coins s)).

Definition update_dataset_price (owner : address) (dataset_id new_price : Z) (s : State)
  : result State :=
  assert (0 <? new_price) E_INVALID_PRICE;;
  let* marketplace := borrow_global (marketplace_at s) DataDex in
  let owner_addr := owner in
  let dataset_option := find_dataset_by_id (DataMarketplace.datasets marketplace) dataset_id in
  assert (option_is_some dataset_option) E_DATASET_NOT_FOUND;;
  let* dataset_index := option_extract dataset_option in
  let* dataset := vector_borrow (DataMarketplace.datasets marketplace) dataset_index in
  assert (Dataset.owner dataset =? owner_addr)%N E_UNAUTHORIZED;;
  let datasets' :=
    <[dataset_index := set_price dataset new_price]>
      (DataMarketplace.datasets marketplace) in
  Ok (mkState (<[DataDex := set_datasets marketplace datasets']> (marketplace_at s))
        (stats_at s) (coins s)).

(** *** Transactions and reachable states *)

Inductive Tx :=
| TxInitialize (admin : address) (platform_fee_percentage : Z)
    (platform_fee_recipient : address)
| TxUpload (account : address) (ipfs_hash title description category : string)
    (price : Z)
| TxPurchase (buyer : address) (dataset_id : Z)
| TxDeactivate (owner : address) (dataset_id : Z)
| TxUpdatePrice (owner : address) (dataset_id new_price : Z).

Definition run (tx : Tx) (now : Z) (s : State) : result State :=
  match tx with
  | TxInitialize admin fee recipient => initialize admin fee recipient s
  | TxUpload account ipfs_hash title description category price =>
      upload_dataset account ipfs_hash title description category price now s
  | TxPurchase buyer dataset_id => purchase_dataset buyer dataset_id now s
  | TxDeactivate owner dataset_id => deactivate_dataset owner dataset_id s
  | TxUpdatePrice owner dataset_id new_price =>
      update_dataset_price owner dataset_id new_price s
  end.

(** The arguments of an entry function are [u64] values. *)
Definition tx_wf (tx : Tx) : Prop :=
  match tx with
  | TxInitialize _ fee _ => is_u64 fee
  | TxUpload _ _ _ _ _ price => is_u64 price
  | TxPurchase _ dataset_id => is_u64 dataset_id
  | TxDeactivate _ dataset_id => is_u64 dataset_id
  | TxUpdatePrice _ dataset_id new_price => is_u64 dataset_id /\ is_u64 new_price
  end.

Definition genesis (c : Coin) : State := mkState ∅ ∅ c.

(** A state is reachable when transactions of this module lead to it from
    empty storage; between them anything may happen to the coin ledger. *)
Inductive reachable : State -> Prop :=
| reachable_genesis c : reachable (genesis c)
| reachable_tx s tx now s' :
    reachable s -> tx_wf tx -> is_u64 now -> run tx now s = Ok s' -> reachable s'
| reachable_coins s c :
    reachable s -> reachable (mkState (marketplace_at s) (stats_at s) c).

(** [later s s']: the state [s'] comes after [s], through any number of
    transactions of this module and changes of the coin ledger. *)
Inductive later (s : State) : State -> Prop :=
| later_now : later s s
| later_tx s1 tx now s2 :
    later s s1 -> run tx now s1 = Ok s2 -> later s s2
| later_coins s1 c :
    later s s1 -> later s (mkState (marketplace_at s1) (stats_at s1) c).

End WithCoin.

Arguments State : clear implicits.

(** The stores after a purchase: the buyer's counters bumped, the seller's
    credited when the seller has a record. *)
Definition stats_after_purchase (stats : gmap address UserStats.t)
  (buyer seller : address) (price seller_amount : Z) : gmap address UserStats.t :=
  let stats2 :=
    <[buyer := buyer_bump price (default new_user_stats (stats !! buyer))]> stats in
  match stats !! seller with
  | Some st => <[seller := seller_credit seller_amount st]> stats2
  | None => stats2
  end.

(** *** View functions *)

(** The loops of [get_datasets_by_owner], [get_active_datasets] and
    [get_purchases_by_buyer]: what matches is pushed onto the result in the
    order of the vector. *)
Fixpoint datasets_owned_by (datasets : list Dataset.t) (owner : address)
  : list Dataset.t :=
  match datasets with
  | [] => []
  | dataset :: rest =>
      if (Dataset.owner dataset =? owner)%N
      then dataset :: datasets_owned_by rest owner
      else datasets_owned_by rest owner
  end.

Fixpoint active_datasets (datasets : list Dataset.t) : list Dataset.t :=
  match datasets with
  | [] => []
  | dataset :: rest =>
      if Dataset.is_active dataset
      then dataset :: active_datasets rest
      else active_datasets rest
  end.

Fixpoint purchases_made_by (purchases : list Purchase.t) (buyer : address)
  : list Purchase.t :=
  match purchases with
  | [] => []
  | purchase :: rest =>
      if (Purchase.buyer purchase =? buyer)%N
      then purchase :: purchases_made_by rest buyer
      else purchases_made_by rest buyer
  end.

Section Views.

Context {Coin : Type}.

Variable DataDex : address.

Definition get_dataset_count (s : State Coin) : result Z :=
  let* marketplace := borrow_global (marketplace_at s) DataDex in
  Ok (Z.of_nat (length (DataMarketplace.datasets marketplace))).

Definition get_dataset_by_id (dataset_id : Z) (s : State Coin)
  : result (option Dataset.t) :=
  let* marketplace := borrow_global (marketplace_at s) DataDex in
  let dataset_option := find_dataset_by_id (DataMarketplace.datasets marketplace) dataset_id in
  if option_is_some dataset_option then
    let* index := option_extract dataset_option in
    let* dataset := vector_borrow (DataMarketplace.datasets marketplace) index in
    Ok (Some dataset)
  else Ok None.

Definition get_datasets_by_owner (owner : address) (s : State Coin)
  : result (list Dataset.t) :=
  let* marketplace := borrow_global (marketplace_at s) DataDex in
  Ok (datasets_owned_by (DataMarketplace.datasets marketplace) owner).

Definition get_active_datasets (s : State Coin) : result (list Dataset.t) :=
  let* marketplace := borrow_global (marketplace_at s) DataDex in
  Ok (active_datasets (DataMarketplace.datasets marketplace)).

Definition get_user_stats (user : address) (s : State Coin) : option UserStats.t :=
  if exists_at (stats_at s) user then stats_at s !! user else None.

Definition get_purchases_by_buyer (buyer : address) (s : State Coin)
  : result (list Purchase.t) :=
  let* marketplace := borrow_global (marketplace_at s) DataDex in
  Ok (purchases_made_by (DataMarketplace.purchases marketplace) buyer).

Definition has_user_purchased_dataset (buyer : address) (dataset_id : Z)
  (s : State Coin) : result bool :=
  let* marketplace := borrow_global (marketplace_at s) DataDex in
  Ok (has_purchased_dataset (DataMarketplace.purchases marketplace) buyer dataset_id).

Definition get_platform_stats (s : State Coin) : result (Z * Z * Z) :=
  let* marketplace := borrow_global (marketplace_at s) DataDex in
  let total_datasets := Z.of_nat (length (DataMarketplace.datasets marketplace)) in
  let total_purchases := Z.of_nat (length (DataMarketplace.purchases marketplace)) in
  let* active := get_active_datasets s in
  let active_datasets := Z.of_nat (length active) in
  Ok (total_datasets, total_purchases, active_datasets).

(** *** The books of a reachable state *)

(** The sum of the prices of some purchases. *)
Fixpoint total_price (purchases : list Purchase.t) : Z :=
  match purchases with
  | [] => 0
  | purchase :: rest => Purchase.price purchase + total_price rest
  end.

(** The counters of an address, zero when it has no record. *)
Definition stats_of (s : State Coin) (a : address) : UserStats.t :=
  default new_user_stats (stats_at s !! a).

(** What the counters and the records of a reachable state have to do with
    each other.  A marketplace at another address than the package's is
    as [initialize] left it.  Of the package's marketplace: every listing has
    a positive [u64] price; its [total_purchases] is the number of purchase
    records with its id; an address has uploaded as many datasets as it
    owns, has purchased as many as there are purchase records with it as
    buyer, has spent the sum of their prices, and has earned at most the sum
    of the prices of the records with it as seller.  Every purchase record
    has a positive price.  While the package's marketplace is missing
    nobody has counters. *)
Record ledger_inv (s : State Coin) : Prop := {
  books_foreign : forall a m, marketplace_at s !! a = Some m -> a <> DataDex ->
      exists fee recipient, m = fresh_marketplace fee recipient;
  books_prices : forall m d, marketplace_at s !! DataDex = Some m ->
      d ∈ DataMarketplace.datasets m -> 0 < Dataset.price d <= MAX_U64;
  books_counts : forall m i d, marketplace_at s !! DataDex = Some m ->
      DataMarketplace.datasets m !! i = Some d ->
      Dataset.total_purchases d =
        Z.of_nat (length (filter (fun p => Purchase.dataset_id p = Dataset.id d)
                            (DataMarketplace.purchases m)));
  books_sold : forall m p, marketplace_at s !! DataDex = Some m ->
      p ∈ DataMarketplace.purchases m -> 0 < Purchase.price p;
  books_uploaded : forall m a, marketplace_at s !! DataDex = Some m ->
      UserStats.datasets_uploaded (stats_of s a) =
        Z.of_nat (length (datasets_owned_by (DataMarketplace.datasets m) a));
  books_purchased : forall m a, marketplace_at s !! DataDex = Some m ->
      UserStats.datasets_purchased (stats_of s a) =
        Z.of_nat (length (purchases_made_by (DataMarketplace.purchases m) a))
      /\ UserStats.total_spent (stats_of s a) =
           total_price (purchases_made_by (DataMarketplace.purchases m) a);
  books_earned : forall m a, marketplace_at s !! DataDex = Some m ->
      0 <= UserStats.total_earned (stats_of s a) <=
        total_price (filter (fun p => Purchase.seller p = a) (DataMarketplace.purchases m));
  books_nobody : marketplace_at s !! DataDex = None -> stats_at s = ∅
}.

(** The sum of the [total_purchases] of some datasets. *)
Fixpoint sum_total_purchases (datasets : list Dataset.t) : Z :=
  match datasets with
  | [] => 0
  | dataset :: rest => Dataset.total_purchases dataset + sum_total_purchases rest
  end.

(** The codes with which a transaction can abort in one of the module's own
    [assert!]s. *)
Definition abort_codes (tx : Tx) : list Z :=
  match tx with
  | TxInitialize _ _ _ => [E_ALREADY_INITIALIZED; E_INVALID_PRICE]
  | TxUpload _ _ _ _ _ _ => [E_INVALID_PRICE]
  | TxPurchase _ _ =>
      [E_DATASET_NOT_FOUND; E_UNAUTHORIZED; E_DATASET_ALREADY_PURCHASED;
       E_INSUFFICIENT_BALANCE]
  | TxDeactivate _ _ => [E_DATASET_NOT_FOUND; E_UNAUTHORIZED]
  | TxUpdatePrice _ _ _ => [E_INVALID_PRICE; E_DATASET_NOT_FOUND; E_UNAUTHORIZED]
  end.

(** What one transaction may do to a dataset: nothing, or, named by its
    id, a new price or the deactivation by its owner, or one more purchase
    by somebody else while it is active. *)
Definition dataset_step (tx : Tx) (d d' : Dataset.t) : Prop :=
  d' = d \/
  match tx with
  | TxUpdatePrice caller dataset_id new_price =>
      caller = Dataset.owner d /\ dataset_id = Dataset.id d /\ 0 < new_price /\
      d' = set_price d new_price
  | TxDeactivate caller dataset_id =>
      caller = Dataset.owner d /\ dataset_id = Dataset.id d /\
      d' = set_is_active d false
  | TxPurchase buyer dataset_id =>
      dataset_id = Dataset.id d /\ buyer <> Dataset.owner d /\
      Dataset.is_active d = true /\
      d' = set_total_purchases d (Dataset.total_purchases d + 1)
  | _ => False
  end.

End Views.

End Marketplace.

(** ** DataDex::RewardSystem *)

Module RewardSystem.

Definition E_NOT_INITIALIZED : Z := 1.
Definition E_ALREADY_INITIALIZED : Z := 2.
Definition E_UNAUTHORIZED : Z := 3.
Definition E_INSUFFICIENT_BALANCE : Z := 4.
Definition E_INVALID_AMOUNT : Z := 5.
Definition E_REWARD_POOL_EMPTY : Z := 6.

Module BonusReward.
Record t := mk {
  recipient : address;
  amount : Z;
  reason : string;
  timestamp : Z
}.
End BonusReward.

Module Milestone.
Record t := mk {
  id : Z;
  name : string;
  description : string;
  requirement : Z;
  reward_amount : Z;
  is_active : bool
}.
End Milestone.

Module BonusRewardPaidEvent.
Record t := mk {
  recipient : address;
  amount : Z;
  reason : string;
  timestamp : Z
}.
End BonusRewardPaidEvent.

Module MilestoneAchievedEvent.
Record t := mk {
  user : address;
  milestone_id : Z;
  milestone_name : string;
  reward_amount : Z;
  timestamp : Z
}.
End MilestoneAchievedEvent.

Module RewardPoolReplenishedEvent.
Record t := mk {
  amount : Z;
  new_balance : Z;
  timestamp : Z
}.
End RewardPoolReplenishedEvent.

Module RewardPool.
Record t := mk {
  balance : Z;
  total_rewards_paid : Z;
  bonus_rewards : list BonusReward.t;
  milestones : list Milestone.t;
  next_milestone_id : Z;
  admin : address;
  bonus_reward_events : list BonusRewardPaidEvent.t;
  milestone_events : list MilestoneAchievedEvent.t;
  pool_replenished_events : list RewardPoolReplenishedEvent.t
}.
End RewardPool.

Module UserAchievements.
Record t := mk {
  milestones_achieved : list Z;
  total_bonus_received : Z;
  last_milestone_check : Z
}.
End UserAchievements.

(** The search loop of [transfer_milestone_reward]: whether a milestone with
    that id was found, and the reward of the first one. *)
Fixpoint find_milestone (milestones : list Milestone.t) (milestone_id : Z) : bool * Z :=
  match milestones with
  | [] => (false, 0)
  | milestone :: rest =>
      if Milestone.id milestone =? milestone_id
      then (true, Milestone.reward_amount milestone)
      else find_milestone rest milestone_id
  end.

(** The loop of [deactivate_milestone]: the first milestone with that id is
    switched off, then the loop breaks. *)
Fixpoint deactivate_first (milestones : list Milestone.t) (milestone_id : Z)
  : list Milestone.t :=
  match milestones with
  | [] => []
  | milestone :: rest =>
      if Milestone.id milestone =? milestone_id
      then Milestone.mk (Milestone.id milestone) (Milestone.name milestone)
             (Milestone.description milestone) (Milestone.requirement milestone)
             (Milestone.reward_amount milestone) false :: rest
      else milestone :: deactivate_first rest milestone_id
  end.

(** The condition under which [check_milestones] awards a milestone. *)
Definition qualifies (milestone : Milestone.t) (achieved : list Z)
  (datasets_uploaded balance : Z) : bool :=
  Milestone.is_active milestone
  && negb (vector_contains achieved (Milestone.id milestone))
  && (Milestone.requirement milestone <=? datasets_uploaded)
  && (Milestone.reward_amount milestone <=? balance).

(** The body of [check_milestones]' loop for an awarded milestone: the pool
    is debited, the id recorded and the event emitted. *)
Definition award (user_addr : address) (current_time : Z) (milestone : Milestone.t)
  (reward_pool : RewardPool.t) (user_achievements : UserAchievements.t)
  : result (RewardPool.t * UserAchievements.t) :=
  let* balance := sub_u64 (RewardPool.balance reward_pool)
                    (Milestone.reward_amount milestone) in
  let* paid := add_u64 (RewardPool.total_rewards_paid reward_pool)
                 (Milestone.reward_amount milestone) in
  let event :=
    MilestoneAchievedEvent.mk user_addr (Milestone.id milestone)
      (Milestone.name milestone) (Milestone.reward_amount milestone) current_time in
  Ok (RewardPool.mk balance paid (RewardPool.bonus_rewards reward_pool)
        (RewardPool.milestones reward_pool) (RewardPool.next_milestone_id reward_pool)
        (RewardPool.admin reward_pool) (RewardPool.bonus_reward_events reward_pool)
        (RewardPool.milestone_events reward_pool ++ [event])
        (RewardPool.pool_replenished_events reward_pool),
      UserAchievements.mk
        (UserAchievements.milestones_achieved user_achievements ++ [Milestone.id milestone])
        (UserAchievements.total_bonus_received user_achievements)
        (UserAchievements.last_milestone_check user_achievements)).

(** The loop of [check_milestones] over the milestones that are left. *)
Fixpoint check_loop (user_addr : address) (datasets_uploaded current_time : Z)
  (milestones : list Milestone.t) (reward_pool : RewardPool.t)
  (user_achievements : UserAchievements.t)
  : result (RewardPool.t * UserAchievements.t) :=
  match milestones with
  | [] => Ok (reward_pool, user_achievements)
  | milestone :: rest =>
      if qualifies milestone (UserAchievements.milestones_achieved user_achievements)
           datasets_uploaded (RewardPool.balance reward_pool)
      then
        let* '(reward_pool', user_achievements') :=
          award user_addr current_time milestone reward_pool user_achievements in
        check_loop user_addr datasets_uploaded current_time rest
          reward_pool' user_achievements'
      else
        check_loop user_addr datasets_uploaded current_time rest
          reward_pool user_achievements
  end.

(** The event that an award emits, the sum of the rewards of the milestones
    awarded in one evaluation, and the pool and the achievements after
    them. *)
Definition achieved_event (user_addr : address) (current_time : Z)
  (milestone : Milestone.t) : MilestoneAchievedEvent.t :=
  MilestoneAchievedEvent.mk user_addr (Milestone.id milestone)
    (Milestone.name milestone) (Milestone.reward_amount milestone) current_time.

Fixpoint total_reward (awarded : list Milestone.t) : Z :=
  match awarded with
  | [] => 0
  | milestone :: rest => Milestone.reward_amount milestone + total_reward rest
  end.

Definition pool_after_awards (user_addr : address) (current_time : Z)
  (awarded : list Milestone.t) (p : RewardPool.t) : RewardPool.t :=
  RewardPool.mk (RewardPool.balance p - total_reward awarded)
    (RewardPool.total_rewards_paid p + total_reward awarded)
    (RewardPool.bonus_rewards p) (RewardPool.milestones p)
    (RewardPool.next_milestone_id p) (RewardPool.admin p)
    (RewardPool.bonus_reward_events p)
    (RewardPool.milestone_events p ++ (achieved_event user_addr current_time <$> awarded))
    (RewardPool.pool_replenished_events p).

Definition achievements_after_awards (awarded : list Milestone.t)
  (ua : UserAchievements.t) : UserAchievements.t :=
  UserAchievements.mk
    (UserAchievements.milestones_achieved ua ++ (Milestone.id <$> awarded))
    (UserAchievements.total_bonus_received ua)
    (UserAchievements.last_milestone_check ua).

(** The pair that an evaluation must debit at most once. *)
Definition event_key (e : MilestoneAchievedEvent.t) : address * Z :=
  (MilestoneAchievedEvent.user e, MilestoneAchievedEvent.milestone_id e).

(** What holds of every pool of a reachable state: the package address
    administers it, its balance is a [u64], its milestones have positive
    rewards. *)
Definition pool_ok (DataDex : address) (p : RewardPool.t) : Prop :=
  RewardPool.admin p = DataDex /\
  0 <= RewardPool.balance p <= MAX_U64 /\
  Forall (fun milestone => 0 < Milestone.reward_amount milestone) (RewardPool.milestones p).

Section WithCoin.

Context {Coin : Type} `{CoinLedger Coin}.

(** The address the package is published at, [@DataDex]. *)
Variable DataDex : address.

Record State := mkState {
  pool_at : gmap address RewardPool.t;
  achievements_at : gmap address UserAchievements.t;
  coins : Coin
}.

Definition add_milestone (admin : address) (name description : string)
  (requirement reward_amount : Z) (s : State) : result State :=
  let admin_addr := admin in
  let* reward_pool := borrow_global (pool_at s) DataDex in
  assert (RewardPool.admin reward_pool =? admin_addr)%N E_UNAUTHORIZED;;
  assert (0 <? reward_amount) E_INVALID_AMOUNT;;
  let milestone :=
    Milestone.mk (RewardPool.next_milestone_id reward_pool) name description
      requirement reward_amount true in
  let* next_id := add_u64 (RewardPool.next_milestone_id reward_pool) 1 in
  let reward_pool' :=
    RewardPool.mk (RewardPool.balance reward_pool)
      (RewardPool.total_rewards_paid reward_pool)
      (RewardPool.bonus_rewards reward_pool)
      (RewardPool.milestones reward_pool ++ [milestone]) next_id
      (RewardPool.admin reward_pool) (RewardPool.bonus_reward_events reward_pool)
      (RewardPool.milestone_events reward_pool)
      (RewardPool.pool_replenished_events reward_pool) in
  Ok (mkState (<[DataDex := reward_pool']> (pool_at s)) (achievements_at s) (coins s)).

Definition create_default_milestones (admin : address) (s : State) : result State :=
  let* s1 := add_milestone admin "First Upload"
               "Upload your first dataset to the marketplace" 1 1000000 s in
  let* s2 := add_milestone admin "Early Adopter"
               "Upload 5 datasets to the marketplace" 5 5000000 s1 in
  let* s3 := add_milestone admin "Power Seller"
               "Upload 10 datasets to the marketplace" 10 10000000 s2 in
  add_milestone admin "Data Champion"
    "Upload 25 datasets to the marketplace" 25 25000000 s3.

Definition initialize_reward_system (admin : address) (initial_balance : Z)
  (s : State) : result State :=
  let admin_addr := admin in
  assert (negb (exists_at (pool_at s) admin_addr)) E_ALREADY_INITIALIZED;;
  let* coins1 :=
    if 0 <? initial_balance
    then of_framework (coin_transfer (coins s) admin admin_addr initial_balance)
    else Ok (coins s) in
  let reward_pool := RewardPool.mk initial_balance 0 [] [] 1 admin_addr [] [] [] in
  let* pools := move_to (pool_at s) admin reward_pool in
  create_default_milestones admin (mkState pools (achievements_at s) coins1).

Definition pay_bonus_reward (admin recipient : address) (amount : Z) (reason : string)
  (now : Z) (s : State) : result State :=
  let admin_addr := admin in
  let* reward_pool := borrow_global (pool_at s) DataDex in
  assert (RewardPool.admin reward_pool =? admin_addr)%N E_UNAUTHORIZED;;
  assert (0 <? amount) E_INVALID_AMOUNT;;
  assert (amount <=? RewardPool.balance reward_pool) E_INSUFFICIENT_BALANCE;;
  let* coins1 := of_framework (coin_transfer (coins s) admin recipient amount) in
  let* balance := sub_u64 (RewardPool.balance reward_pool) amount in
  let* paid := add_u64 (RewardPool.total_rewards_paid reward_pool) amount in
  let current_time := now in
  let bonus_reward := BonusReward.mk recipient amount reason current_time in
  let event := BonusRewardPaidEvent.mk recipient amount reason current_time in
  let reward_pool' :=
    RewardPool.mk balance paid (RewardPool.bonus_rewards reward_pool ++ [bonus_reward])
      (RewardPool.milestones reward_pool) (RewardPool.next_milestone_id reward_pool)
      (RewardPool.admin reward_pool)
      (RewardPool.bonus_reward_events reward_pool ++ [event])
      (RewardPool.milestone_events reward_pool)
      (RewardPool.pool_replenished_events reward_pool) in
  Ok (mkState (<[DataDex := reward_pool']> (pool_at s)) (achievements_at s) coins1).

Definition transfer_milestone_reward (admin recipient : address) (milestone_id : Z)
  (s : State) : result State :=
  let admin_addr := admin in
  let* reward_pool := borrow_global (pool_at s) DataDex in
  assert (RewardPool.admin reward_pool =? admin_addr)%N E_UNAUTHORIZED;;
  let '(milestone_found, reward_amount) :=
    find_milestone (RewardPool.milestones reward_pool) milestone_id in
  assert milestone_found E_INVALID_AMOUNT;;
  assert (reward_amount <=? RewardPool.balance reward_pool) E_INSUFFICIENT_BALANCE;;
  let* coins1 := of_framework (coin_transfer (coins s) admin recipient reward_amount) in
  let* balance := sub_u64 (RewardPool.balance reward_pool) reward_amount in
  let* paid := add_u64 (RewardPool.total_rewards_paid reward_pool) reward_amount in
  let reward_pool' :=
    RewardPool.mk balance paid (RewardPool.bonus_rewards reward_pool)
      (RewardPool.milestones reward_pool) (RewardPool.next_milestone_id reward_pool)
      (RewardPool.admin reward_pool) (RewardPool.bonus_reward_events reward_pool)
      (RewardPool.milestone_events reward_pool)
      (RewardPool.pool_replenished_events reward_pool) in
  Ok (mkState (<[DataDex := reward_pool']> (pool_at s)) (achievements_at s) coins1).

Definition new_user_achievements (now : Z) : UserAchievements.t :=
  UserAchievements.mk [] 0 now.

Definition initialize_user_achievements (user : address) (now : Z) (s : State)
  : result State :=
  let user_addr := user in
  assert (negb (exists_at (achievements_at s) user_addr)) E_ALREADY_INITIALIZED;;
  let* store := move_to (achievements_at s) user (new_user_achievements now) in
  Ok (mkState (pool_at s) store (coins s)).

Definition check_milestones (user : address) (datasets_uploaded : Z) (now : Z)
  (s : State) : result State :=
  let user_addr := user in
  let* reward_pool := borrow_global (pool_at s) DataDex in
  let* store :=
    if negb (exists_at (achievements_at s) user_addr)
    then move_to (achievements_at s) user (new_user_achievements now)
    else Ok (achievements_at s) in
  let* user_achievements := borrow_global store user_addr in
  let current_time := now in
  let* '(reward_pool', user_achievements') :=
    check_loop user_addr datasets_uploaded current_time
      (RewardPool.milestones reward_pool) reward_pool user_achievements in
  let user_achievements'' :=
    UserAchievements.mk (UserAchievements.milestones_achieved user_achievements')
      (UserAchievements.total_bonus_received user_achievements') current_time in
  Ok (mkState (<[DataDex := reward_pool']> (pool_at s))
        (<[user_addr := user_achievements'']> store) (coins s)).

Definition replenish_pool (admin : address) (amount : Z) (now : Z) (s : State)
  : result State :=
  let admin_addr := admin in
  let* reward_pool := borrow_global (pool_at s) DataDex in
  assert (RewardPool.admin reward_pool =? admin_addr)%N E_UNAUTHORIZED;;
  assert (0 <? amount) E_INVALID_AMOUNT;;
  let* coins1 := of_framework (coin_transfer (coins s) admin admin_addr amount) in
  let* balance := add_u64 (RewardPool.balance reward_pool) amount in
  let event := RewardPoolReplenishedEvent.mk amount balance now in
  let reward_pool' :=
    RewardPool.mk balance (RewardPool.total_rewards_paid reward_pool)
      (RewardPool.bonus_rewards reward_pool) (RewardPool.milestones reward_pool)
      (RewardPool.next_milestone_id reward_pool) (RewardPool.admin reward_pool)
      (RewardPool.bonus_reward_events reward_pool)
      (RewardPool.milestone_events reward_pool)
      (RewardPool.pool_replenished_events reward_pool ++ [event]) in
  Ok (mkState (<[DataDex := reward_pool']> (pool_at s)) (achievements_at s) coins1).

Definition deactivate_milestone (admin : address) (milestone_id : Z) (s : State)
  : result State :=
  let admin_addr := admin in
  let* reward_pool := borrow_global (pool_at s) DataDex in
  assert (RewardPool.admin reward_pool =? admin_addr)%N E_UNAUTHORIZED;;
  let reward_pool' :=
    RewardPool.mk (RewardPool.balance reward_pool)
      (RewardPool.total_rewards_paid reward_pool)
      (RewardPool.bonus_rewards reward_pool)
      (deactivate_first (RewardPool.milestones reward_pool) milestone_id)
      (RewardPool.next_milestone_id reward_pool) (RewardPool.admin reward_pool)
      (RewardPool.bonus_reward_events reward_pool)
      (RewardPool.milestone_events reward_pool)
      (RewardPool.pool_replenished_events reward_pool) in
  Ok (mkState (<[DataDex := reward_pool']> (pool_at s)) (achievements_at s) (coins s)).

(** *** Transactions and reachable states *)

Inductive Tx :=
| TxInitialize (admin : address) (initial_balance : Z)
| TxAddMilestone (admin : address) (name description : string)
    (requirement reward_amount : Z)
| TxPayBonus (admin recipient : address) (amount : Z) (reason : string)
| TxTransferMilestone (admin recipient : address) (milestone_id : Z)
| TxInitializeUser (user : address)
| TxCheckMilestones (user : address) (datasets_uploaded : Z)
| TxReplenish (admin : address) (amount : Z)
| TxDeactivateMilestone (admin : address) (milestone_id : Z).

Definition run (tx : Tx) (now : Z) (s : State) : result State :=
  match tx with
  | TxInitialize admin initial_balance => initialize_reward_system admin initial_balance s
  | TxAddMilestone admin name description requirement reward_amount =>
      add_milestone admin name description requirement reward_amount s
  | TxPayBonus admin recipient amount reason =>
      pay_bonus_reward admin recipient amount reason now s
  | TxTransferMilestone admin recipient milestone_id =>
      transfer_milestone_reward admin recipient milestone_id s
  | TxInitializeUser user => initialize_user_achievements user now s
  | TxCheckMilestones user datasets_uploaded =>
      check_milestones user datasets_uploaded now s
  | TxReplenish admin amount => replenish_pool admin amount now s
  | TxDeactivateMilestone admin milestone_id => deactivate_milestone admin milestone_id s
  end.

(** The arguments of an entry function are [u64] values. *)
Definition tx_wf (tx : Tx) : Prop :=
  match tx with
  | TxInitialize _ initial_balance => is_u64 initial_balance
  | TxAddMilestone _ _ _ requirement reward_amount =>
      is_u64 requirement /\ is_u64 reward_amount
  | TxPayBonus _ _ amount _ => is_u64 amount
  | TxTransferMilestone _ _ milestone_id => is_u64 milestone_id
  | TxInitializeUser _ => True
  | TxCheckMilestones _ datasets_uploaded => is_u64 datasets_uploaded
  | TxReplenish _ amount => is_u64 amount
  | TxDeactivateMilestone _ milestone_id => is_u64 milestone_id
  end.

Definition genesis (c : Coin) : State := mkState ∅ ∅ c.

(** A state is reachable when transactions of this module lead to it from
    empty storage; between them anything may happen to the coin ledger. *)
Inductive reachable : State -> Prop :=
| reachable_genesis c : reachable (genesis c)
| reachable_tx s tx now s' :
    reachable s -> tx_wf tx -> is_u64 now -> run tx now s = Ok s' -> reachable s'
| reachable_coins s c :
    reachable s -> reachable (mkState (pool_at s) (achievements_at s) c).

(** The four milestones of [create_default_milestones], and the pool that
    [initialize_reward_system] leaves at the package address. *)
Definition default_milestones : list Milestone.t :=
  [ Milestone.mk 1 "First Upload" "Upload your first dataset to the marketplace"
      1 1000000 true;
    Milestone.mk 2 "Early Adopter" "Upload 5 datasets to the marketplace"
      5 5000000 true;
    Milestone.mk 3 "Power Seller" "Upload 10 datasets to the marketplace"
      10 10000000 true;
    Milestone.mk 4 "Data Champion" "Upload 25 datasets to the marketplace"
      25 25000000 true ].

Definition initial_pool (initial_balance : Z) : RewardPool.t :=
  RewardPool.mk initial_balance 0 [] default_milestones 5 DataDex [] [] [].

(** What holds of a reachable state: the only pool is the one at the
    package address and it is [pool_ok]; no user's achieved ids repeat and
    no bonus total has moved from zero; every milestone event is of an id
    that its user has achieved, and no pair of user and id has two
    events. *)
Record state_inv (s : State) : Prop := {
  inv_pools : forall a p, pool_at s !! a = Some p -> a = DataDex /\ pool_ok DataDex p;
  inv_achieved : forall u ua, achievements_at s !! u = Some ua ->
      NoDup (UserAchievements.milestones_achieved ua)
      /\ UserAchievements.total_bonus_received ua = 0;
  inv_events : forall p, pool_at s !! DataDex = Some p ->
      NoDup (event_key <$> RewardPool.milestone_events p)
      /\ forall e, e ∈ RewardPool.milestone_events p ->
           exists ua, achievements_at s !! MilestoneAchievedEvent.user e = Some ua
                      /\ MilestoneAchievedEvent.milestone_id e
                           ∈ UserAchievements.milestones_achieved ua
}.

(** [later s s']: the state [s'] comes after [s], through any number of
    transactions of this module and changes of the coin ledger. *)
Inductive later (s : State) : State -> Prop :=
| later_now : later s s
| later_tx s1 tx now s2 :
    later s s1 -> run tx now s1 = Ok s2 -> later s s2
| later_coins s1 c :
    later s s1 -> later s (mkState (pool_at s1) (achievements_at s1) c).

(** The transactions that debit the pool. *)
Definition is_payout (tx : Tx) : bool :=
  match tx with
  | TxPayBonus _ _ _ _ | TxTransferMilestone _ _ _ | TxCheckMilestones _ _ => true
  | _ => false
  end.

End WithCoin.

Arguments State : clear implicits.

(** *** View functions *)

(** The loops of [get_active_milestones] and [get_bonus_rewards_for_user]:
    what matches is pushed onto the result in the order of the vector. *)
Fixpoint active_milestones (milestones : list Milestone.t) : list Milestone.t :=
  match milestones with
  | [] => []
  | milestone :: rest =>
      if Milestone.is_active milestone
      then milestone :: active_milestones rest
      else active_milestones rest
  end.

Fixpoint bonus_rewards_of (bonus_rewards : list BonusReward.t) (user : address)
  : list BonusReward.t :=
  match bonus_rewards with
  | [] => []
  | bonus :: rest =>
      if (BonusReward.recipient bonus =? user)%N
      then bonus :: bonus_rewards_of rest user
      else bonus_rewards_of rest user
  end.

(** A milestone switched off, and a pool with other milestones. *)
Definition set_inactive (milestone : Milestone.t) : Milestone.t :=
  Milestone.mk (Milestone.id milestone) (Milestone.name milestone)
    (Milestone.description milestone) (Milestone.requirement milestone)
    (Milestone.reward_amount milestone) false.

Definition set_milestones (p : RewardPool.t) (milestones : list Milestone.t)
  : RewardPool.t :=
  RewardPool.mk (RewardPool.balance p) (RewardPool.total_rewards_paid p)
    (RewardPool.bonus_rewards p) milestones (RewardPool.next_milestone_id p)
    (RewardPool.admin p) (RewardPool.bonus_reward_events p)
    (RewardPool.milestone_events p) (RewardPool.pool_replenished_events p).

(** The sums of the amounts of a bonus history, of the rewards of the
    milestone events and of the amounts of the replenishments. *)
Fixpoint total_bonus (bonus_rewards : list BonusReward.t) : Z :=
  match bonus_rewards with
  | [] => 0
  | bonus :: rest => BonusReward.amount bonus + total_bonus rest
  end.

Fixpoint total_achieved (events : list MilestoneAchievedEvent.t) : Z :=
  match events with
  | [] => 0
  | event :: rest => MilestoneAchievedEvent.reward_amount event + total_achieved rest
  end.

Fixpoint total_replenished (events : list RewardPoolReplenishedEvent.t) : Z :=
  match events with
  | [] => 0
  | event :: rest => RewardPoolReplenishedEvent.amount event + total_replenished rest
  end.

(** The event that [pay_bonus_reward] emits for a bonus. *)
Definition bonus_event (bonus : BonusReward.t) : BonusRewardPaidEvent.t :=
  BonusRewardPaidEvent.mk (BonusReward.recipient bonus) (BonusReward.amount bonus)
    (BonusReward.reason bonus) (BonusReward.timestamp bonus).

(** What the lists and the counters of the pool of a reachable state have to
    do with each other: the milestone at position [i] has the id [i + 1] and
    the next id is one more than the number of milestones; the bonus events
    are those of the bonus history, whose amounts are positive; and the sum
    of the bonuses and of the rewards of the milestone events is at most
    [total_rewards_paid]. *)
Record pool_books (p : RewardPool.t) : Prop := {
  pool_ids : forall i milestone, RewardPool.milestones p !! i = Some milestone ->
      Milestone.id milestone = Z.of_nat i + 1;
  pool_next :
      RewardPool.next_milestone_id p = Z.of_nat (length (RewardPool.milestones p)) + 1;
  pool_events :
      RewardPool.bonus_reward_events p = bonus_event <$> RewardPool.bonus_rewards p;
  pool_bonuses :
      Forall (fun bonus => 0 < BonusReward.amount bonus) (RewardPool.bonus_rewards p);
  pool_paid :
      total_bonus (RewardPool.bonus_rewards p)
        + total_achieved (RewardPool.milestone_events p)
      <= RewardPool.total_rewards_paid p
}.

(** What the balance and the total paid add up to, less what was put in. *)
Definition net_funding (p : RewardPool.t) : Z :=
  RewardPool.balance p + RewardPool.total_rewards_paid p
  - total_replenished (RewardPool.pool_replenished_events p).

(** What may happen to a milestone: nothing but being switched off. *)
Definition milestone_kept (m m' : Milestone.t) : Prop :=
  Milestone.id m' = Milestone.id m /\
  Milestone.name m' = Milestone.name m /\
  Milestone.description m' = Milestone.description m /\
  Milestone.requirement m' = Milestone.requirement m /\
  Milestone.reward_amount m' = Milestone.reward_amount m /\
  (Milestone.is_active m' = true -> Milestone.is_active m = true).

(** What one transaction may do to the pool of the package address: the
    net funding and the administrator stay, every milestone stays in its
    place and can only be switched off, and the three histories are only
    appended to. *)
Record pool_step (p p' : RewardPool.t) : Prop := {
  step_funding : net_funding p' = net_funding p;
  step_admin : RewardPool.admin p' = RewardPool.admin p;
  step_milestones : forall i m, RewardPool.milestones p !! i = Some m ->
      exists m', RewardPool.milestones p' !! i = Some m' /\ milestone_kept m m';
  step_bonus : RewardPool.bonus_rewards p `prefix_of` RewardPool.bonus_rewards p';
  step_achieved : RewardPool.milestone_events p `prefix_of` RewardPool.milestone_events p';
  step_replenished :
      RewardPool.pool_replenished_events p `prefix_of` RewardPool.pool_replenished_events p'
}.

(** The codes with which a transaction can abort in one of the module's own
    [assert!]s. *)
Definition abort_codes (tx : Tx) : list Z :=
  match tx with
  | TxInitialize _ _ => [E_ALREADY_INITIALIZED; E_UNAUTHORIZED]
  | TxAddMilestone _ _ _ _ _ => [E_UNAUTHORIZED; E_INVALID_AMOUNT]
  | TxPayBonus _ _ _ _ => [E_UNAUTHORIZED; E_INVALID_AMOUNT; E_INSUFFICIENT_BALANCE]
  | TxTransferMilestone _ _ _ =>
      [E_UNAUTHORIZED; E_INVALID_AMOUNT; E_INSUFFICIENT_BALANCE]
  | TxInitializeUser _ => [E_ALREADY_INITIALIZED]
  | TxCheckMilestones _ _ => []
  | TxReplenish _ _ => [E_UNAUTHORIZED; E_INVALID_AMOUNT]
  | TxDeactivateMilestone _ _ => [E_UNAUTHORIZED]
  end.

(** The entry functions that start by borrowing the pool. *)
Definition needs_pool (tx : Tx) : bool :=
  match tx with
  | TxInitialize _ _ | TxInitializeUser _ => false
  | _ => true
  end.

Section Views.

Context {Coin : Type}.

Variable DataDex : address.

Definition get_reward_pool_balance (s : State Coin) : result Z :=
  let* reward_pool := borrow_global (pool_at s) DataDex in
  Ok (RewardPool.balance reward_pool).

Definition get_total_rewards_paid (s : State Coin) : result Z :=
  let* reward_pool := borrow_global (pool_at s) DataDex in
  Ok (RewardPool.total_rewards_paid reward_pool).

Definition get_active_milestones (s : State Coin) : result (list Milestone.t) :=
  let* reward_pool := borrow_global (pool_at s) DataDex in
  Ok (active_milestones (RewardPool.milestones reward_pool)).

Definition get_user_achievements (user : address) (s : State Coin)
  : option UserAchievements.t :=
  if exists_at (achievements_at s) user then achievements_at s !! user else None.

Definition get_bonus_rewards_for_user (user : address) (s : State Coin)
  : result (list BonusReward.t) :=
  let* reward_pool := borrow_global (pool_at s) DataDex in
  Ok (bonus_rewards_of (RewardPool.bonus_rewards reward_pool) user).

End Views.

End RewardSystem.

(** ** The scenarios of the test module

    The states that [DataDex::MarketplaceTests] builds, on the small ledger:
    the package address initialises both modules, a seller lists a dataset,
    a buyer purchases it, the seller deactivates it; a user is evaluated
    against the milestones and paid. *)

Module Scenario.

Definition datadex : address := 0xDA7ADE%N.
Definition seller : address := 0x123%N.
Definition buyer : address := 0x456%N.
Definition now : Z := 1700000000.

Definition funded : gmap address Z :=
  {[ datadex := 1000000000; seller := 100000000; buyer := 500000000 ]}.

Definition tx_initialize : Marketplace.Tx := Marketplace.TxInitialize datadex 5 datadex.

Definition tx_upload : Marketplace.Tx :=
  Marketplace.TxUpload seller "QmXhJKgKJhGJhGJhGJhGJhGJhGJhGJhGJhGJhGJhGJh"
    "Sales Data Q1 2024" "Quarterly sales data for retail business"
    "Business Analytics" 50000000.

Definition tx_purchase : Marketplace.Tx := Marketplace.TxPurchase buyer 1.

Definition tx_deactivate : Marketplace.Tx := Marketplace.TxDeactivate seller 1.

(** The listing and the purchase record of the scenario. *)
Definition the_dataset : Marketplace.Dataset.t :=
  Marketplace.Dataset.mk 1 "QmXhJKgKJhGJhGJhGJhGJhGJhGJhGJhGJhGJhGJhGJh"
    "Sales Data Q1 2024" "Quarterly sales data for retail business"
    "Business Analytics" 50000000 seller now 0 true.

Definition the_purchase : Marketplace.Purchase.t :=
  Marketplace.Purchase.mk 1 buyer seller 50000000 now.

Definition opened : Marketplace.State (gmap address Z) :=
  commit (Marketplace.run datadex tx_initialize now) (Marketplace.genesis funded).

Definition listed : Marketplace.State (gmap address Z) :=
  commit (Marketplace.run datadex tx_upload now) opened.

Definition sold : Marketplace.State (gmap address Z) :=
  commit (Marketplace.run datadex tx_purchase now) listed.

Definition delisted : Marketplace.State (gmap address Z) :=
  commit (Marketplace.run datadex tx_deactivate now) sold.

Definition tx_pool : RewardSystem.Tx := RewardSystem.TxInitialize datadex 100000000.

Definition tx_check : RewardSystem.Tx := RewardSystem.TxCheckMilestones seller 1.

Definition tx_transfer : RewardSystem.Tx := RewardSystem.TxTransferMilestone datadex seller 1.

Definition tx_bonus : RewardSystem.Tx :=
  RewardSystem.TxPayBonus datadex seller 5000000 "Excellent data quality".

Definition pooled : RewardSystem.State (gmap address Z) :=
  commit (RewardSystem.run datadex tx_pool now) (RewardSystem.genesis funded).

Definition evaluated : RewardSystem.State (gmap address Z) :=
  commit (RewardSystem.run datadex tx_check now) pooled.

Definition rewarded : RewardSystem.State (gmap address Z) :=
  commit (RewardSystem.run datadex tx_transfer now) evaluated.

Definition rewarded_twice : RewardSystem.State (gmap address Z) :=
  commit (RewardSystem.run datadex tx_transfer now) rewarded.

Definition thanked : RewardSystem.State (gmap address Z) :=
  commit (RewardSystem.run datadex tx_bonus now) rewarded_twice.

(** The package's marketplace after the purchase, and the scenario carried
    on: the seller reprices the dataset before deactivating it. *)
Definition sold_marketplace : Marketplace.DataMarketplace.t :=
  Marketplace.DataMarketplace.mk
    [Marketplace.set_total_purchases the_dataset 1] [the_purchase] 2 5 datadex
    [Marketplace.DatasetUploadedEvent.mk 1 seller
       (Marketplace.Dataset.ipfs_hash the_dataset)
       (Marketplace.Dataset.title the_dataset) 50000000 now]
    [Marketplace.DatasetPurchasedEvent.mk 1 buyer seller 50000000 now]
    [Marketplace.RewardPaidEvent.mk seller 47500000 1 now].

Definition tx_reprice : Marketplace.Tx := Marketplace.TxUpdatePrice seller 1 60000000.

Definition repriced : Marketplace.State (gmap address Z) :=
  commit (Marketplace.run datadex tx_reprice now) sold.

Definition repriced_after : Marketplace.State (gmap address Z) :=
  commit (Marketplace.run datadex tx_reprice now) delisted.

(** A pool that cannot cover the first milestone, and the seller evaluated
    against it. *)
Definition tx_small_pool : RewardSystem.Tx := RewardSystem.TxInitialize datadex 500000.

Definition meagre : RewardSystem.State (gmap address Z) :=
  commit (RewardSystem.run datadex tx_small_pool now) (RewardSystem.genesis funded).

Definition passed_over : RewardSystem.State (gmap address Z) :=
  commit (RewardSystem.run datadex tx_check now) meagre.

(** The reward scenario carried on: the pool is replenished; and, from the
    pool as initialised, the first milestone is switched off, or its reward
    transferred. *)
Definition tx_replenish : RewardSystem.Tx := RewardSystem.TxReplenish datadex 50000000.

Definition topped_up : RewardSystem.State (gmap address Z) :=
  commit (RewardSystem.run datadex tx_replenish now) thanked.

Definition tx_switch_off : RewardSystem.Tx := RewardSystem.TxDeactivateMilestone datadex 1.

Definition switched_off : RewardSystem.State (gmap address Z) :=
  commit (RewardSystem.run datadex tx_switch_off now) pooled.

Definition paid_first : RewardSystem.State (gmap address Z) :=
  commit (RewardSystem.run datadex tx_transfer now) pooled.

Definition first_upload : RewardSystem.Milestone.t :=
  RewardSystem.Milestone.mk 1 "First Upload"
    "Upload your first dataset to the marketplace" 1 1000000 true.

(** The pool after the evaluation, the two transfers and the bonus. *)
Definition thanked_pool : RewardSystem.RewardPool.t :=
  RewardSystem.RewardPool.mk 92000000 8000000
    [RewardSystem.BonusReward.mk seller 5000000 "Excellent data quality" now]
    (RewardSystem.default_milestones) 5 datadex
    [RewardSystem.BonusRewardPaidEvent.mk seller 5000000 "Excellent data quality" now]
    [RewardSystem.achieved_event seller now first_upload] [].

End Scenario.

(** * Properties *)

(** ** The error monad and checked arithmetic *)

Lemma bind_Ok {A B : Type} (r : result A) (k : A -> result B) (b : B) :
  bind r k = Ok b -> exists a, r = Ok a /\ k a = Ok b.
Proof. destruct r as [a|e]; simpl; [eauto | discriminate]. Qed.

Lemma assert_Ok (b : bool) (code : Z) (u : unit) : assert b code = Ok u -> b = true.
Proof. destruct b; [reflexivity | discriminate]. Qed.

Lemma assert_true (code : Z) : assert true code = Ok tt.
Proof. reflexivity. Qed.

Lemma assert_false (code : Z) : assert false code = Err (Abort code).
Proof. reflexivity. Qed.

Lemma add_u64_Ok (a b c : Z) : add_u64 a b = Ok c -> c = a + b /\ a + b <= MAX_U64.
Proof.
  unfold add_u64. destruct (Z.leb_spec (a + b) MAX_U64); [|discriminate].
  intros [= <-]. auto.
Qed.

Lemma sub_u64_Ok (a b c : Z) : sub_u64 a b = Ok c -> c = a - b /\ b <= a.
Proof.
  unfold sub_u64. destruct (Z.leb_spec b a); [|discriminate].
  intros [= <-]. auto.
Qed.

Lemma sub_u64_le (a b : Z) : b <= a -> sub_u64 a b = Ok (a - b).
Proof. intros Hle. unfold sub_u64. destruct (Z.leb_spec b a); [reflexivity | lia]. Qed.

Lemma mul_u64_le (a b : Z) : a * b <= MAX_U64 -> mul_u64 a b = Ok (a * b).
Proof. intros Hle. unfold mul_u64. destruct (Z.leb_spec (a * b) MAX_U64); [reflexivity | lia]. Qed.

Lemma of_framework_Ok {A : Type} (o : option A) (a : A) : of_framework o = Ok a -> o = Some a.
Proof. destruct o; simpl; congruence. Qed.

Lemma borrow_global_Ok {R : Type} (store : gmap address R) (a : address) (r : R) :
  borrow_global store a = Ok r -> store !! a = Some r.
Proof. unfold borrow_global. destruct (store !! a); congruence. Qed.

Lemma move_to_Ok {R : Type} (store store' : gmap address R) (a : address) (r : R) :
  move_to store a r = Ok store' -> store !! a = None /\ store' = <[a := r]> store.
Proof. unfold move_to. destruct (store !! a); [discriminate|]. intros [= <-]. auto. Qed.

Lemma vector_borrow_Ok {A : Type} (v : list A) (i : nat) (x : A) :
  vector_borrow v i = Ok x -> v !! i = Some x.
Proof. unfold vector_borrow. destruct (v !! i); congruence. Qed.

Lemma option_extract_Ok {A : Type} (o : option A) (x : A) :
  option_extract o = Ok x -> o = Some x.
Proof. destruct o; simpl; congruence. Qed.

Lemma exists_at_true {R : Type} (store : gmap address R) (a : address) :
  exists_at store a = true <-> is_Some (store !! a).
Proof.
  unfold exists_at. destruct (store !! a) eqn:E; split; intros H; eauto.
  - discriminate.
  - destruct H; discriminate.
Qed.

Lemma exists_at_false {R : Type} (store : gmap address R) (a : address) :
  exists_at store a = false <-> store !! a = None.
Proof. unfold exists_at. destruct (store !! a); split; congruence. Qed.

Lemma vector_contains_spec (v : list Z) (x : Z) : vector_contains v x = true <-> x ∈ v.
Proof.
  induction v as [|y v IH]; simpl.
  - split; [discriminate | intros Hin; inversion Hin].
  - destruct (Z.eqb_spec y x) as [->|Hne].
    + split; [intros _; left | reflexivity].
    + rewrite IH. split; [intros Hin; now right|].
      intros Hin. inversion Hin; subst; [congruence | assumption].
Qed.

Lemma bind_Err {A B : Type} (r : result A) (k : A -> result B) (e : error) :
  bind r k = Err e -> r = Err e \/ exists a, r = Ok a /\ k a = Err e.
Proof. destruct r as [a|e']; simpl; [eauto | intros [= ->]; auto]. Qed.

Lemma borrow_global_no_abort {R : Type} (store : gmap address R) (a : address) (c : Z) :
  borrow_global store a <> Err (Abort c).
Proof. unfold borrow_global. destruct (store !! a); discriminate. Qed.

Lemma move_to_no_abort {R : Type} (store : gmap address R) (a : address) (r : R) (c : Z) :
  move_to store a r <> Err (Abort c).
Proof. unfold move_to. destruct (store !! a); discriminate. Qed.

Lemma add_u64_no_abort (a b c : Z) : add_u64 a b <> Err (Abort c).
Proof. unfold add_u64. destruct (a + b <=? MAX_U64); discriminate. Qed.

(** Takes the next [assert!] off a chain of binds that went through. *)
Ltac take_assert H :=
  let u := fresh "u" in
  let Hu := fresh "Hassert" in
  apply bind_Ok in H as (u & Hu & H); apply assert_Ok in Hu.

(** *** The codes of the aborts *)

Lemma aw_Ok {A : Type} (cs : list Z) (a : A) : aborts_within cs (Ok a).
Proof. intros c Hc. discriminate. Qed.

Lemma aw_bind {A B : Type} (cs : list Z) (r : result A) (k : A -> result B) :
  aborts_within cs r -> (forall a, aborts_within cs (k a)) -> aborts_within cs (bind r k).
Proof.
  intros Hr Hk c Hc. apply bind_Err in Hc as [Hc | (a & _ & Hc)]; [now apply Hr|].
  now apply (Hk a).
Qed.

Lemma aw_assert (cs : list Z) (b : bool) (code : Z) :
  code ∈ cs -> aborts_within cs (assert b code).
Proof. intros Hin c. destruct b; simpl; [discriminate|]. now intros [= <-]. Qed.

Lemma aw_borrow_global {R : Type} (cs : list Z) (store : gmap address R) (a : address) :
  aborts_within cs (borrow_global store a).
Proof. intros c Hc. now apply borrow_global_no_abort in Hc. Qed.

Lemma aw_move_to {R : Type} (cs : list Z) (store : gmap address R) (a : address) (r : R) :
  aborts_within cs (move_to store a r).
Proof. intros c Hc. now apply move_to_no_abort in Hc. Qed.

Lemma aw_add_u64 (cs : list Z) (a b : Z) : aborts_within cs (add_u64 a b).
Proof. intros c Hc. now apply add_u64_no_abort in Hc. Qed.

Lemma aw_sub_u64 (cs : list Z) (a b : Z) : aborts_within cs (sub_u64 a b).
Proof. intros c. unfold sub_u64. destruct (b <=? a); discriminate. Qed.

Lemma aw_of_framework {A : Type} (cs : list Z) (o : option A) :
  aborts_within cs (of_framework o).
Proof. intros c. destruct o; discriminate. Qed.

Lemma aw_vector_borrow {A : Type} (cs : list Z) (v : list A) (i : nat) :
  aborts_within cs (vector_borrow v i).
Proof. intros c. unfold vector_borrow. destruct (v !! i); discriminate. Qed.

Lemma aw_option_extract {A : Type} (cs : list Z) (o : option A) :
  aborts_within cs (option_extract o).
Proof. intros c. destruct o; discriminate. Qed.

(** Walks down a chain of binds; [special] closes what is particular to a
    module. *)
Ltac aw_chain_with special :=
  repeat first
    [ apply aw_Ok | apply aw_borrow_global | apply aw_move_to | apply aw_add_u64
    | apply aw_sub_u64 | apply aw_of_framework | apply aw_vector_borrow | apply aw_option_extract
    | special
    | apply aw_assert; apply list_elem_of_In; simpl; tauto
    | apply aw_bind; [|intros ?]
    | match goal with
      | |- aborts_within _ (if ?b then _ else _) => destruct b
      | |- aborts_within _ (match ?x with pair _ _ => _ end) => destruct x
      end ].

(** ** Marketplace *)

Module MarketplaceProperties.

Import Marketplace.

(** C1: for a price between 1 and 10^15 and a fee percentage between 0 and
    20, the split of [purchase_dataset] does not overflow, the fee is
    [price * fee_percentage / 100] rounded down, the seller receives
    [price - fee], the two parts add up to the price, and what the rounding
    leaves over is the seller's: the seller receives at least the exact
    [(100 - fee_percentage)] percent and less than one unit more. *)
Theorem payment_split_exact (price fee_percentage : Z) :
  1 <= price <= 10 ^ 15 ->
  0 <= fee_percentage <= 20 ->
  exists fee seller_amount,
    payment_split price fee_percentage = Ok (fee, seller_amount) /\
    fee = price * fee_percentage / 100 /\
    seller_amount = price - fee /\
    fee + seller_amount = price /\
    is_u64 (price * fee_percentage) /\ is_u64 fee /\ is_u64 seller_amount /\
    100 * fee <= price * fee_percentage < 100 * (fee + 1) /\
    price * (100 - fee_percentage) <= 100 * seller_amount
      < price * (100 - fee_percentage) + 100.
Proof.
  intros Hprice Hfee.
  assert (Hpow : 10 ^ 15 = 1000000000000000) by reflexivity.
  assert (Hprod : 0 <= price * fee_percentage <= 20 * 10 ^ 15) by nia.
  pose proof (Z.div_mod (price * fee_percentage) 100 ltac:(lia)) as Hdm.
  pose proof (Z.mod_pos_bound (price * fee_percentage) 100 ltac:(lia)) as Hmod.
  set (fee := price * fee_percentage / 100) in *.
  assert (Hfee_le : 0 <= fee <= price) by nia.
  exists fee, (price - fee).
  unfold payment_split.
  rewrite mul_u64_le by (unfold MAX_U64; lia). simpl.
  rewrite sub_u64_le by lia. simpl.
  unfold is_u64, MAX_U64.
  repeat split; try lia.
Qed.

Lemma payment_split_exact_witness :
  payment_split 50000000 5 = Ok (2500000, 47500000).
Proof.
  destruct (payment_split_exact 50000000 5 ltac:(lia) ltac:(lia))
    as (fee & seller_amount & Hsplit & Hfee & Hseller & _).
  rewrite Hsplit, Hseller, Hfee. reflexivity.
Defined.

(** *** Searching the listings and the purchases *)

Lemma find_from_lookup (ds : list Dataset.t) (x : Z) (k i : nat) :
  find_from ds x k = Some i ->
  (k <= i)%nat /\ exists d, ds !! (i - k)%nat = Some d /\ Dataset.id d = x.
Proof.
  revert k. induction ds as [|d ds IH]; intros k; simpl; [discriminate|].
  destruct (Z.eqb_spec (Dataset.id d) x) as [Heq|Hne].
  - intros [= <-]. split; [lia|]. exists d. now rewrite Nat.sub_diag.
  - intros Hfind. apply IH in Hfind as (Hle & d' & Hd' & Hid).
    split; [lia|]. exists d'. split; [|assumption].
    replace (i - k)%nat with (S (i - S k)) by lia. exact Hd'.
Qed.

Lemma find_dataset_by_id_lookup (ds : list Dataset.t) (x : Z) (i : nat) :
  find_dataset_by_id ds x = Some i -> exists d, ds !! i = Some d /\ Dataset.id d = x.
Proof.
  intros Hfind. apply find_from_lookup in Hfind as (_ & d & Hd & Hid).
  rewrite Nat.sub_0_r in Hd. eauto.
Qed.

Lemma find_from_app (ds extra : list Dataset.t) (x : Z) (k i : nat) :
  find_from ds x k = Some i -> find_from (ds ++ extra) x k = Some i.
Proof.
  revert k. induction ds as [|d ds IH]; intros k; simpl; [discriminate|].
  destruct (Dataset.id d =? x); [trivial | apply IH].
Qed.

Lemma find_from_ids (ds ds' : list Dataset.t) (x : Z) (k : nat) :
  Dataset.id <$> ds = Dataset.id <$> ds' -> find_from ds x k = find_from ds' x k.
Proof.
  revert ds' k. induction ds as [|d ds IH]; intros [|d' ds'] k; simpl; try discriminate.
  - reflexivity.
  - intros [= -> Hrest]. now rewrite (IH ds' (S k) Hrest).
Qed.

Lemma map_insert_same {A B : Type} (f : A -> B) (l : list A) (i : nat) (x y : A) :
  l !! i = Some x -> f y = f x -> f <$> <[i := y]> l = f <$> l.
Proof.
  intros Hx Hf. rewrite list_fmap_insert, Hf.
  apply list_insert_id. now rewrite list_lookup_fmap, Hx.
Qed.

Lemma has_purchased_dataset_spec (ps : list Purchase.t) (b : address) (x : Z) :
  has_purchased_dataset ps b x = true <-> (b, x) ∈ purchase_key <$> ps.
Proof.
  induction ps as [|p ps IH].
  - simpl. split; [discriminate | intros Hin; inversion Hin].
  - rewrite fmap_cons, elem_of_cons. unfold purchase_key at 1.
    cbn [has_purchased_dataset].
    destruct (N.eqb_spec (Purchase.buyer p) b) as [Hb|Hb];
      destruct (Z.eqb_spec (Purchase.dataset_id p) x) as [Hx|Hx]; simpl.
    + split; [intros _|reflexivity]. left. congruence.
    + rewrite IH. split; [now right|]. intros [Heq|Hin]; [congruence|assumption].
    + rewrite IH. split; [now right|]. intros [Heq|Hin]; [congruence|assumption].
    + rewrite IH. split; [now right|]. intros [Heq|Hin]; [congruence|assumption].
Qed.

(** *** One evolution step keeps the invariant *)

Lemma fresh_marketplace_inv (fee : Z) (recipient : address) :
  0 <= fee <= 20 -> marketplace_inv (fresh_marketplace fee recipient).
Proof.
  intros Hfee. constructor; simpl.
  - exact Hfee.
  - intros i d Hd. destruct i; discriminate.
  - reflexivity.
  - intros p Hin. inversion Hin.
  - constructor.
Qed.

Lemma evolves_inv (m m' : DataMarketplace.t) :
  marketplace_inv m -> evolves m m' -> marketplace_inv m'.
Proof.
  intros [Hfee Hids Hnext Hpur Huniq] Hev.
  destruct Hev as [-> | d Hds Hid Hnx Hps Hf | i d p Hfind Hd Hact Hown Hnew Hds Hps Hnx Hf
                   | i d d' Hd Hid Hown Hds Hps Hnx Hf].
  - now constructor.
  - constructor.
    + now rewrite Hf.
    + intros i d0. rewrite Hds. intros Hlk.
      apply lookup_app_Some in Hlk as [Hlk | [Hlen Hlk]]; [now apply Hids|].
      destruct (i - length (DataMarketplace.datasets m))%nat eqn:Hi; [|destruct n; discriminate].
      injection Hlk as <-. rewrite Hid, Hnext. lia.
    + rewrite Hnx, Hnext, Hds, length_app. simpl. lia.
    + intros p. rewrite Hps, Hds. intros Hin.
      destruct (Hpur p Hin) as (i & d0 & Hfind & Hd0 & Hne).
      exists i, d0. split; [now apply find_from_app|].
      split; [|assumption]. now apply lookup_app_l_Some.
    + now rewrite Hps.
  - assert (Hsameid : map Dataset.id (DataMarketplace.datasets m') =
                      map Dataset.id (DataMarketplace.datasets m)).
    { rewrite Hds. now apply map_insert_same with (x := d). }
    assert (Hlookup : forall j dj, DataMarketplace.datasets m !! j = Some dj ->
              exists dj', DataMarketplace.datasets m' !! j = Some dj'
                          /\ Dataset.id dj' = Dataset.id dj
                          /\ Dataset.owner dj' = Dataset.owner dj).
    { intros j dj Hdj. rewrite Hds. destruct (decide (i = j)) as [->|Hij].
      - rewrite list_lookup_insert_eq by (now apply lookup_lt_Some in Hdj).
        eexists. split; [reflexivity|]. simpl. split; congruence.
      - rewrite list_lookup_insert_ne by assumption. eauto. }
    constructor.
    + now rewrite Hf.
    + intros j dj' Hdj'.
      assert (Hj : (j < length (DataMarketplace.datasets m))%nat).
      { apply lookup_lt_Some in Hdj'. now rewrite Hds, length_insert in Hdj'. }
      apply lookup_lt_is_Some in Hj as [dj Hdj].
      destruct (Hlookup j dj Hdj) as (dj'' & Hdj'' & Hidj & _).
      rewrite Hdj' in Hdj''. injection Hdj'' as <-. rewrite Hidj. now apply Hids.
    + now rewrite Hnx, Hnext, Hds, length_insert.
    + intros q. rewrite Hps. intros Hin.
      assert (Hq : exists j dj,
                 find_dataset_by_id (DataMarketplace.datasets m) (Purchase.dataset_id q) = Some j
                 /\ DataMarketplace.datasets m !! j = Some dj
                 /\ Dataset.owner dj <> Purchase.buyer q).
      { apply elem_of_app in Hin as [Hin|Hin]; [now apply Hpur|].
        apply list_elem_of_singleton in Hin as ->. eauto. }
      destruct Hq as (j & dj & Hfj & Hdj & Hne).
      destruct (Hlookup j dj Hdj) as (dj' & Hdj' & _ & Hownj).
      exists j, dj'. split; [|split; [assumption | congruence]].
      unfold find_dataset_by_id in *. now rewrite (find_from_ids _ _ _ _ Hsameid).
    + rewrite Hps, fmap_app. simpl. apply NoDup_app. split; [assumption|].
      split; [|apply NoDup_singleton].
      intros k Hk Hk'. apply list_elem_of_singleton in Hk'. subst k.
      apply has_purchased_dataset_spec in Hk. congruence.
  - assert (Hsameid : map Dataset.id (DataMarketplace.datasets m') =
                      map Dataset.id (DataMarketplace.datasets m)).
    { rewrite Hds. now apply map_insert_same with (x := d). }
    assert (Hlookup : forall j dj, DataMarketplace.datasets m !! j = Some dj ->
              exists dj', DataMarketplace.datasets m' !! j = Some dj'
                          /\ Dataset.id dj' = Dataset.id dj
                          /\ Dataset.owner dj' = Dataset.owner dj).
    { intros j dj Hdj. rewrite Hds. destruct (decide (i = j)) as [->|Hij].
      - rewrite list_lookup_insert_eq by (now apply lookup_lt_Some in Hdj).
        eexists. split; [reflexivity|]. split; congruence.
      - rewrite list_lookup_insert_ne by assumption. eauto. }
    constructor.
    + now rewrite Hf.
    + intros j dj' Hdj'.
      assert (Hj : (j < length (DataMarketplace.datasets m))%nat).
      { apply lookup_lt_Some in Hdj'. now rewrite Hds, length_insert in Hdj'. }
      apply lookup_lt_is_Some in Hj as [dj Hdj].
      destruct (Hlookup j dj Hdj) as (dj'' & Hdj'' & Hidj & _).
      rewrite Hdj' in Hdj''. injection Hdj'' as <-. rewrite Hidj. now apply Hids.
    + now rewrite Hnx, Hnext, Hds, length_insert.
    + intros q. rewrite Hps. intros Hin.
      destruct (Hpur q Hin) as (j & dj & Hfj & Hdj & Hne).
      destruct (Hlookup j dj Hdj) as (dj' & Hdj' & _ & Hownj).
      exists j, dj'. split; [|split; [assumption | congruence]].
      unfold find_dataset_by_id in *. now rewrite (find_from_ids _ _ _ _ Hsameid).
    + now rewrite Hps.
Qed.

Section WithCoin.

Context {Coin : Type} `{CoinLedger Coin}.
Variable DataDex : address.

(** *** What a transaction does to the marketplaces *)

Lemma slot_evolves_same (o : option DataMarketplace.t) : slot_evolves o o.
Proof. destruct o; simpl; [now constructor | trivial]. Qed.

Lemma slot_evolves_insert (store : gmap address DataMarketplace.t) (a : address)
  (m m' : DataMarketplace.t) :
  store !! a = Some m -> evolves m m' ->
  forall b, slot_evolves (store !! b) (<[a := m']> store !! b).
Proof.
  intros Hm Hev b. destruct (decide (a = b)) as [<-|Hne].
  - now rewrite lookup_insert_eq, Hm.
  - rewrite lookup_insert_ne by assumption. apply slot_evolves_same.
Qed.

Lemma slot_evolves_step (o o' : option DataMarketplace.t) :
  slot_evolves o o' -> slot_step o o'.
Proof. destruct o, o'; simpl; tauto. Qed.

Lemma initialize_slots (admin : address) (fee : Z) (recipient : address) (s s' : State Coin) :
  initialize admin fee recipient s = Ok s' ->
  marketplace_at s !! admin = None /\ fee <= 20 /\
  marketplace_at s' = <[admin := fresh_marketplace fee recipient]> (marketplace_at s).
Proof.
  unfold initialize. intros Hrun.
  take_assert Hrun. take_assert Hrun. rename Hassert0 into Hfee.
  apply bind_Ok in Hrun as (store & Hstore & Hrun).
  apply move_to_Ok in Hstore as [Hnone ->]. injection Hrun as <-. simpl.
  apply Z.leb_le in Hfee. auto.
Qed.

Lemma upload_dataset_slots (account : address) (ipfs_hash title description category : string)
  (price now : Z) (s s' : State Coin) :
  upload_dataset DataDex account ipfs_hash title description category price now s = Ok s' ->
  forall a, slot_evolves (marketplace_at s !! a) (marketplace_at s' !! a).
Proof.
  unfold upload_dataset. intros Hrun.
  take_assert Hrun.
  apply bind_Ok in Hrun as (marketplace & Hm & Hrun). apply borrow_global_Ok in Hm.
  apply bind_Ok in Hrun as (next_id & Hnext & Hrun). apply add_u64_Ok in Hnext as [-> _].
  apply bind_Ok in Hrun as (stats1 & _ & Hrun).
  apply bind_Ok in Hrun as (user_stats & _ & Hrun).
  apply bind_Ok in Hrun as (uploaded & _ & Hrun).
  injection Hrun as <-. simpl.
  apply slot_evolves_insert with (m := marketplace); [assumption|].
  eapply evolves_upload; simpl; reflexivity.
Qed.

Lemma purchase_dataset_slots (buyer : address) (dataset_id now : Z) (s s' : State Coin) :
  purchase_dataset DataDex buyer dataset_id now s = Ok s' ->
  forall a, slot_evolves (marketplace_at s !! a) (marketplace_at s' !! a).
Proof.
  unfold purchase_dataset. intros Hrun.
  apply bind_Ok in Hrun as (marketplace & Hm & Hrun). apply borrow_global_Ok in Hm.
  take_assert Hrun.
  apply bind_Ok in Hrun as (index & Hindex & Hrun). apply option_extract_Ok in Hindex.
  apply bind_Ok in Hrun as (dataset & Hdataset & Hrun). apply vector_borrow_Ok in Hdataset.
  take_assert Hrun. rename Hassert0 into Hactive.
  take_assert Hrun. rename Hassert0 into Hself.
  take_assert Hrun. rename Hassert0 into Hnew.
  apply bind_Ok in Hrun as (balance & _ & Hrun).
  take_assert Hrun.
  apply bind_Ok in Hrun as ([fee seller_amount] & _ & Hrun).
  apply bind_Ok in Hrun as (coins1 & _ & Hrun).
  apply bind_Ok in Hrun as (coins2 & _ & Hrun).
  apply bind_Ok in Hrun as (total & Htotal & Hrun). apply add_u64_Ok in Htotal as [-> _].
  apply bind_Ok in Hrun as (stats1 & _ & Hrun).
  apply bind_Ok in Hrun as (buyer_stats & _ & Hrun).
  apply bind_Ok in Hrun as (purchased & _ & Hrun).
  apply bind_Ok in Hrun as (spent & _ & Hrun).
  apply bind_Ok in Hrun as (stats3 & _ & Hrun).
  injection Hrun as <-. simpl.
  apply negb_true_iff, N.eqb_neq in Hself. apply negb_true_iff in Hnew.
  apply slot_evolves_insert with (m := marketplace); [assumption|].
  eapply evolves_purchase with
    (p := Purchase.mk dataset_id buyer (Dataset.owner dataset) (Dataset.price dataset) now);
    simpl; first [eassumption | reflexivity].
Qed.

Lemma deactivate_dataset_slots (owner : address) (dataset_id : Z) (s s' : State Coin) :
  deactivate_dataset DataDex owner dataset_id s = Ok s' ->
  forall a, slot_evolves (marketplace_at s !! a) (marketplace_at s' !! a).
Proof.
  unfold deactivate_dataset. intros Hrun.
  apply bind_Ok in Hrun as (marketplace & Hm & Hrun). apply borrow_global_Ok in Hm.
  take_assert Hrun.
  apply bind_Ok in Hrun as (index & Hindex & Hrun).
  apply bind_Ok in Hrun as (dataset & Hdataset & Hrun). apply vector_borrow_Ok in Hdataset.
  take_assert Hrun.
  injection Hrun as <-. simpl.
  apply slot_evolves_insert with (m := marketplace); [assumption|].
  eapply evolves_edit with (d := dataset) (d' := set_is_active dataset false);
    simpl; first [eassumption | reflexivity].
Qed.

Lemma update_dataset_price_slots (owner : address) (dataset_id new_price : Z) (s s' : State Coin) :
  update_dataset_price DataDex owner dataset_id new_price s = Ok s' ->
  forall a, slot_evolves (marketplace_at s !! a) (marketplace_at s' !! a).
Proof.
  unfold update_dataset_price. intros Hrun.
  take_assert Hrun.
  apply bind_Ok in Hrun as (marketplace & Hm & Hrun). apply borrow_global_Ok in Hm.
  take_assert Hrun.
  apply bind_Ok in Hrun as (index & Hindex & Hrun).
  apply bind_Ok in Hrun as (dataset & Hdataset & Hrun). apply vector_borrow_Ok in Hdataset.
  take_assert Hrun.
  injection Hrun as <-. simpl.
  apply slot_evolves_insert with (m := marketplace); [assumption|].
  eapply evolves_edit with (d := dataset) (d' := set_price dataset new_price);
    simpl; first [eassumption | reflexivity].
Qed.

Lemma run_slots (tx : Tx) (now : Z) (s s' : State Coin) :
  run DataDex tx now s = Ok s' ->
  forall a, slot_step (marketplace_at s !! a) (marketplace_at s' !! a).
Proof.
  destruct tx; simpl; intros Hrun a.
  - apply initialize_slots in Hrun as (Hnone & Hfee & ->).
    destruct (decide (admin = a)) as [<-|Hne].
    + rewrite lookup_insert_eq, Hnone. simpl. eauto.
    + rewrite lookup_insert_ne by assumption.
      apply slot_evolves_step, slot_evolves_same.
  - now apply slot_evolves_step, (upload_dataset_slots _ _ _ _ _ _ _ _ _ Hrun).
  - now apply slot_evolves_step, (purchase_dataset_slots _ _ _ _ _ Hrun).
  - now apply slot_evolves_step, (deactivate_dataset_slots _ _ _ _ Hrun).
  - now apply slot_evolves_step, (update_dataset_price_slots _ _ _ _ _ Hrun).
Qed.

Lemma slot_evolves_inv (o o' : option DataMarketplace.t) (m' : DataMarketplace.t) :
  slot_evolves o o' -> o' = Some m' ->
  (forall m, o = Some m -> marketplace_inv m) -> marketplace_inv m'.
Proof.
  intros Hstep -> IH. destruct o as [m|]; simpl in Hstep; [|contradiction].
  eapply evolves_inv; [now apply IH | assumption].
Qed.


Lemma reachable_inv (s : State Coin) :
  reachable DataDex s ->
  forall a m, marketplace_at s !! a = Some m -> marketplace_inv m.
Proof.
  induction 1 as [c | s tx now s' Hreach IH Hwf Hnow Hrun | s c Hreach IH]; intros a m Hm.
  - simpl in Hm. rewrite lookup_empty in Hm. discriminate.
  - destruct tx; simpl in Hrun, Hwf.
    + apply initialize_slots in Hrun as (Hnone & Hfee & Hstore).
      rewrite Hstore in Hm. destruct (decide (admin = a)) as [<-|Hne].
      * rewrite lookup_insert_eq in Hm. injection Hm as <-.
        apply fresh_marketplace_inv. unfold is_u64 in Hwf. lia.
      * rewrite lookup_insert_ne in Hm by assumption. eapply IH; eassumption.
    + eapply slot_evolves_inv;
        [exact (upload_dataset_slots _ _ _ _ _ _ _ _ _ Hrun a) | exact Hm | apply IH].
    + eapply slot_evolves_inv;
        [exact (purchase_dataset_slots _ _ _ _ _ Hrun a) | exact Hm | apply IH].
    + eapply slot_evolves_inv;
        [exact (deactivate_dataset_slots _ _ _ _ Hrun a) | exact Hm | apply IH].
    + eapply slot_evolves_inv;
        [exact (update_dataset_price_slots _ _ _ _ _ Hrun a) | exact Hm | apply IH].
  - simpl in Hm. eapply IH; eassumption.
Qed.

(** The fee percentage that [payment_split] receives from a reachable
    marketplace is the one [initialize] accepted: between 0 and 20. *)
Lemma reachable_fee_range (s : State Coin) (a : address) (m : DataMarketplace.t) :
  reachable DataDex s -> marketplace_at s !! a = Some m ->
  0 <= DataMarketplace.platform_fee_percentage m <= 20.
Proof. intros Hreach Hm. now destruct (reachable_inv s Hreach a m Hm). Qed.

(** C2: a purchase that goes through found the dataset active, owned by
    someone else than the buyer, not yet purchased by the buyer, and the
    buyer's balance at least the price.  It appends exactly one Purchase
    record, adds one to that dataset's [total_purchases] and leaves the
    other datasets alone, adds one to the buyer's purchased counter and the
    price to the buyer's spent counter (from zero when the buyer had no
    record), and adds the seller's amount to the seller's earned counter
    when the seller had a record and creates none when the seller had
    none. *)
Theorem purchase_dataset_effects (buyer : address) (dataset_id now : Z) (s s' : State Coin) :
  purchase_dataset DataDex buyer dataset_id now s = Ok s' ->
  exists marketplace index dataset balance fee seller_amount marketplace',
    marketplace_at s !! DataDex = Some marketplace /\
    find_dataset_by_id (DataMarketplace.datasets marketplace) dataset_id = Some index /\
    DataMarketplace.datasets marketplace !! index = Some dataset /\
    Dataset.is_active dataset = true /\
    Dataset.owner dataset <> buyer /\
    has_purchased_dataset (DataMarketplace.purchases marketplace) buyer dataset_id = false /\
    coin_balance (coins s) buyer = Some balance /\
    Dataset.price dataset <= balance /\
    payment_split (Dataset.price dataset)
      (DataMarketplace.platform_fee_percentage marketplace) = Ok (fee, seller_amount) /\
    marketplace_at s' !! DataDex = Some marketplace' /\
    DataMarketplace.purchases marketplace' =
      DataMarketplace.purchases marketplace ++
        [Purchase.mk dataset_id buyer (Dataset.owner dataset) (Dataset.price dataset) now] /\
    DataMarketplace.datasets marketplace' =
      <[index := Dataset.mk (Dataset.id dataset) (Dataset.ipfs_hash dataset)
                   (Dataset.title dataset) (Dataset.description dataset)
                   (Dataset.category dataset) (Dataset.price dataset)
                   (Dataset.owner dataset) (Dataset.created_at dataset)
                   (Dataset.total_purchases dataset + 1) (Dataset.is_active dataset)]>
        (DataMarketplace.datasets marketplace) /\
    (exists dataset',
       DataMarketplace.datasets marketplace' !! index = Some dataset' /\
       Dataset.total_purchases dataset' = Dataset.total_purchases dataset + 1) /\
    (forall j, j <> index ->
       DataMarketplace.datasets marketplace' !! j
         = DataMarketplace.datasets marketplace !! j) /\
    stats_at s' !! buyer =
      Some (buyer_bump (Dataset.price dataset)
              (default new_user_stats (stats_at s !! buyer))) /\
    stats_at s' !! Dataset.owner dataset =
      seller_credit seller_amount <$> (stats_at s !! Dataset.owner dataset) /\
    (forall a, a <> buyer -> a <> Dataset.owner dataset ->
       stats_at s' !! a = stats_at s !! a).
Proof.
  unfold Marketplace.purchase_dataset. intros Hrun.
  apply bind_Ok in Hrun as (marketplace & Hm & Hrun). apply borrow_global_Ok in Hm.
  take_assert Hrun.
  apply bind_Ok in Hrun as (index & Hindex & Hrun). apply option_extract_Ok in Hindex.
  apply bind_Ok in Hrun as (dataset & Hdataset & Hrun). apply vector_borrow_Ok in Hdataset.
  take_assert Hrun. rename Hassert0 into Hactive.
  take_assert Hrun. rename Hassert0 into Hself.
  take_assert Hrun. rename Hassert0 into Hnew.
  apply bind_Ok in Hrun as (balance & Hbalance & Hrun). apply of_framework_Ok in Hbalance.
  take_assert Hrun. rename Hassert0 into Hfunds.
  apply bind_Ok in Hrun as ([fee seller_amount] & Hsplit & Hrun).
  apply bind_Ok in Hrun as (coins1 & _ & Hrun).
  apply bind_Ok in Hrun as (coins2 & _ & Hrun).
  apply bind_Ok in Hrun as (total & Htotal & Hrun). apply add_u64_Ok in Htotal as [-> _].
  apply bind_Ok in Hrun as (stats1 & Hstats1 & Hrun).
  apply bind_Ok in Hrun as (buyer_stats & Hbstats & Hrun). apply borrow_global_Ok in Hbstats.
  apply bind_Ok in Hrun as (purchased & Hpurchased & Hrun).
  apply add_u64_Ok in Hpurchased as [-> _].
  apply bind_Ok in Hrun as (spent & Hspent & Hrun). apply add_u64_Ok in Hspent as [-> _].
  apply bind_Ok in Hrun as (stats3 & Hstats3 & Hrun).
  injection Hrun as <-. simpl.
  apply negb_true_iff, N.eqb_neq in Hself.
  apply negb_true_iff in Hnew. apply Z.leb_le in Hfunds.
  (* the buyer's record, created when it was missing *)
  assert (Hbuyer : buyer_stats = default new_user_stats (stats_at s !! buyer)
                   /\ forall a, a <> buyer -> stats1 !! a = stats_at s !! a).
  { destruct (exists_at (stats_at s) buyer) eqn:Hex; simpl in Hstats1.
    - injection Hstats1 as <-. rewrite Hbstats. auto.
    - apply move_to_Ok in Hstats1 as [Hnone ->].
      rewrite lookup_insert_eq in Hbstats. injection Hbstats as <-.
      rewrite Hnone. split; [reflexivity|].
      intros a Ha. now rewrite lookup_insert_ne. }
  destruct Hbuyer as [-> Hother].
  set (stats2 := <[buyer := _]> stats1) in *.
  assert (Hseller2 : stats2 !! Dataset.owner dataset = stats_at s !! Dataset.owner dataset).
  { unfold stats2. rewrite lookup_insert_ne by congruence. apply Hother. congruence. }
  exists marketplace, index, dataset, balance, fee, seller_amount.
  eexists. rewrite lookup_insert_eq.
  repeat (split; [first [eassumption | reflexivity]|]).
  split.
  { simpl. eexists. split.
    - apply list_lookup_insert_eq. now apply lookup_lt_Some in Hdataset.
    - reflexivity. }
  split.
  { simpl. intros j Hj. apply list_lookup_insert_ne. congruence. }
  unfold exists_at in Hstats3. rewrite Hseller2 in Hstats3.
  destruct (stats_at s !! Dataset.owner dataset) as [seller_stats|] eqn:Hseller.
  - apply bind_Ok in Hstats3 as (seller_stats' & Hb & Hstats3).
    apply borrow_global_Ok in Hb. rewrite Hseller2 in Hb. injection Hb as <-.
    apply bind_Ok in Hstats3 as (earned & Hearned & Hstats3).
    apply add_u64_Ok in Hearned as [-> _]. injection Hstats3 as <-.
    split; [|split].
    + rewrite lookup_insert_ne by congruence. unfold stats2. now rewrite lookup_insert_eq.
    + now rewrite lookup_insert_eq.
    + intros a Ha1 Ha2. rewrite lookup_insert_ne by congruence.
      unfold stats2. rewrite lookup_insert_ne by congruence. now apply Hother.
  - injection Hstats3 as <-. split; [|split].
    + unfold stats2. now rewrite lookup_insert_eq.
    + now rewrite Hseller2.
    + intros a Ha1 Ha2. unfold stats2. rewrite lookup_insert_ne by congruence.
      now apply Hother.
Qed.

(** C3 (as amended): in a reachable state that holds a Purchase of a
    buyer and a dataset id, another [purchase_dataset] of that buyer and
    id aborts and leaves the state as it was: with
    [E_DATASET_ALREADY_PURCHASED] while the listing is active, with
    [E_DATASET_NOT_FOUND] once it has been deactivated.  No two Purchase
    records of a reachable state share buyer and dataset id. *)
Theorem repeat_purchase_rejected (s : State Coin) (m : DataMarketplace.t)
  (p : Purchase.t) (now : Z) :
  reachable DataDex s ->
  marketplace_at s !! DataDex = Some m ->
  p ∈ DataMarketplace.purchases m ->
  (exists i d,
     find_dataset_by_id (DataMarketplace.datasets m) (Purchase.dataset_id p) = Some i /\
     DataMarketplace.datasets m !! i = Some d /\
     purchase_dataset DataDex (Purchase.buyer p) (Purchase.dataset_id p) now s =
       Err (Abort (if Dataset.is_active d then E_DATASET_ALREADY_PURCHASED
                   else E_DATASET_NOT_FOUND))) /\
  commit (purchase_dataset DataDex (Purchase.buyer p) (Purchase.dataset_id p) now) s = s /\
  (forall i j pi pj,
     DataMarketplace.purchases m !! i = Some pi ->
     DataMarketplace.purchases m !! j = Some pj ->
     Purchase.buyer pi = Purchase.buyer pj ->
     Purchase.dataset_id pi = Purchase.dataset_id pj ->
     i = j).
Proof.
  intros Hreach Hm Hin.
  destruct (reachable_inv s Hreach DataDex m Hm) as [_ _ _ Hpur Huniq].
  destruct (Hpur p Hin) as (i & d & Hfind & Hd & Hown).
  assert (Hhas : has_purchased_dataset (DataMarketplace.purchases m)
                   (Purchase.buyer p) (Purchase.dataset_id p) = true).
  { apply has_purchased_dataset_spec.
    change (purchase_key p ∈ purchase_key <$> DataMarketplace.purchases m).
    now apply list_elem_of_fmap_2. }
  assert (Hrun : purchase_dataset DataDex (Purchase.buyer p) (Purchase.dataset_id p) now s =
                 Err (Abort (if Dataset.is_active d then E_DATASET_ALREADY_PURCHASED
                             else E_DATASET_NOT_FOUND))).
  { unfold purchase_dataset, borrow_global. rewrite Hm. simpl. rewrite Hfind. simpl.
    unfold vector_borrow. rewrite Hd. simpl.
    destruct (Dataset.is_active d); simpl; [|reflexivity].
    apply N.eqb_neq in Hown. rewrite Hown. simpl. rewrite Hhas. reflexivity. }
  split; [eauto|]. split.
  - unfold commit. now rewrite Hrun.
  - intros k j pk pj Hk Hj Hb Hid.
    apply (NoDup_lookup _ k j (purchase_key pk) Huniq).
    + now rewrite list_lookup_fmap, Hk.
    + rewrite list_lookup_fmap, Hj. unfold purchase_key. simpl. now rewrite Hb, Hid.
Qed.

(** C4 (as amended): a [purchase_dataset] by the owner of the dataset
    aborts, with [E_UNAUTHORIZED] when the dataset is active and with
    [E_DATASET_NOT_FOUND] when it has been deactivated. *)
Theorem self_purchase_rejected (s : State Coin) (m : DataMarketplace.t)
  (dataset_id now : Z) (i : nat) (d : Dataset.t) :
  marketplace_at s !! DataDex = Some m ->
  find_dataset_by_id (DataMarketplace.datasets m) dataset_id = Some i ->
  DataMarketplace.datasets m !! i = Some d ->
  purchase_dataset DataDex (Dataset.owner d) dataset_id now s =
    Err (Abort (if Dataset.is_active d then E_UNAUTHORIZED else E_DATASET_NOT_FOUND)).
Proof.
  intros Hm Hfind Hd.
  unfold purchase_dataset, borrow_global. rewrite Hm. simpl. rewrite Hfind. simpl.
  unfold vector_borrow. rewrite Hd. simpl.
  destruct (Dataset.is_active d); simpl; [|reflexivity].
  now rewrite N.eqb_refl.
Qed.

(** *** Listings stay where they are *)

Lemma evolves_keeps (m m' : DataMarketplace.t) (i : nat) (d : Dataset.t) :
  evolves m m' -> DataMarketplace.datasets m !! i = Some d ->
  exists d', DataMarketplace.datasets m' !! i = Some d'
             /\ Dataset.id d' = Dataset.id d /\ Dataset.owner d' = Dataset.owner d.
Proof.
  intros Hev Hd.
  destruct Hev as [-> | d0 Hds _ _ _ _ | j dj p _ Hdj _ _ _ Hds _ _ _
                   | j dj dj' Hdj Hid Hown Hds _ _ _].
  - eauto.
  - exists d. rewrite Hds. split; [now apply lookup_app_l_Some | auto].
  - rewrite Hds. destruct (decide (j = i)) as [->|Hne].
    + rewrite list_lookup_insert_eq by (now apply lookup_lt_Some in Hd).
      eexists. split; [reflexivity|]. simpl. split; congruence.
    + rewrite list_lookup_insert_ne by assumption. eauto.
  - rewrite Hds. destruct (decide (j = i)) as [->|Hne].
    + rewrite list_lookup_insert_eq by (now apply lookup_lt_Some in Hd).
      eexists. split; [reflexivity|]. split; congruence.
    + rewrite list_lookup_insert_ne by assumption. eauto.
Qed.

Lemma later_keeps (s s' : State Coin) (a : address) (m : DataMarketplace.t)
  (i : nat) (d : Dataset.t) :
  later DataDex s s' ->
  marketplace_at s !! a = Some m -> DataMarketplace.datasets m !! i = Some d ->
  exists m' d', marketplace_at s' !! a = Some m'
                /\ DataMarketplace.datasets m' !! i = Some d'
                /\ Dataset.id d' = Dataset.id d /\ Dataset.owner d' = Dataset.owner d.
Proof.
  intros Hlater Hm Hd.
  induction Hlater as [| s1 tx now s2 _ IH Hrun | s1 c _ IH].
  - exists m, d. auto.
  - destruct IH as (m1 & d1 & Hm1 & Hd1 & Hid1 & Hown1).
    pose proof (run_slots _ _ _ _ Hrun a) as Hstep. rewrite Hm1 in Hstep.
    destruct (marketplace_at s2 !! a) as [m2|]; simpl in Hstep; [|contradiction].
    destruct (evolves_keeps _ _ _ _ Hstep Hd1) as (d2 & Hd2 & Hid2 & Hown2).
    exists m2, d2. repeat split; congruence.
  - exact IH.
Qed.

Lemma upload_dataset_invalid_price (account : address)
  (ipfs_hash title description category : string) (price now : Z) (s : State Coin) :
  upload_dataset DataDex account ipfs_hash title description category price now s
    = Err (Abort E_INVALID_PRICE) <-> price <= 0.
Proof.
  unfold upload_dataset. destruct (Z.ltb_spec 0 price) as [Hpos|Hnon]; simpl.
  - split; [|lia]. intros Herr. exfalso.
    apply bind_Err in Herr as [Herr | (m & _ & Herr)];
      [now apply borrow_global_no_abort in Herr|].
    apply bind_Err in Herr as [Herr | (next_id & _ & Herr)];
      [now apply add_u64_no_abort in Herr|].
    apply bind_Err in Herr as [Herr | (stats1 & _ & Herr)].
    { destruct (negb _); [now apply move_to_no_abort in Herr | discriminate]. }
    apply bind_Err in Herr as [Herr | (user_stats & _ & Herr)];
      [now apply borrow_global_no_abort in Herr|].
    apply bind_Err in Herr as [Herr | (uploaded & _ & Herr)];
      [now apply add_u64_no_abort in Herr | discriminate].
  - split; [intros _; assumption | reflexivity].
Qed.

(** C8: [upload_dataset] aborts with [E_INVALID_PRICE] exactly when the
    price is not positive.  When it goes through, the new listing is
    appended under the marketplace's next id, with the caller as owner, and
    the next id grows by one.  In a reachable state the listings carry the
    ids 1, 2, 3, ... in the order of their creation, so ids are distinct,
    increase strictly and lie below the next id.  Whatever happens later, a
    listing stays at its place with its id and its owner. *)
Theorem upload_dataset_ids :
  (forall account ipfs_hash title description category price now (s : State Coin),
     upload_dataset DataDex account ipfs_hash title description category price now s
       = Err (Abort E_INVALID_PRICE) <-> price <= 0) /\
  (forall account ipfs_hash title description category price now (s s' : State Coin),
     upload_dataset DataDex account ipfs_hash title description category price now s
       = Ok s' ->
     exists m m',
       marketplace_at s !! DataDex = Some m /\
       marketplace_at s' !! DataDex = Some m' /\
       DataMarketplace.datasets m' =
         DataMarketplace.datasets m ++
           [Dataset.mk (DataMarketplace.next_dataset_id m) ipfs_hash title description
              category price account now 0 true] /\
       DataMarketplace.next_dataset_id m' = DataMarketplace.next_dataset_id m + 1) /\
  (forall (s : State Coin) a m,
     reachable DataDex s -> marketplace_at s !! a = Some m ->
     DataMarketplace.next_dataset_id m =
       Z.of_nat (length (DataMarketplace.datasets m)) + 1 /\
     (forall i d, DataMarketplace.datasets m !! i = Some d ->
        Dataset.id d = Z.of_nat i + 1) /\
     (forall i j di dj,
        DataMarketplace.datasets m !! i = Some di ->
        DataMarketplace.datasets m !! j = Some dj ->
        (i < j)%nat ->
        Dataset.id di < Dataset.id dj < DataMarketplace.next_dataset_id m)) /\
  (forall (s s' : State Coin) a m i d,
     later DataDex s s' ->
     marketplace_at s !! a = Some m -> DataMarketplace.datasets m !! i = Some d ->
     exists m' d',
       marketplace_at s' !! a = Some m' /\
       DataMarketplace.datasets m' !! i = Some d' /\
       Dataset.id d' = Dataset.id d /\ Dataset.owner d' = Dataset.owner d).
Proof.
  split; [|split; [|split]].
  - intros. apply upload_dataset_invalid_price.
  - intros account ipfs_hash title description category price now s s' Hrun.
    unfold upload_dataset in Hrun. take_assert Hrun.
    apply bind_Ok in Hrun as (m & Hm & Hrun). apply borrow_global_Ok in Hm.
    apply bind_Ok in Hrun as (next_id & Hnext & Hrun). apply add_u64_Ok in Hnext as [-> _].
    apply bind_Ok in Hrun as (stats1 & _ & Hrun).
    apply bind_Ok in Hrun as (user_stats & _ & Hrun).
    apply bind_Ok in Hrun as (uploaded & _ & Hrun).
    injection Hrun as <-. simpl.
    exists m. eexists. rewrite lookup_insert_eq.
    split; [assumption|]. split; [reflexivity|]. split; reflexivity.
  - intros s a m Hreach Hm.
    destruct (reachable_inv s Hreach a m Hm) as [_ Hids Hnext _ _].
    split; [assumption|]. split; [assumption|].
    intros i j di dj Hi Hj Hlt.
    rewrite (Hids i di Hi), (Hids j dj Hj), Hnext.
    apply lookup_lt_Some in Hj. lia.
  - intros s s' a m i d Hlater Hm Hd. eapply later_keeps; eassumption.
Qed.

End WithCoin.

(** *** The scenario of the test module *)

Import Scenario.

Lemma opened_reachable : reachable datadex opened.
Proof.
  apply reachable_tx with (s := genesis funded) (tx := tx_initialize) (now := now).
  - constructor.
  - unfold tx_initialize, tx_wf, is_u64, MAX_U64. lia.
  - unfold is_u64, now, MAX_U64. lia.
  - vm_compute. reflexivity.
Qed.

Lemma listed_reachable : reachable datadex listed.
Proof.
  apply reachable_tx with (s := opened) (tx := tx_upload) (now := now).
  - exact opened_reachable.
  - unfold tx_upload, tx_wf, is_u64, MAX_U64. lia.
  - unfold is_u64, now, MAX_U64. lia.
  - vm_compute. reflexivity.
Qed.

Lemma sold_reachable : reachable datadex sold.
Proof.
  apply reachable_tx with (s := listed) (tx := tx_purchase) (now := now).
  - exact listed_reachable.
  - unfold tx_purchase, tx_wf, is_u64, MAX_U64. lia.
  - unfold is_u64, now, MAX_U64. lia.
  - vm_compute. reflexivity.
Qed.

Lemma delisted_reachable : reachable datadex delisted.
Proof.
  apply reachable_tx with (s := sold) (tx := tx_deactivate) (now := now).
  - exact sold_reachable.
  - unfold tx_deactivate, tx_wf, is_u64, MAX_U64. lia.
  - unfold is_u64, now, MAX_U64. lia.
  - vm_compute. reflexivity.
Qed.

Lemma delisted_later : later datadex listed delisted.
Proof.
  apply later_tx with (s1 := sold) (tx := tx_deactivate) (now := now);
    [|vm_compute; reflexivity].
  apply later_tx with (s1 := listed) (tx := tx_purchase) (now := now);
    [constructor | vm_compute; reflexivity].
Qed.

(** The first scenario of the specification: a price of 50_000_000 at 5
    percent leaves the buyer with 50_000_000 spent and the seller, who has a
    record from the upload, with 47_500_000 earned; the marketplace holds
    one Purchase record and the dataset counts one purchase. *)
Lemma purchase_dataset_effects_witness :
  stats_at sold !! buyer = Some (UserStats.mk 0 1 0 50000000) /\
  stats_at sold !! seller = Some (UserStats.mk 1 0 47500000 0) /\
  exists m' d',
    marketplace_at sold !! datadex = Some m' /\
    DataMarketplace.purchases m' = [Purchase.mk 1 buyer seller 50000000 now] /\
    DataMarketplace.datasets m' !! 0%nat = Some d' /\
    Dataset.total_purchases d' = 1.
Proof.
  destruct (purchase_dataset_effects datadex buyer 1 now listed sold)
    as (m & i & d & balance & fee & amount & m' & Hm & Hfind & Hd & _ & _ & _ & _ & _
        & Hsplit & Hm' & Hpurchases & _ & (d' & Hd' & Htotal) & _
        & Hbuyer & Hseller & _).
  { vm_compute. reflexivity. }
  vm_compute in Hm. injection Hm as <-.
  vm_compute in Hfind. injection Hfind as <-.
  vm_compute in Hd. injection Hd as <-.
  vm_compute in Hsplit. injection Hsplit as <- <-.
  split; [|split].
  - rewrite Hbuyer. vm_compute. reflexivity.
  - etransitivity; [exact Hseller|]. vm_compute. reflexivity.
  - exists m', d'. split; [exact Hm'|]. split; [exact Hpurchases|].
    split; [exact Hd' | exact Htotal].
Defined.

Lemma repeat_purchase_rejected_witness :
  purchase_dataset datadex buyer 1 now sold = Err (Abort E_DATASET_ALREADY_PURCHASED) /\
  commit (purchase_dataset datadex buyer 1 now) sold = sold.
Proof.
  destruct (repeat_purchase_rejected datadex sold
              (DataMarketplace.mk [set_total_purchases the_dataset 1] [the_purchase] 2 5
                 datadex
                 [DatasetUploadedEvent.mk 1 seller (Dataset.ipfs_hash the_dataset)
                    (Dataset.title the_dataset) 50000000 now]
                 [DatasetPurchasedEvent.mk 1 buyer seller 50000000 now]
                 [RewardPaidEvent.mk seller 47500000 1 now])
              the_purchase now)
    as ((i & d & Hfind & Hd & Hrun) & Hsame & _).
  - exact sold_reachable.
  - vm_compute. reflexivity.
  - simpl. apply list_elem_of_singleton. reflexivity.
  - vm_compute in Hfind. injection Hfind as <-.
    vm_compute in Hd. injection Hd as <-.
    split; [exact Hrun | exact Hsame].
Defined.

(** C3, as stated, fails: once the seller has deactivated the dataset, the
    buyer's second purchase aborts with [E_DATASET_NOT_FOUND]. *)
Lemma repeat_purchase_after_deactivation :
  reachable datadex delisted /\
  (exists m, marketplace_at delisted !! datadex = Some m
             /\ the_purchase ∈ DataMarketplace.purchases m) /\
  purchase_dataset datadex (Purchase.buyer the_purchase)
    (Purchase.dataset_id the_purchase) now delisted = Err (Abort E_DATASET_NOT_FOUND) /\
  E_DATASET_NOT_FOUND <> E_DATASET_ALREADY_PURCHASED.
Proof.
  split; [exact delisted_reachable|]. split; [|split].
  - eexists. split; [vm_compute; reflexivity|].
    apply list_elem_of_singleton. reflexivity.
  - vm_compute. reflexivity.
  - discriminate.
Qed.

Lemma self_purchase_rejected_witness :
  purchase_dataset datadex seller 1 now listed = Err (Abort E_UNAUTHORIZED).
Proof.
  refine (self_purchase_rejected datadex listed _ 1 now 0%nat the_dataset _ _ _).
  - vm_compute. reflexivity.
  - vm_compute. reflexivity.
  - vm_compute. reflexivity.
Defined.

(** C4, as stated, fails: the owner's purchase of a deactivated dataset
    aborts with [E_DATASET_NOT_FOUND], not with [E_UNAUTHORIZED]. *)
Lemma self_purchase_of_deactivated :
  reachable datadex delisted /\
  (exists m d, marketplace_at delisted !! datadex = Some m
               /\ find_dataset_by_id (DataMarketplace.datasets m) 1 = Some 0%nat
               /\ DataMarketplace.datasets m !! 0%nat = Some d
               /\ Dataset.owner d = seller /\ Dataset.is_active d = false) /\
  purchase_dataset datadex seller 1 now delisted = Err (Abort E_DATASET_NOT_FOUND) /\
  E_DATASET_NOT_FOUND <> E_UNAUTHORIZED.
Proof.
  split; [exact delisted_reachable|]. split; [|split].
  - do 2 eexists. split; [vm_compute; reflexivity|].
    split; [vm_compute; reflexivity|]. split; [vm_compute; reflexivity|].
    split; reflexivity.
  - vm_compute. reflexivity.
  - discriminate.
Qed.

Lemma upload_dataset_ids_witness :
  upload_dataset datadex seller "" "" "" "" 0 now opened = Err (Abort E_INVALID_PRICE) /\
  (exists m' d',
     marketplace_at delisted !! datadex = Some m' /\
     DataMarketplace.datasets m' !! 0%nat = Some d' /\
     Dataset.id d' = 1 /\ Dataset.owner d' = seller).
Proof.
  destruct (upload_dataset_ids (Coin := gmap address Z) datadex)
    as (Hprice & _ & _ & Hkeeps).
  split.
  - apply Hprice. lia.
  - refine (Hkeeps listed delisted datadex _ 0%nat the_dataset delisted_later _ _).
    + vm_compute. reflexivity.
    + vm_compute. reflexivity.
Defined.

End MarketplaceProperties.

(** ** Reward system *)

Module RewardSystemProperties.

Import RewardSystem.

(** *** The evaluation loop *)

Lemma total_reward_nonneg (ms : list Milestone.t) :
  Forall (fun m => 0 < Milestone.reward_amount m) ms -> 0 <= total_reward ms.
Proof. induction 1; simpl; lia. Qed.

Lemma pool_after_no_awards (u : address) (t : Z) (p : RewardPool.t) :
  pool_after_awards u t [] p = p.
Proof.
  destruct p. unfold pool_after_awards. simpl.
  rewrite Z.sub_0_r, Z.add_0_r, app_nil_r. reflexivity.
Qed.

Lemma achievements_after_no_awards (ua : UserAchievements.t) :
  achievements_after_awards [] ua = ua.
Proof. destruct ua. unfold achievements_after_awards. simpl. now rewrite app_nil_r. Qed.

Lemma award_Ok (u : address) (t : Z) (m : Milestone.t) (p p' : RewardPool.t)
  (ua ua' : UserAchievements.t) :
  award u t m p ua = Ok (p', ua') ->
  Milestone.reward_amount m <= RewardPool.balance p /\
  RewardPool.balance p' = RewardPool.balance p - Milestone.reward_amount m /\
  p' = pool_after_awards u t [m] p /\
  ua' = achievements_after_awards [m] ua.
Proof.
  unfold award. intros Hrun.
  apply bind_Ok in Hrun as (balance & Hbal & Hrun). apply sub_u64_Ok in Hbal as [-> Hle].
  apply bind_Ok in Hrun as (paid & Hpaid & Hrun). apply add_u64_Ok in Hpaid as [-> _].
  injection Hrun as <- <-.
  unfold pool_after_awards, achievements_after_awards. simpl.
  rewrite Z.add_0_r. auto.
Qed.

Lemma pool_after_awards_cons (u : address) (t : Z) (m : Milestone.t)
  (rest : list Milestone.t) (p : RewardPool.t) :
  pool_after_awards u t rest (pool_after_awards u t [m] p) = pool_after_awards u t (m :: rest) p.
Proof.
  unfold pool_after_awards. simpl. rewrite <- app_assoc. simpl.
  f_equal; lia.
Qed.

Lemma achievements_after_awards_cons (m : Milestone.t) (rest : list Milestone.t)
  (ua : UserAchievements.t) :
  achievements_after_awards rest (achievements_after_awards [m] ua)
  = achievements_after_awards (m :: rest) ua.
Proof. unfold achievements_after_awards. simpl. now rewrite <- app_assoc. Qed.

(** What one run of the loop does: it awards some of the milestones, each
    of them active, required count reached, not achieved before and not
    achieved twice, and pays their rewards out of the balance. *)
Lemma check_loop_Ok (u : address) (n t : Z) (ms : list Milestone.t)
  (p p' : RewardPool.t) (ua ua' : UserAchievements.t) :
  check_loop u n t ms p ua = Ok (p', ua') ->
  exists awarded,
    p' = pool_after_awards u t awarded p /\
    ua' = achievements_after_awards awarded ua /\
    (forall m, m ∈ awarded -> m ∈ ms) /\
    (NoDup (UserAchievements.milestones_achieved ua) ->
     NoDup (UserAchievements.milestones_achieved ua ++ (Milestone.id <$> awarded))) /\
    (Forall (fun m => 0 < Milestone.reward_amount m) ms ->
     0 <= total_reward awarded /\
     (0 <= RewardPool.balance p -> total_reward awarded <= RewardPool.balance p)).
Proof.
  revert p ua. induction ms as [|m ms IH]; intros p ua; simpl.
  - intros [= <- <-]. exists []. rewrite pool_after_no_awards, achievements_after_no_awards.
    simpl. rewrite app_nil_r. repeat split; auto; try lia.
  - destruct (qualifies m _ n _) eqn:Hq.
    + intros Hrun. apply bind_Ok in Hrun as ([p1 ua1] & Haward & Hrun).
      apply award_Ok in Haward as (Hle & Hbal & -> & ->).
      apply IH in Hrun as (awarded & -> & -> & Hsub & Hnodup & Hsum).
      exists (m :: awarded).
      rewrite pool_after_awards_cons, achievements_after_awards_cons.
      split; [reflexivity|]. split; [reflexivity|]. split; [|split].
      * intros m' Hm'. apply elem_of_cons in Hm' as [->|Hm']; [left | right; auto].
      * intros Hnd. simpl in Hnodup. rewrite <- app_assoc in Hnodup. apply Hnodup.
        apply NoDup_app. split; [assumption|]. split; [|apply NoDup_singleton].
        intros x Hx Hx'. apply list_elem_of_singleton in Hx'. subst x.
        unfold qualifies in Hq. rewrite !andb_true_iff in Hq.
        destruct Hq as [[[_ Hnot] _] _]. apply negb_true_iff in Hnot.
        apply vector_contains_spec in Hx. congruence.
      * intros Hpos. inversion Hpos as [|? ? Hm Hrest]; subst.
        destruct (Hsum Hrest) as [Hsum1 Hsum2]. simpl in Hsum2. simpl. lia.
    + intros Hrun. apply IH in Hrun as (awarded & -> & -> & Hsub & Hnodup & Hsum).
      exists awarded. split; [reflexivity|]. split; [reflexivity|]. split; [|split].
      * intros m' Hm'. right. auto.
      * assumption.
      * intros Hpos. inversion Hpos; subst. auto.
Qed.

(** A second run of the loop, on a balance that is not larger and over
    achievements that contain those of the first, awards nothing. *)
Lemma check_loop_again (u : address) (n t t2 : Z) (ms : list Milestone.t)
  (p p' p2 : RewardPool.t) (ua ua' ua2 : UserAchievements.t) :
  Forall (fun m => 0 < Milestone.reward_amount m) ms ->
  check_loop u n t ms p ua = Ok (p', ua') ->
  RewardPool.balance p2 <= RewardPool.balance p' ->
  (forall x, x ∈ UserAchievements.milestones_achieved ua' ->
             x ∈ UserAchievements.milestones_achieved ua2) ->
  check_loop u n t2 ms p2 ua2 = Ok (p2, ua2).
Proof.
  intros Hpos. revert p ua. induction Hpos as [|m ms Hm Hpos IH]; intros p ua; simpl.
  - reflexivity.
  - intros Hrun Hbal Hach.
    assert (Hskip : qualifies m (UserAchievements.milestones_achieved ua2) n
                      (RewardPool.balance p2) = false).
    { destruct (qualifies m (UserAchievements.milestones_achieved ua) n
                  (RewardPool.balance p)) eqn:Hq.
      - apply bind_Ok in Hrun as ([p1 ua1] & Haward & Hrun).
        apply award_Ok in Haward as (_ & _ & -> & ->).
        apply check_loop_Ok in Hrun as (awarded & _ & -> & _).
        unfold qualifies. apply andb_false_iff. left. apply andb_false_iff. left.
        apply andb_false_iff. right. apply negb_false_iff, vector_contains_spec.
        apply Hach. simpl. rewrite <- app_assoc. apply elem_of_app. right. left.
      - pose proof Hrun as Hrun'.
        apply check_loop_Ok in Hrun' as (awarded & -> & -> & _ & _ & Hsum).
        destruct (Hsum Hpos) as [Hsum1 _]. simpl in Hbal.
        unfold qualifies in *. rewrite !andb_false_iff in Hq. rewrite !andb_false_iff.
        destruct Hq as [[[Hq|Hq]|Hq]|Hq]; auto.
        + left. left. right. apply negb_false_iff, vector_contains_spec.
          apply negb_false_iff, vector_contains_spec in Hq.
          apply Hach. simpl. apply elem_of_app. now left.
        + right. apply Z.leb_gt. apply Z.leb_gt in Hq. lia. }
    rewrite Hskip.
    destruct (qualifies m (UserAchievements.milestones_achieved ua) n
                (RewardPool.balance p)).
    + apply bind_Ok in Hrun as ([p1 ua1] & _ & Hrun). eapply IH; eassumption.
    + eapply IH; eassumption.
Qed.

Section WithCoin.

Context {Coin : Type} `{CoinLedger Coin}.
Variable DataDex : address.

(** *** What each entry function does when it goes through *)

Lemma add_milestone_Ok (admin : address) (name description : string)
  (requirement reward_amount : Z) (s s' : State Coin) :
  add_milestone DataDex admin name description requirement reward_amount s = Ok s' ->
  exists p,
    pool_at s !! DataDex = Some p /\ RewardPool.admin p = admin /\ 0 < reward_amount /\
    s' = mkState
           (<[DataDex :=
                RewardPool.mk (RewardPool.balance p) (RewardPool.total_rewards_paid p)
                  (RewardPool.bonus_rewards p)
                  (RewardPool.milestones p ++
                     [Milestone.mk (RewardPool.next_milestone_id p) name description
                        requirement reward_amount true])
                  (RewardPool.next_milestone_id p + 1) (RewardPool.admin p)
                  (RewardPool.bonus_reward_events p) (RewardPool.milestone_events p)
                  (RewardPool.pool_replenished_events p)]> (pool_at s))
           (achievements_at s) (coins s).
Proof.
  unfold add_milestone. intros Hrun.
  apply bind_Ok in Hrun as (p & Hp & Hrun). apply borrow_global_Ok in Hp.
  take_assert Hrun. apply N.eqb_eq in Hassert.
  take_assert Hrun. apply Z.ltb_lt in Hassert0.
  apply bind_Ok in Hrun as (next_id & Hnext & Hrun). apply add_u64_Ok in Hnext as [-> _].
  injection Hrun as <-. exists p. auto.
Qed.

Lemma pay_bonus_reward_Ok (admin recipient : address) (amount : Z) (reason : string)
  (now : Z) (s s' : State Coin) :
  pay_bonus_reward DataDex admin recipient amount reason now s = Ok s' ->
  exists p c,
    pool_at s !! DataDex = Some p /\ RewardPool.admin p = admin /\
    0 < amount <= RewardPool.balance p /\
    s' = mkState
           (<[DataDex :=
                RewardPool.mk (RewardPool.balance p - amount)
                  (RewardPool.total_rewards_paid p + amount)
                  (RewardPool.bonus_rewards p ++
                     [BonusReward.mk recipient amount reason now])
                  (RewardPool.milestones p) (RewardPool.next_milestone_id p)
                  (RewardPool.admin p)
                  (RewardPool.bonus_reward_events p ++
                     [BonusRewardPaidEvent.mk recipient amount reason now])
                  (RewardPool.milestone_events p)
                  (RewardPool.pool_replenished_events p)]> (pool_at s))
           (achievements_at s) c.
Proof.
  unfold pay_bonus_reward. intros Hrun.
  apply bind_Ok in Hrun as (p & Hp & Hrun). apply borrow_global_Ok in Hp.
  take_assert Hrun. apply N.eqb_eq in Hassert.
  take_assert Hrun. apply Z.ltb_lt in Hassert0.
  take_assert Hrun. apply Z.leb_le in Hassert1.
  apply bind_Ok in Hrun as (c & _ & Hrun).
  apply bind_Ok in Hrun as (balance & Hbal & Hrun). apply sub_u64_Ok in Hbal as [-> _].
  apply bind_Ok in Hrun as (paid & Hpaid & Hrun). apply add_u64_Ok in Hpaid as [-> _].
  injection Hrun as <-. exists p, c. auto.
Qed.

Lemma transfer_milestone_reward_Ok (admin recipient : address) (milestone_id : Z)
  (s s' : State Coin) :
  transfer_milestone_reward DataDex admin recipient milestone_id s = Ok s' ->
  exists p reward c,
    pool_at s !! DataDex = Some p /\ RewardPool.admin p = admin /\
    find_milestone (RewardPool.milestones p) milestone_id = (true, reward) /\
    reward <= RewardPool.balance p /\
    coin_transfer (coins s) admin recipient reward = Some c /\
    RewardPool.total_rewards_paid p + reward <= MAX_U64 /\
    s' = mkState
           (<[DataDex :=
                RewardPool.mk (RewardPool.balance p - reward)
                  (RewardPool.total_rewards_paid p + reward)
                  (RewardPool.bonus_rewards p) (RewardPool.milestones p)
                  (RewardPool.next_milestone_id p) (RewardPool.admin p)
                  (RewardPool.bonus_reward_events p) (RewardPool.milestone_events p)
                  (RewardPool.pool_replenished_events p)]> (pool_at s))
           (achievements_at s) c.
Proof.
  unfold transfer_milestone_reward. intros Hrun.
  apply bind_Ok in Hrun as (p & Hp & Hrun). apply borrow_global_Ok in Hp.
  take_assert Hrun. apply N.eqb_eq in Hassert.
  destruct (find_milestone (RewardPool.milestones p) milestone_id)
    as [found reward] eqn:Hfind.
  take_assert Hrun. subst found.
  take_assert Hrun. apply Z.leb_le in Hassert0.
  apply bind_Ok in Hrun as (c & Hc & Hrun). apply of_framework_Ok in Hc.
  apply bind_Ok in Hrun as (balance & Hbal & Hrun). apply sub_u64_Ok in Hbal as [-> _].
  apply bind_Ok in Hrun as (paid & Hpaid & Hrun). apply add_u64_Ok in Hpaid as [-> Hpaid].
  injection Hrun as <-. exists p, reward, c. repeat split; assumption || reflexivity.
Qed.

Lemma replenish_pool_Ok (admin : address) (amount now : Z) (s s' : State Coin) :
  replenish_pool DataDex admin amount now s = Ok s' ->
  exists p c,
    pool_at s !! DataDex = Some p /\ RewardPool.admin p = admin /\
    0 < amount /\ RewardPool.balance p + amount <= MAX_U64 /\
    s' = mkState
           (<[DataDex :=
                RewardPool.mk (RewardPool.balance p + amount)
                  (RewardPool.total_rewards_paid p)
                  (RewardPool.bonus_rewards p) (RewardPool.milestones p)
                  (RewardPool.next_milestone_id p) (RewardPool.admin p)
                  (RewardPool.bonus_reward_events p) (RewardPool.milestone_events p)
                  (RewardPool.pool_replenished_events p ++
                     [RewardPoolReplenishedEvent.mk amount (RewardPool.balance p + amount)
                        now])]> (pool_at s))
           (achievements_at s) c.
Proof.
  unfold replenish_pool. intros Hrun.
  apply bind_Ok in Hrun as (p & Hp & Hrun). apply borrow_global_Ok in Hp.
  take_assert Hrun. apply N.eqb_eq in Hassert.
  take_assert Hrun. apply Z.ltb_lt in Hassert0.
  apply bind_Ok in Hrun as (c & _ & Hrun).
  apply bind_Ok in Hrun as (balance & Hbal & Hrun). apply add_u64_Ok in Hbal as [-> Hle].
  injection Hrun as <-. exists p, c. repeat split; assumption || reflexivity.
Qed.

Lemma deactivate_milestone_Ok (admin : address) (milestone_id : Z) (s s' : State Coin) :
  deactivate_milestone DataDex admin milestone_id s = Ok s' ->
  exists p,
    pool_at s !! DataDex = Some p /\ RewardPool.admin p = admin /\
    s' = mkState
           (<[DataDex :=
                RewardPool.mk (RewardPool.balance p) (RewardPool.total_rewards_paid p)
                  (RewardPool.bonus_rewards p)
                  (deactivate_first (RewardPool.milestones p) milestone_id)
                  (RewardPool.next_milestone_id p) (RewardPool.admin p)
                  (RewardPool.bonus_reward_events p) (RewardPool.milestone_events p)
                  (RewardPool.pool_replenished_events p)]> (pool_at s))
           (achievements_at s) (coins s).
Proof.
  unfold deactivate_milestone. intros Hrun.
  apply bind_Ok in Hrun as (p & Hp & Hrun). apply borrow_global_Ok in Hp.
  take_assert Hrun. apply N.eqb_eq in Hassert.
  injection Hrun as <-. exists p. auto.
Qed.

Lemma initialize_user_achievements_Ok (user : address) (now : Z) (s s' : State Coin) :
  initialize_user_achievements user now s = Ok s' ->
  achievements_at s !! user = None /\
  s' = mkState (pool_at s) (<[user := new_user_achievements now]> (achievements_at s))
         (coins s).
Proof.
  unfold initialize_user_achievements. intros Hrun.
  take_assert Hrun.
  apply bind_Ok in Hrun as (store & Hstore & Hrun).
  apply move_to_Ok in Hstore as [Hnone ->]. injection Hrun as <-. auto.
Qed.

Lemma check_milestones_Ok (user : address) (datasets_uploaded now : Z) (s s' : State Coin) :
  check_milestones DataDex user datasets_uploaded now s = Ok s' ->
  exists p awarded,
    let ua := default (new_user_achievements now) (achievements_at s !! user) in
    pool_at s !! DataDex = Some p /\
    check_loop user datasets_uploaded now (RewardPool.milestones p) p ua
      = Ok (pool_after_awards user now awarded p, achievements_after_awards awarded ua) /\
    (forall m, m ∈ awarded -> m ∈ RewardPool.milestones p) /\
    (NoDup (UserAchievements.milestones_achieved ua) ->
     NoDup (UserAchievements.milestones_achieved ua ++ (Milestone.id <$> awarded))) /\
    (Forall (fun m => 0 < Milestone.reward_amount m) (RewardPool.milestones p) ->
     0 <= total_reward awarded /\
     (0 <= RewardPool.balance p -> total_reward awarded <= RewardPool.balance p)) /\
    s' = mkState (<[DataDex := pool_after_awards user now awarded p]> (pool_at s))
           (<[user :=
                UserAchievements.mk
                  (UserAchievements.milestones_achieved ua ++ (Milestone.id <$> awarded))
                  (UserAchievements.total_bonus_received ua) now]> (achievements_at s))
           (coins s).
Proof.
  unfold check_milestones. intros Hrun.
  apply bind_Ok in Hrun as (p & Hp & Hrun). apply borrow_global_Ok in Hp.
  apply bind_Ok in Hrun as (store & Hstore & Hrun).
  apply bind_Ok in Hrun as (ua & Hua & Hrun). apply borrow_global_Ok in Hua.
  apply bind_Ok in Hrun as ([p' ua'] & Hloop & Hrun).
  injection Hrun as <-.
  destruct (check_loop_Ok _ _ _ _ _ _ _ _ Hloop)
    as (awarded & Hp' & Hua' & Hsub & Hnodup & Hsum).
  subst p' ua'. exists p, awarded. cbv zeta.
  destruct (exists_at (achievements_at s) user) eqn:Hex; simpl in Hstore.
  - injection Hstore as <-. rewrite Hua. simpl. auto 10.
  - apply move_to_Ok in Hstore as [Hnone ->].
    rewrite lookup_insert_eq in Hua. injection Hua as <-.
    rewrite Hnone. simpl. rewrite insert_insert_eq. auto 10.
Qed.

Lemma initialize_reward_system_Ok (admin : address) (initial_balance : Z)
  (s s' : State Coin) :
  (forall p, pool_at s !! DataDex = Some p -> RewardPool.admin p = DataDex) ->
  initialize_reward_system DataDex admin initial_balance s = Ok s' ->
  admin = DataDex /\ pool_at s !! DataDex = None /\
  exists c, s' = mkState (<[DataDex := initial_pool DataDex initial_balance]> (pool_at s))
                   (achievements_at s) c.
Proof.
  unfold initialize_reward_system. intros Hadmin Hrun.
  take_assert Hrun. apply negb_true_iff, exists_at_false in Hassert.
  apply bind_Ok in Hrun as (c & _ & Hrun).
  apply bind_Ok in Hrun as (pools & Hpools & Hrun).
  apply move_to_Ok in Hpools as [_ ->].
  unfold create_default_milestones in Hrun.
  apply bind_Ok in Hrun as (s1 & H1 & Hrun).
  apply add_milestone_Ok in H1 as (p1 & Hp1 & Hadm1 & _ & ->). simpl in Hp1.
  destruct (decide (admin = DataDex)) as [->|Hne].
  - rewrite lookup_insert_eq in Hp1. injection Hp1 as <-.
    apply bind_Ok in Hrun as (s2 & H2 & Hrun).
    apply add_milestone_Ok in H2 as (p2 & Hp2 & _ & _ & ->).
    simpl in Hp2. rewrite lookup_insert_eq in Hp2. injection Hp2 as <-.
    apply bind_Ok in Hrun as (s3 & H3 & Hrun).
    apply add_milestone_Ok in H3 as (p3 & Hp3 & _ & _ & ->).
    simpl in Hp3. rewrite lookup_insert_eq in Hp3. injection Hp3 as <-.
    apply add_milestone_Ok in Hrun as (p4 & Hp4 & _ & _ & ->).
    simpl in Hp4. rewrite lookup_insert_eq in Hp4. injection Hp4 as <-.
    split; [reflexivity|]. split; [assumption|]. exists c.
    simpl. rewrite !insert_insert_eq. reflexivity.
  - exfalso. rewrite lookup_insert_ne in Hp1 by assumption.
    apply Hadmin in Hp1. congruence.
Qed.

(** *** The invariant of the reachable states *)

Lemma state_inv_set_pool (s : State Coin) (p' : RewardPool.t) (c : Coin) :
  state_inv DataDex s ->
  pool_ok DataDex p' ->
  (forall p, pool_at s !! DataDex = Some p ->
     RewardPool.milestone_events p' = RewardPool.milestone_events p) ->
  (pool_at s !! DataDex = None -> RewardPool.milestone_events p' = []) ->
  state_inv DataDex (mkState (<[DataDex := p']> (pool_at s)) (achievements_at s) c).
Proof.
  intros [Hpools Hach Hev] Hok Hsame Hfresh. constructor; simpl.
  - intros a p Hp. destruct (decide (DataDex = a)) as [<-|Hne].
    + rewrite lookup_insert_eq in Hp. injection Hp as <-. auto.
    + rewrite lookup_insert_ne in Hp by assumption. now apply Hpools.
  - exact Hach.
  - intros p Hp. rewrite lookup_insert_eq in Hp. injection Hp as <-.
    destruct (pool_at s !! DataDex) as [p|] eqn:Hp.
    + rewrite (Hsame p eq_refl). now apply Hev.
    + rewrite (Hfresh eq_refl). split; [constructor|]. intros e He. inversion He.
Qed.

Lemma deactivate_first_positive (ms : list Milestone.t) (x : Z) :
  Forall (fun m => 0 < Milestone.reward_amount m) ms ->
  Forall (fun m => 0 < Milestone.reward_amount m) (deactivate_first ms x).
Proof.
  induction 1 as [|m ms Hm Hms IH]; simpl; [constructor|].
  destruct (Milestone.id m =? x); constructor; assumption.
Qed.

Lemma check_milestones_inv (user : address) (datasets_uploaded now : Z) (s s' : State Coin) :
  state_inv DataDex s ->
  check_milestones DataDex user datasets_uploaded now s = Ok s' ->
  state_inv DataDex s'.
Proof.
  intros [Hpools Hach Hev] Hrun.
  apply check_milestones_Ok in Hrun
    as (p & awarded & Hp & Hloop & _ & Hnodup & Hsum & ->). cbv zeta in *.
  set (ua := default (new_user_achievements now) (achievements_at s !! user)) in *.
  destruct (Hpools _ _ Hp) as (_ & Hadmin & Hbal & Hpos).
  assert (Hua_nodup : NoDup (UserAchievements.milestones_achieved ua)
                      /\ UserAchievements.total_bonus_received ua = 0).
  { unfold ua. destruct (achievements_at s !! user) as [ua0|] eqn:Hua0; simpl.
    - now apply (Hach user).
    - split; [constructor | reflexivity]. }
  destruct Hua_nodup as [Hnd Hzero]. specialize (Hnodup Hnd).
  destruct (Hsum Hpos) as [Hsum0 Hsum1].
  constructor; simpl.
  - intros a q Hq. destruct (decide (DataDex = a)) as [<-|Hne].
    + rewrite lookup_insert_eq in Hq. injection Hq as <-. split; [reflexivity|].
      unfold pool_ok, pool_after_awards. simpl. repeat split; try assumption; lia.
    + rewrite lookup_insert_ne in Hq by assumption. now apply Hpools.
  - intros u ua1 Hua1. destruct (decide (user = u)) as [<-|Hne].
    + rewrite lookup_insert_eq in Hua1. injection Hua1 as <-. simpl. auto.
    + rewrite lookup_insert_ne in Hua1 by assumption. now apply (Hach u).
  - intros q Hq. rewrite lookup_insert_eq in Hq. injection Hq as <-.
    destruct (Hev p Hp) as [Hkeys Hseen]. simpl. split.
    + rewrite fmap_app. apply NoDup_app. split; [assumption|]. split.
      * intros k Hk Hk'.
        apply list_elem_of_fmap in Hk as (e & -> & He).
        apply list_elem_of_fmap in Hk' as (e' & Hkey & He').
        apply list_elem_of_fmap in He' as (m & -> & Hm).
        destruct (Hseen e He) as (ua0 & Hua0 & Hin).
        unfold event_key in Hkey. simpl in Hkey. injection Hkey as Hu Hid.
        rewrite Hu in Hua0.
        assert (Hua_eq : ua = ua0) by (unfold ua; now rewrite Hua0).
        apply NoDup_app in Hnodup as (_ & Hdisj & _).
        apply (Hdisj (Milestone.id m)).
        -- rewrite Hua_eq, <- Hid. exact Hin.
        -- now apply list_elem_of_fmap_2.
      * apply NoDup_app in Hnodup as (_ & _ & Hids).
        rewrite <- list_fmap_compose.
        replace (event_key ∘ achieved_event user now) with
          ((fun x => (user, x)) ∘ Milestone.id) by reflexivity.
        rewrite list_fmap_compose. apply NoDup_fmap; [|assumption].
        intros x y [= ->]. reflexivity.
    + intros e He. apply elem_of_app in He as [He|He].
      * destruct (Hseen e He) as (ua0 & Hua0 & Hin).
        destruct (decide (user = MilestoneAchievedEvent.user e)) as [Heq|Hne].
        -- rewrite <- Heq. rewrite lookup_insert_eq. eexists. split; [reflexivity|].
           simpl. apply elem_of_app. left.
           rewrite <- Heq in Hua0. unfold ua. now rewrite Hua0.
        -- rewrite lookup_insert_ne by assumption. eauto.
      * apply list_elem_of_fmap in He as (m & -> & Hm). simpl.
        rewrite lookup_insert_eq. eexists. split; [reflexivity|].
        simpl. apply elem_of_app. right. now apply list_elem_of_fmap_2.
Qed.

Lemma run_inv (tx : Tx) (now : Z) (s s' : State Coin) :
  state_inv DataDex s -> tx_wf tx -> run DataDex tx now s = Ok s' -> state_inv DataDex s'.
Proof.
  intros Hinv Hwf Hrun. pose proof Hinv as [Hpools Hach Hev].
  destruct tx; simpl in Hrun, Hwf.
  - apply initialize_reward_system_Ok in Hrun as (-> & Hnone & c & ->).
    + apply state_inv_set_pool; [assumption | | congruence | reflexivity].
      unfold pool_ok, initial_pool, default_milestones. simpl.
      split; [reflexivity|]. split; [exact Hwf|].
      repeat constructor.
    + intros p Hp. now apply Hpools in Hp as (_ & Hadm & _).
  - apply add_milestone_Ok in Hrun as (p & Hp & Hadm & Hpos & ->).
    destruct (Hpools _ _ Hp) as (_ & Hadmin & Hbal & Hms).
    apply state_inv_set_pool; [assumption | | | congruence].
    + unfold pool_ok. simpl. repeat split; try assumption; try lia.
      apply Forall_app. split; [assumption|]. now repeat constructor.
    + intros p0 Hp0. rewrite Hp in Hp0. now injection Hp0 as <-.
  - apply pay_bonus_reward_Ok in Hrun as (p & c & Hp & Hadm & Hamount & ->).
    destruct (Hpools _ _ Hp) as (_ & Hadmin & Hbal & Hms).
    apply state_inv_set_pool; [assumption | | | congruence].
    + unfold pool_ok. simpl. repeat split; try assumption; lia.
    + intros p0 Hp0. rewrite Hp in Hp0. now injection Hp0 as <-.
  - apply transfer_milestone_reward_Ok in Hrun
      as (p & reward & c & Hp & Hadm & Hfind & Hle & _ & _ & ->).
    destruct (Hpools _ _ Hp) as (_ & Hadmin & Hbal & Hms).
    assert (Hreward : 0 < reward).
    { clear -Hfind Hms. induction Hms as [|m ms Hm _ IH]; simpl in Hfind; [discriminate|].
      destruct (Milestone.id m =? milestone_id); [|auto]. now injection Hfind as <-. }
    apply state_inv_set_pool; [assumption | | | congruence].
    + unfold pool_ok. simpl. repeat split; try assumption; lia.
    + intros p0 Hp0. rewrite Hp in Hp0. now injection Hp0 as <-.
  - apply initialize_user_achievements_Ok in Hrun as (Hnone & ->).
    constructor; simpl.
    + exact Hpools.
    + intros u ua Hua. destruct (decide (user = u)) as [<-|Hne].
      * rewrite lookup_insert_eq in Hua. injection Hua as <-. simpl.
        split; [constructor | reflexivity].
      * rewrite lookup_insert_ne in Hua by assumption. now apply (Hach u).
    + intros p Hp. destruct (Hev p Hp) as [Hkeys Hseen]. split; [assumption|].
      intros e He. destruct (Hseen e He) as (ua & Hua & Hin).
      destruct (decide (user = MilestoneAchievedEvent.user e)) as [Heq|Hne].
      * rewrite Heq in Hnone. congruence.
      * rewrite lookup_insert_ne by assumption. eauto.
  - eapply check_milestones_inv; eassumption.
  - apply replenish_pool_Ok in Hrun as (p & c & Hp & Hadm & Hpos & Hle & ->).
    destruct (Hpools _ _ Hp) as (_ & Hadmin & Hbal & Hms).
    apply state_inv_set_pool; [assumption | | | congruence].
    + unfold pool_ok. simpl. repeat split; try assumption; lia.
    + intros p0 Hp0. rewrite Hp in Hp0. now injection Hp0 as <-.
  - apply deactivate_milestone_Ok in Hrun as (p & Hp & Hadm & ->).
    destruct (Hpools _ _ Hp) as (_ & Hadmin & Hbal & Hms).
    apply state_inv_set_pool; [assumption | | | congruence].
    + unfold pool_ok. simpl. split; [assumption|]. split; [assumption|].
      now apply deactivate_first_positive.
    + intros p0 Hp0. rewrite Hp in Hp0. now injection Hp0 as <-.
Qed.

Lemma reachable_state_inv (s : State Coin) :
  reachable DataDex s -> state_inv DataDex s.
Proof.
  induction 1 as [c | s tx now s' _ IH Hwf _ Hrun | s c _ IH].
  - constructor; unfold genesis; simpl; intros *; rewrite lookup_empty; discriminate.
  - eapply run_inv; eassumption.
  - destruct IH as [Hpools Hach Hev]. constructor; assumption.
Qed.

(** *** What a transaction does to the balance and to the achievements *)

Lemma find_milestone_positive (ms : list Milestone.t) (x reward : Z) :
  Forall (fun m => 0 < Milestone.reward_amount m) ms ->
  find_milestone ms x = (true, reward) -> 0 < reward.
Proof.
  induction 1 as [|m ms Hm _ IH]; simpl; [discriminate|].
  destruct (Milestone.id m =? x); [|assumption]. now intros [= <-].
Qed.

Lemma run_balance (tx : Tx) (now : Z) (s s' : State Coin) (a : address)
  (p p' : RewardPool.t) :
  state_inv DataDex s -> run DataDex tx now s = Ok s' ->
  pool_at s !! a = Some p -> pool_at s' !! a = Some p' ->
  RewardPool.balance p <= RewardPool.balance p' \/
  (is_payout tx = true /\
   exists amount, 0 < amount <= RewardPool.balance p
                  /\ RewardPool.balance p' = RewardPool.balance p - amount).
Proof.
  intros [Hpools _ _] Hrun Hp Hp'.
  destruct (Hpools _ _ Hp) as (-> & _ & Hbal & Hms).
  destruct tx; simpl in Hrun.
  - apply initialize_reward_system_Ok in Hrun as (_ & Hnone & _); [congruence|].
    intros q Hq. now apply Hpools in Hq as (_ & Hadm & _).
  - apply add_milestone_Ok in Hrun as (q & Hq & _ & _ & ->).
    simpl in Hp'. rewrite lookup_insert_eq in Hp'. injection Hp' as <-.
    rewrite Hp in Hq. injection Hq as <-. left. simpl. lia.
  - apply pay_bonus_reward_Ok in Hrun as (q & c & Hq & _ & Hamount & ->).
    simpl in Hp'. rewrite lookup_insert_eq in Hp'. injection Hp' as <-.
    rewrite Hp in Hq. injection Hq as <-. right. split; [reflexivity|].
    exists amount. simpl. auto.
  - apply transfer_milestone_reward_Ok in Hrun
      as (q & reward & c & Hq & _ & Hfind & Hle & _ & _ & ->).
    simpl in Hp'. rewrite lookup_insert_eq in Hp'. injection Hp' as <-.
    rewrite Hp in Hq. injection Hq as <-. right. split; [reflexivity|].
    exists reward. simpl. pose proof (find_milestone_positive _ _ _ Hms Hfind). auto.
  - apply initialize_user_achievements_Ok in Hrun as (_ & ->).
    simpl in Hp'. rewrite Hp in Hp'. injection Hp' as <-. left. lia.
  - apply check_milestones_Ok in Hrun as (q & awarded & Hq & _ & _ & _ & Hsum & ->).
    simpl in Hp'. rewrite lookup_insert_eq in Hp'. injection Hp' as <-.
    rewrite Hp in Hq. injection Hq as <-.
    destruct (Hsum Hms) as [Hsum0 Hsum1]. simpl.
    destruct (Z.eq_dec (total_reward awarded) 0) as [Hzero|Hnz]; [left; lia|].
    right. split; [reflexivity|]. exists (total_reward awarded). lia.
  - apply replenish_pool_Ok in Hrun as (q & c & Hq & _ & Hpos & _ & ->).
    simpl in Hp'. rewrite lookup_insert_eq in Hp'. injection Hp' as <-.
    rewrite Hp in Hq. injection Hq as <-. left. simpl. lia.
  - apply deactivate_milestone_Ok in Hrun as (q & Hq & _ & ->).
    simpl in Hp'. rewrite lookup_insert_eq in Hp'. injection Hp' as <-.
    rewrite Hp in Hq. injection Hq as <-. left. simpl. lia.
Qed.

Lemma add_milestone_achievements (admin : address) (name description : string)
  (requirement reward_amount : Z) (s s' : State Coin) :
  add_milestone DataDex admin name description requirement reward_amount s = Ok s' ->
  achievements_at s' = achievements_at s.
Proof. intros Hrun. now apply add_milestone_Ok in Hrun as (p & _ & _ & _ & ->). Qed.

Lemma initialize_reward_system_achievements (admin : address) (initial_balance : Z)
  (s s' : State Coin) :
  initialize_reward_system DataDex admin initial_balance s = Ok s' ->
  achievements_at s' = achievements_at s.
Proof.
  unfold initialize_reward_system, create_default_milestones. intros Hrun.
  take_assert Hrun.
  apply bind_Ok in Hrun as (c & _ & Hrun).
  apply bind_Ok in Hrun as (pools & _ & Hrun).
  apply bind_Ok in Hrun as (s1 & H1 & Hrun). apply add_milestone_achievements in H1.
  apply bind_Ok in Hrun as (s2 & H2 & Hrun). apply add_milestone_achievements in H2.
  apply bind_Ok in Hrun as (s3 & H3 & Hrun). apply add_milestone_achievements in H3.
  apply add_milestone_achievements in Hrun. simpl in H1. congruence.
Qed.

(** A user's record, once there, stays; its achieved ids stay in it and its
    bonus total is the one it had. *)
Lemma run_keeps_achievements (tx : Tx) (now : Z) (s s' : State Coin) (u : address)
  (ua : UserAchievements.t) :
  run DataDex tx now s = Ok s' -> achievements_at s !! u = Some ua ->
  exists ua',
    achievements_at s' !! u = Some ua' /\
    UserAchievements.total_bonus_received ua' = UserAchievements.total_bonus_received ua /\
    (forall x, x ∈ UserAchievements.milestones_achieved ua ->
               x ∈ UserAchievements.milestones_achieved ua').
Proof.
  intros Hrun Hua.
  assert (Hsame : achievements_at s' = achievements_at s ->
                  exists ua', achievements_at s' !! u = Some ua' /\
                    UserAchievements.total_bonus_received ua'
                      = UserAchievements.total_bonus_received ua /\
                    (forall x, x ∈ UserAchievements.milestones_achieved ua ->
                               x ∈ UserAchievements.milestones_achieved ua')).
  { intros ->. exists ua. auto. }
  destruct tx; simpl in Hrun.
  - apply Hsame. eapply initialize_reward_system_achievements; eassumption.
  - apply Hsame. eapply add_milestone_achievements; eassumption.
  - apply pay_bonus_reward_Ok in Hrun as (p & c & _ & _ & _ & ->). now apply Hsame.
  - apply transfer_milestone_reward_Ok in Hrun
      as (p & r & c & _ & _ & _ & _ & _ & _ & ->).
    now apply Hsame.
  - apply initialize_user_achievements_Ok in Hrun as (Hnone & ->). simpl.
    destruct (decide (user = u)) as [->|Hne]; [congruence|].
    rewrite lookup_insert_ne by assumption. exists ua. auto.
  - apply check_milestones_Ok in Hrun as (p & awarded & _ & _ & _ & _ & _ & ->). simpl.
    destruct (decide (user = u)) as [->|Hne].
    + rewrite lookup_insert_eq, Hua. simpl. eexists. split; [reflexivity|].
      simpl. split; [reflexivity|]. intros x Hx. apply elem_of_app. now left.
    + rewrite lookup_insert_ne by assumption. exists ua. auto.
  - apply replenish_pool_Ok in Hrun as (p & c & _ & _ & _ & _ & ->). now apply Hsame.
  - apply deactivate_milestone_Ok in Hrun as (p & _ & _ & ->). now apply Hsame.
Qed.

Lemma later_keeps_achievements (s s' : State Coin) (u : address) (ua : UserAchievements.t) :
  later DataDex s s' -> achievements_at s !! u = Some ua ->
  exists ua',
    achievements_at s' !! u = Some ua' /\
    UserAchievements.total_bonus_received ua' = UserAchievements.total_bonus_received ua /\
    (forall x, x ∈ UserAchievements.milestones_achieved ua ->
               x ∈ UserAchievements.milestones_achieved ua').
Proof.
  intros Hlater Hua. induction Hlater as [| s1 tx now s2 _ IH Hrun | s1 c _ IH].
  - exists ua. auto.
  - destruct IH as (ua1 & Hua1 & Hbonus1 & Hsub1).
    destruct (run_keeps_achievements _ _ _ _ _ _ Hrun Hua1) as (ua2 & Hua2 & Hbonus2 & Hsub2).
    exists ua2. split; [assumption|]. split; [congruence | auto].
  - exact IH.
Qed.

(** The loop passes over every milestone whose reward the balance does not
    cover. *)
Lemma check_loop_unaffordable (u : address) (n t : Z) (ms : list Milestone.t)
  (p : RewardPool.t) (ua : UserAchievements.t) :
  (forall m, m ∈ ms -> RewardPool.balance p < Milestone.reward_amount m) ->
  check_loop u n t ms p ua = Ok (p, ua).
Proof.
  induction ms as [|m ms IH]; intros Hall; simpl; [reflexivity|].
  assert (Hskip : qualifies m (UserAchievements.milestones_achieved ua) n
                    (RewardPool.balance p) = false).
  { unfold qualifies. apply andb_false_iff. right. apply Z.leb_gt.
    apply Hall. left. }
  rewrite Hskip. apply IH. intros m' Hm'. apply Hall. now right.
Qed.

(** *** The claims *)

(** C5 (as amended): in a reachable state no pool has a negative balance.
    A transaction that lowers a pool's balance is a payout
    ([pay_bonus_reward], [transfer_milestone_reward] or [check_milestones])
    and lowers it by an amount that is positive and at most the balance
    before.  Each successful payout leaves the balance before minus the
    amount: the bonus, the reward of the milestone found, the reward of each
    milestone awarded by the evaluation loop, and their sum for the whole
    evaluation; and the administrator's bonus or transfer, and the award of
    the loop, go through when the balance covers the amount, the coins move
    and the total paid stays a [u64].  A bonus, or a milestone reward,
    larger than the balance makes the administrator's call abort with
    [E_INSUFFICIENT_BALANCE] and leaves the state as it was; the call of
    anybody else aborts with [E_UNAUTHORIZED], whatever the amount.  The
    evaluation does not abort on a milestone whose reward is larger than the
    balance: the loop passes over it, and when no reward is covered
    [check_milestones] goes through and leaves the pools, the coins and the
    user's achieved ids as they were. *)
Theorem reward_pool_balance :
  (forall (s : State Coin) a p,
     reachable DataDex s -> pool_at s !! a = Some p -> 0 <= RewardPool.balance p) /\
  (forall tx now (s s' : State Coin) a p p',
     reachable DataDex s -> run DataDex tx now s = Ok s' ->
     pool_at s !! a = Some p -> pool_at s' !! a = Some p' ->
     RewardPool.balance p' < RewardPool.balance p ->
     is_payout tx = true /\
     exists amount, 0 < amount <= RewardPool.balance p
                    /\ RewardPool.balance p' = RewardPool.balance p - amount) /\
  (forall admin recipient amount reason now (s s' : State Coin),
     pay_bonus_reward DataDex admin recipient amount reason now s = Ok s' ->
     exists p p', pool_at s !! DataDex = Some p /\ pool_at s' !! DataDex = Some p' /\
       amount <= RewardPool.balance p /\
       RewardPool.balance p' = RewardPool.balance p - amount) /\
  (forall admin recipient milestone_id (s s' : State Coin),
     transfer_milestone_reward DataDex admin recipient milestone_id s = Ok s' ->
     exists p p' reward, pool_at s !! DataDex = Some p /\ pool_at s' !! DataDex = Some p' /\
       find_milestone (RewardPool.milestones p) milestone_id = (true, reward) /\
       reward <= RewardPool.balance p /\
       RewardPool.balance p' = RewardPool.balance p - reward) /\
  (forall user now milestone p ua p' ua',
     award user now milestone p ua = Ok (p', ua') ->
     Milestone.reward_amount milestone <= RewardPool.balance p /\
     RewardPool.balance p' = RewardPool.balance p - Milestone.reward_amount milestone) /\
  (forall user datasets_uploaded now (s s' : State Coin),
     reachable DataDex s ->
     check_milestones DataDex user datasets_uploaded now s = Ok s' ->
     exists p p' awarded, pool_at s !! DataDex = Some p /\ pool_at s' !! DataDex = Some p' /\
       (forall m, m ∈ awarded -> m ∈ RewardPool.milestones p) /\
       0 <= total_reward awarded <= RewardPool.balance p /\
       RewardPool.balance p' = RewardPool.balance p - total_reward awarded) /\
  (forall recipient amount reason now (s : State Coin) p,
     reachable DataDex s -> pool_at s !! DataDex = Some p ->
     RewardPool.balance p < amount ->
     pay_bonus_reward DataDex (RewardPool.admin p) recipient amount reason now s
       = Err (Abort E_INSUFFICIENT_BALANCE) /\
     commit (pay_bonus_reward DataDex (RewardPool.admin p) recipient amount reason now) s
       = s) /\
  (forall recipient milestone_id reward (s : State Coin) p,
     pool_at s !! DataDex = Some p ->
     find_milestone (RewardPool.milestones p) milestone_id = (true, reward) ->
     RewardPool.balance p < reward ->
     transfer_milestone_reward DataDex (RewardPool.admin p) recipient milestone_id s
       = Err (Abort E_INSUFFICIENT_BALANCE) /\
     commit (transfer_milestone_reward DataDex (RewardPool.admin p) recipient milestone_id) s
       = s) /\
  (forall milestone achieved datasets_uploaded balance,
     balance < Milestone.reward_amount milestone ->
     qualifies milestone achieved datasets_uploaded balance = false) /\
  (forall admin recipient amount reason milestone_id now (s : State Coin) p,
     pool_at s !! DataDex = Some p -> admin <> RewardPool.admin p ->
     pay_bonus_reward DataDex admin recipient amount reason now s
       = Err (Abort E_UNAUTHORIZED) /\
     transfer_milestone_reward DataDex admin recipient milestone_id s
       = Err (Abort E_UNAUTHORIZED)) /\
  (forall user datasets_uploaded now milestone rest p ua,
     RewardPool.balance p < Milestone.reward_amount milestone ->
     check_loop user datasets_uploaded now (milestone :: rest) p ua
       = check_loop user datasets_uploaded now rest p ua) /\
  (forall user datasets_uploaded now (s : State Coin) p,
     pool_at s !! DataDex = Some p ->
     (forall m, m ∈ RewardPool.milestones p ->
        RewardPool.balance p < Milestone.reward_amount m) ->
     exists s',
       check_milestones DataDex user datasets_uploaded now s = Ok s' /\
       pool_at s' = pool_at s /\ coins s' = coins s /\
       (UserAchievements.milestones_achieved <$> achievements_at s' !! user)
         = Some (default [] (UserAchievements.milestones_achieved
                               <$> achievements_at s !! user))) /\
  (forall recipient amount reason now (s : State Coin) p c,
     pool_at s !! DataDex = Some p ->
     0 < amount <= RewardPool.balance p ->
     coin_transfer (coins s) (RewardPool.admin p) recipient amount = Some c ->
     RewardPool.total_rewards_paid p + amount <= MAX_U64 ->
     exists s' p',
       pay_bonus_reward DataDex (RewardPool.admin p) recipient amount reason now s = Ok s' /\
       pool_at s' !! DataDex = Some p' /\
       RewardPool.balance p' = RewardPool.balance p - amount /\ coins s' = c) /\
  (forall recipient milestone_id reward (s : State Coin) p c,
     pool_at s !! DataDex = Some p ->
     find_milestone (RewardPool.milestones p) milestone_id = (true, reward) ->
     reward <= RewardPool.balance p ->
     coin_transfer (coins s) (RewardPool.admin p) recipient reward = Some c ->
     RewardPool.total_rewards_paid p + reward <= MAX_U64 ->
     exists s' p',
       transfer_milestone_reward DataDex (RewardPool.admin p) recipient milestone_id s
         = Ok s' /\
       pool_at s' !! DataDex = Some p' /\
       RewardPool.balance p' = RewardPool.balance p - reward /\ coins s' = c) /\
  (forall user now milestone p ua,
     Milestone.reward_amount milestone <= RewardPool.balance p ->
     RewardPool.total_rewards_paid p + Milestone.reward_amount milestone <= MAX_U64 ->
     exists p' ua',
       award user now milestone p ua = Ok (p', ua') /\
       RewardPool.balance p' = RewardPool.balance p - Milestone.reward_amount milestone).
Proof.
  repeat apply conj.
  - intros s a p Hreach Hp.
    apply reachable_state_inv in Hreach as [Hpools _ _].
    destruct (Hpools _ _ Hp) as (_ & _ & Hbal & _). lia.
  - intros tx now s s' a p p' Hreach Hrun Hp Hp' Hlt.
    apply reachable_state_inv in Hreach.
    destruct (run_balance _ _ _ _ _ _ _ Hreach Hrun Hp Hp') as [Hle|Hpay]; [lia|assumption].
  - intros admin recipient amount reason now s s' Hrun.
    apply pay_bonus_reward_Ok in Hrun as (p & c & Hp & _ & Hamount & ->).
    exists p. eexists. simpl. rewrite lookup_insert_eq.
    split; [assumption|]. split; [reflexivity|]. simpl. split; [lia|reflexivity].
  - intros admin recipient milestone_id s s' Hrun.
    apply transfer_milestone_reward_Ok in Hrun
      as (p & reward & c & Hp & _ & Hfind & Hle & _ & _ & ->).
    exists p. eexists. exists reward. simpl. rewrite lookup_insert_eq.
    split; [assumption|]. split; [reflexivity|]. simpl. auto.
  - intros user now milestone p ua p' ua' Haward.
    apply award_Ok in Haward as (Hle & Hbal & _). auto.
  - intros user datasets_uploaded now s s' Hreach Hrun.
    apply reachable_state_inv in Hreach as [Hpools _ _].
    apply check_milestones_Ok in Hrun as (p & awarded & Hp & _ & Hsub & _ & Hsum & ->).
    destruct (Hpools _ _ Hp) as (_ & _ & Hbal & Hms).
    destruct (Hsum Hms) as [Hsum0 Hsum1].
    exists p. eexists. exists awarded. simpl. rewrite lookup_insert_eq.
    split; [assumption|]. split; [reflexivity|]. split; [assumption|].
    simpl. split; [lia | reflexivity].
  - intros recipient amount reason now s p Hreach Hp Hlt.
    apply reachable_state_inv in Hreach as [Hpools _ _].
    destruct (Hpools _ _ Hp) as (_ & _ & Hbal & _).
    assert (Hrun : pay_bonus_reward DataDex (RewardPool.admin p) recipient amount reason now s
                   = Err (Abort E_INSUFFICIENT_BALANCE)).
    { unfold pay_bonus_reward, borrow_global. rewrite Hp. simpl.
      rewrite N.eqb_refl. simpl.
      destruct (Z.ltb_spec 0 amount); [simpl | lia].
      destruct (Z.leb_spec amount (RewardPool.balance p)); [lia | reflexivity]. }
    split; [assumption|]. unfold commit. now rewrite Hrun.
  - intros recipient milestone_id reward s p Hp Hfind Hlt.
    assert (Hrun : transfer_milestone_reward DataDex (RewardPool.admin p) recipient
                     milestone_id s = Err (Abort E_INSUFFICIENT_BALANCE)).
    { unfold transfer_milestone_reward, borrow_global. rewrite Hp. simpl.
      rewrite N.eqb_refl. simpl. rewrite Hfind. simpl.
      destruct (Z.leb_spec reward (RewardPool.balance p)); [lia | reflexivity]. }
    split; [assumption|]. unfold commit. now rewrite Hrun.
  - intros milestone achieved datasets_uploaded balance Hlt.
    unfold qualifies. apply andb_false_iff. right. apply Z.leb_gt. assumption.
  - intros admin recipient amount reason milestone_id now s p Hp Hne. split.
    + unfold pay_bonus_reward, borrow_global. rewrite Hp. simpl.
      destruct (N.eqb_spec (RewardPool.admin p) admin) as [Heq|_];
        [congruence | reflexivity].
    + unfold transfer_milestone_reward, borrow_global. rewrite Hp. simpl.
      destruct (N.eqb_spec (RewardPool.admin p) admin) as [Heq|_];
        [congruence | reflexivity].
  - intros user datasets_uploaded now milestone rest p ua Hlt. simpl.
    assert (Hskip : qualifies milestone (UserAchievements.milestones_achieved ua)
                      datasets_uploaded (RewardPool.balance p) = false).
    { unfold qualifies. apply andb_false_iff. right. now apply Z.leb_gt. }
    now rewrite Hskip.
  - intros user datasets_uploaded now s p Hp Hall.
    unfold check_milestones, borrow_global at 1. rewrite Hp. simpl.
    unfold exists_at, move_to, borrow_global.
    destruct (achievements_at s !! user) as [ua|] eqn:Hua; simpl.
    + rewrite Hua. simpl. rewrite (check_loop_unaffordable _ _ _ _ _ _ Hall). simpl.
      eexists. split; [reflexivity|]. simpl.
      rewrite insert_id by assumption. rewrite lookup_insert_eq. auto.
    + rewrite lookup_insert_eq. simpl.
      rewrite (check_loop_unaffordable _ _ _ _ _ _ Hall). simpl.
      eexists. split; [reflexivity|]. simpl.
      rewrite insert_id by assumption. rewrite lookup_insert_eq. auto.
  - intros recipient amount reason now s p c Hp [Hpos Hle] Hc Hpaid.
    unfold pay_bonus_reward, borrow_global. rewrite Hp. simpl.
    rewrite N.eqb_refl. simpl.
    destruct (Z.ltb_spec 0 amount) as [_|]; [simpl | lia].
    destruct (Z.leb_spec amount (RewardPool.balance p)) as [_|]; [simpl | lia].
    rewrite Hc. simpl. rewrite sub_u64_le by assumption. simpl.
    unfold add_u64.
    destruct (Z.leb_spec (RewardPool.total_rewards_paid p + amount) MAX_U64) as [_|];
      [simpl | lia].
    eexists. eexists. split; [reflexivity|]. simpl. rewrite lookup_insert_eq.
    split; [reflexivity|]. simpl. auto.
  - intros recipient milestone_id reward s p c Hp Hfind Hle Hc Hpaid.
    unfold transfer_milestone_reward, borrow_global. rewrite Hp. simpl.
    rewrite N.eqb_refl. simpl. rewrite Hfind. simpl.
    destruct (Z.leb_spec reward (RewardPool.balance p)) as [_|]; [simpl | lia].
    rewrite Hc. simpl. rewrite sub_u64_le by assumption. simpl.
    unfold add_u64.
    destruct (Z.leb_spec (RewardPool.total_rewards_paid p + reward) MAX_U64) as [_|];
      [simpl | lia].
    eexists. eexists. split; [reflexivity|]. simpl. rewrite lookup_insert_eq.
    split; [reflexivity|]. simpl. auto.
  - intros user now milestone p ua Hle Hpaid.
    unfold award. rewrite sub_u64_le by assumption. simpl.
    unfold add_u64.
    destruct (Z.leb_spec (RewardPool.total_rewards_paid p + Milestone.reward_amount milestone)
                MAX_U64) as [_|]; [simpl | lia].
    eexists. eexists. split; reflexivity.
Qed.

(** C6 (as amended): in a reachable state no id occurs twice among a
    user's achieved milestones, and the evaluation has debited the pool at
    most once for a user and a milestone id: it debits the pool by the
    rewards of the milestones it awards, emits one event for each, awards
    none whose id the user has achieved, and no two of its events ever
    share user and id.  An achieved id stays achieved whatever happens
    later.  There is no record of what has been rewarded:
    [transfer_milestone_reward] leaves every user's achievements as they
    are and goes through or not, with the same effect on pool and coins,
    whatever the achievements are. *)
Theorem milestone_accounting :
  (forall (s : State Coin) u ua,
     reachable DataDex s -> achievements_at s !! u = Some ua ->
     NoDup (UserAchievements.milestones_achieved ua)) /\
  (forall (s : State Coin) p,
     reachable DataDex s -> pool_at s !! DataDex = Some p ->
     NoDup (event_key <$> RewardPool.milestone_events p)) /\
  (forall user datasets_uploaded now (s s' : State Coin),
     reachable DataDex s ->
     check_milestones DataDex user datasets_uploaded now s = Ok s' ->
     exists p p' awarded,
       pool_at s !! DataDex = Some p /\ pool_at s' !! DataDex = Some p' /\
       RewardPool.balance p' = RewardPool.balance p - total_reward awarded /\
       RewardPool.milestone_events p' =
         RewardPool.milestone_events p ++ (achieved_event user now <$> awarded) /\
       NoDup (Milestone.id <$> awarded) /\
       (forall m ua, m ∈ awarded -> achievements_at s !! user = Some ua ->
          Milestone.id m ∉ UserAchievements.milestones_achieved ua)) /\
  (forall (s s' : State Coin) u ua x,
     later DataDex s s' -> achievements_at s !! u = Some ua ->
     x ∈ UserAchievements.milestones_achieved ua ->
     exists ua', achievements_at s' !! u = Some ua'
                 /\ x ∈ UserAchievements.milestones_achieved ua') /\
  (forall admin recipient milestone_id (s s' : State Coin),
     transfer_milestone_reward DataDex admin recipient milestone_id s = Ok s' ->
     achievements_at s' = achievements_at s /\
     forall achievements,
       transfer_milestone_reward DataDex admin recipient milestone_id
         (mkState (pool_at s) achievements (coins s))
       = Ok (mkState (pool_at s') achievements (coins s'))).
Proof.
  repeat apply conj.
  - intros s u ua Hreach Hua.
    apply reachable_state_inv in Hreach as [_ Hach _]. now apply (Hach u).
  - intros s p Hreach Hp.
    apply reachable_state_inv in Hreach as [_ _ Hev]. now apply Hev.
  - intros user datasets_uploaded now s s' Hreach Hrun.
    apply reachable_state_inv in Hreach as [_ Hach _].
    apply check_milestones_Ok in Hrun as (p & awarded & Hp & _ & _ & Hnodup & _ & ->).
    cbv zeta in Hnodup.
    exists p. eexists. exists awarded. simpl. rewrite lookup_insert_eq.
    split; [assumption|]. split; [reflexivity|]. simpl.
    split; [reflexivity|]. split; [reflexivity|].
    assert (Hnd : NoDup (UserAchievements.milestones_achieved
                           (default (new_user_achievements now) (achievements_at s !! user)))).
    { destruct (achievements_at s !! user) as [ua0|] eqn:Hua0; simpl.
      - now apply (Hach user).
      - constructor. }
    apply Hnodup, NoDup_app in Hnd as (_ & Hdisj & Hids).
    split; [assumption|].
    intros m ua Hm Hua Hin. rewrite Hua in Hdisj. simpl in Hdisj.
    apply (Hdisj _ Hin). now apply list_elem_of_fmap_2.
  - intros s s' u ua x Hlater Hua Hx.
    destruct (later_keeps_achievements _ _ _ _ Hlater Hua) as (ua' & Hua' & _ & Hsub).
    exists ua'. auto.
  - intros admin recipient milestone_id s s' Hrun.
    apply transfer_milestone_reward_Ok in Hrun
      as (p & reward & c & Hp & Hadm & Hfind & Hle & Hc & Hpaid & ->).
    split; [reflexivity|]. intros achievements.
    unfold transfer_milestone_reward, borrow_global. simpl. rewrite Hp. simpl.
    apply N.eqb_eq in Hadm. rewrite Hadm. simpl. rewrite Hfind. simpl.
    apply Z.leb_le in Hle. rewrite Hle. simpl. rewrite Hc. simpl.
    apply Z.leb_le in Hle. rewrite sub_u64_le by assumption. simpl.
    unfold add_u64.
    destruct (Z.leb_spec (RewardPool.total_rewards_paid p + reward) MAX_U64) as [_|Hover];
      [reflexivity | lia].
Qed.

(** A second evaluation after one that went through. *)
Lemma check_milestones_twice (user : address)
  (datasets_uploaded now1 now2 : Z) (s s1 : State Coin) :
  reachable DataDex s ->
  check_milestones DataDex user datasets_uploaded now1 s = Ok s1 ->
  exists s2 ua1,
    check_milestones DataDex user datasets_uploaded now2 s1 = Ok s2 /\
    pool_at s2 = pool_at s1 /\
    achievements_at s1 !! user = Some ua1 /\
    achievements_at s2 !! user =
      Some (UserAchievements.mk (UserAchievements.milestones_achieved ua1)
              (UserAchievements.total_bonus_received ua1) now2) /\
    (forall u, u <> user -> achievements_at s2 !! u = achievements_at s1 !! u) /\
    coins s2 = coins s1.
Proof.
  intros Hreach Hrun.
  apply reachable_state_inv in Hreach as [Hpools _ _].
  apply check_milestones_Ok in Hrun as (p & awarded & Hp & Hloop & _ & _ & _ & ->).
  cbv zeta in Hloop.
  destruct (Hpools _ _ Hp) as (_ & _ & _ & Hms).
  set (ua0 := default (new_user_achievements now1) (achievements_at s !! user)) in *.
  set (p1 := pool_after_awards user now1 awarded p) in *.
  set (ua1 := UserAchievements.mk
                (UserAchievements.milestones_achieved ua0 ++ (Milestone.id <$> awarded))
                (UserAchievements.total_bonus_received ua0) now1).
  assert (Hagain : check_loop user datasets_uploaded now2 (RewardPool.milestones p) p1 ua1
                   = Ok (p1, ua1)).
  { apply check_loop_again with (t := now1) (p := p) (p' := p1) (ua := ua0)
      (ua' := achievements_after_awards awarded ua0).
    - exact Hms.
    - exact Hloop.
    - lia.
    - intros x Hx. exact Hx. }
  eexists. exists ua1.
  split.
  { unfold check_milestones, borrow_global, exists_at. simpl.
    rewrite !lookup_insert_eq. simpl. rewrite lookup_insert_eq. simpl.
    rewrite Hagain. simpl. reflexivity. }
  simpl. rewrite !insert_insert_eq, !lookup_insert_eq.
  repeat split. intros u Hu. now rewrite !lookup_insert_ne by congruence.
Qed.

(** Whether the loop aborts, and with what, does not depend on the time
    nor on anything but the balance, the total paid and the achieved ids. *)
Lemma check_loop_abort (u : address) (n t t2 : Z) (ms : list Milestone.t)
  (p p2 : RewardPool.t) (ua ua2 : UserAchievements.t) (e : error) :
  RewardPool.balance p = RewardPool.balance p2 ->
  RewardPool.total_rewards_paid p = RewardPool.total_rewards_paid p2 ->
  UserAchievements.milestones_achieved ua = UserAchievements.milestones_achieved ua2 ->
  check_loop u n t ms p ua = Err e -> check_loop u n t2 ms p2 ua2 = Err e.
Proof.
  revert p p2 ua ua2. induction ms as [|m ms IH]; intros p p2 ua ua2 Hbal Hpaid Hach; simpl.
  - discriminate.
  - rewrite <- Hbal, <- Hach.
    destruct (qualifies m (UserAchievements.milestones_achieved ua) n (RewardPool.balance p));
      [|now apply IH].
    unfold award. rewrite <- Hbal, <- Hpaid.
    destruct (sub_u64 (RewardPool.balance p) (Milestone.reward_amount m)) as [b|e1];
      simpl; [|trivial].
    destruct (add_u64 (RewardPool.total_rewards_paid p) (Milestone.reward_amount m))
      as [paid|e2]; simpl; [|trivial].
    apply IH; simpl; congruence.
Qed.

Lemma check_milestones_abort (user : address) (datasets_uploaded now1 now2 : Z)
  (s : State Coin) (e : error) :
  check_milestones DataDex user datasets_uploaded now1 s = Err e ->
  check_milestones DataDex user datasets_uploaded now2 s = Err e.
Proof.
  unfold check_milestones, borrow_global at 1 3.
  destruct (pool_at s !! DataDex) as [p|]; simpl; [|trivial].
  unfold exists_at, move_to, borrow_global.
  destruct (achievements_at s !! user) as [ua|] eqn:Hua; simpl.
  - rewrite Hua. simpl. intros Hrun.
    destruct (check_loop user datasets_uploaded now1 (RewardPool.milestones p) p ua)
      as [[p' ua']|e1] eqn:Hloop; simpl in Hrun; [discriminate|].
    injection Hrun as ->.
    now rewrite (check_loop_abort user datasets_uploaded now1 now2
                   (RewardPool.milestones p) p p ua ua e eq_refl eq_refl eq_refl Hloop).
  - rewrite !lookup_insert_eq. simpl. intros Hrun.
    destruct (check_loop user datasets_uploaded now1 (RewardPool.milestones p) p
                (new_user_achievements now1)) as [[p' ua']|e1] eqn:Hloop;
      simpl in Hrun; [discriminate|].
    injection Hrun as ->.
    now rewrite (check_loop_abort user datasets_uploaded now1 now2
                   (RewardPool.milestones p) p p (new_user_achievements now1)
                   (new_user_achievements now2) e eq_refl eq_refl eq_refl Hloop).
Qed.

(** C7: in a reachable state, take the state after [check_milestones] for
    a user and an upload count, and the state after a second call for the
    same user and count: the pools, and with them the balance, are the same
    in both, and so are the user's achieved ids, every other user's
    achievements and the coins.  When the first call goes through, so does
    the second. *)
Theorem check_milestones_idempotent (user : address)
  (datasets_uploaded now1 now2 : Z) (s : State Coin) :
  reachable DataDex s ->
  let s1 := commit (check_milestones DataDex user datasets_uploaded now1) s in
  let s2 := commit (check_milestones DataDex user datasets_uploaded now2) s1 in
  pool_at s2 = pool_at s1 /\
  (UserAchievements.milestones_achieved <$> achievements_at s2 !! user)
    = (UserAchievements.milestones_achieved <$> achievements_at s1 !! user) /\
  (forall u, u <> user -> achievements_at s2 !! u = achievements_at s1 !! u) /\
  coins s2 = coins s1 /\
  (forall s', check_milestones DataDex user datasets_uploaded now1 s = Ok s' ->
     exists s'', check_milestones DataDex user datasets_uploaded now2 s' = Ok s'').
Proof.
  intros Hreach. cbv zeta. unfold commit.
  destruct (check_milestones DataDex user datasets_uploaded now1 s) as [s1|e] eqn:Hfirst.
  - destruct (check_milestones_twice user datasets_uploaded now1 now2 s s1 Hreach Hfirst)
      as (s2 & ua1 & Hsecond & Hpools & Hua1 & Hua2 & Hothers & Hcoins).
    rewrite Hsecond. split; [assumption|]. split; [now rewrite Hua1, Hua2|].
    split; [assumption|]. split; [assumption|].
    intros s' [= <-]. eauto.
  - rewrite (check_milestones_abort _ _ _ now2 _ _ Hfirst).
    repeat split. discriminate.
Qed.

(** C9: when [initialize_reward_system] goes through in a reachable state,
    the pool it has published holds the initial balance and exactly four
    milestones, with the ids 1 to 4, the requirements 1, 5, 10 and 25, the
    rewards 1000000, 5000000, 10000000 and 25000000, all of them active. *)
Theorem initialize_creates_default_milestones (admin : address) (initial_balance : Z)
  (s s' : State Coin) :
  reachable DataDex s ->
  initialize_reward_system DataDex admin initial_balance s = Ok s' ->
  exists p,
    pool_at s' !! admin = Some p /\
    RewardPool.balance p = initial_balance /\
    RewardPool.milestones p = default_milestones /\
    length (RewardPool.milestones p) = 4%nat /\
    Milestone.id <$> RewardPool.milestones p = [1; 2; 3; 4] /\
    Milestone.requirement <$> RewardPool.milestones p = [1; 5; 10; 25] /\
    Milestone.reward_amount <$> RewardPool.milestones p
      = [1000000; 5000000; 10000000; 25000000] /\
    Milestone.is_active <$> RewardPool.milestones p = [true; true; true; true].
Proof.
  intros Hreach Hrun.
  apply reachable_state_inv in Hreach as [Hpools _ _].
  apply initialize_reward_system_Ok in Hrun as (-> & _ & c & ->).
  - exists (initial_pool DataDex initial_balance). simpl. rewrite lookup_insert_eq.
    repeat split.
  - intros p Hp. now apply Hpools in Hp as (_ & Hadm & _).
Qed.

(** C10: in a reachable state every user's [total_bonus_received] is 0;
    whatever happens later to a state, reachable or not, a user's record
    keeps the [total_bonus_received] it has; and [pay_bonus_reward] appends
    the bonus to the pool's history and leaves every user's achievements as
    they are. *)
Theorem total_bonus_received_never_credited :
  (forall (s : State Coin) u ua,
     reachable DataDex s -> achievements_at s !! u = Some ua ->
     UserAchievements.total_bonus_received ua = 0) /\
  (forall (s s' : State Coin) u ua,
     later DataDex s s' -> achievements_at s !! u = Some ua ->
     exists ua', achievements_at s' !! u = Some ua' /\
       UserAchievements.total_bonus_received ua'
         = UserAchievements.total_bonus_received ua) /\
  (forall admin recipient amount reason now (s s' : State Coin),
     pay_bonus_reward DataDex admin recipient amount reason now s = Ok s' ->
     achievements_at s' = achievements_at s /\
     exists p p', pool_at s !! DataDex = Some p /\ pool_at s' !! DataDex = Some p' /\
       RewardPool.bonus_rewards p' =
         RewardPool.bonus_rewards p ++ [BonusReward.mk recipient amount reason now]).
Proof.
  split; [|split].
  - intros s u ua Hreach Hua.
    apply reachable_state_inv in Hreach as [_ Hach _]. now apply (Hach u).
  - intros s s' u ua Hlater Hua.
    destruct (later_keeps_achievements _ _ _ _ Hlater Hua) as (ua' & Hua' & Hbonus & _).
    exists ua'. auto.
  - intros admin recipient amount reason now s s' Hrun.
    apply pay_bonus_reward_Ok in Hrun as (p & c & Hp & _ & _ & ->).
    split; [reflexivity|]. exists p. eexists. simpl. rewrite lookup_insert_eq.
    split; [assumption|]. split; reflexivity.
Qed.

End WithCoin.

(** *** The scenario of the test module *)

Import Scenario.

Ltac scenario_step before step :=
  apply reachable_tx with (s := before) (tx := step) (now := now);
  [ | hnf; unfold is_u64, MAX_U64; lia
    | unfold is_u64, now, MAX_U64; lia
    | vm_compute; reflexivity ].

Lemma pooled_reachable : reachable datadex pooled.
Proof. scenario_step (genesis funded) tx_pool. constructor. Qed.

Lemma evaluated_reachable : reachable datadex evaluated.
Proof. scenario_step pooled tx_check. exact pooled_reachable. Qed.

Lemma rewarded_reachable : reachable datadex rewarded.
Proof. scenario_step evaluated tx_transfer. exact evaluated_reachable. Qed.

Lemma rewarded_twice_reachable : reachable datadex rewarded_twice.
Proof. scenario_step rewarded tx_transfer. exact rewarded_reachable. Qed.

Lemma thanked_reachable : reachable datadex thanked.
Proof. scenario_step rewarded_twice tx_bonus. exact rewarded_twice_reachable. Qed.

Lemma meagre_reachable : reachable datadex meagre.
Proof. scenario_step (genesis funded) tx_small_pool. constructor. Qed.

(** The fourth scenario of the specification: a bonus of 150_000_000 out of
    a pool of 100_000_000 aborts and leaves the pool as it was, where a bonus
    of 5_000_000 and the transfer of the first milestone's 1_000_000 go
    through and leave 95_000_000 and 99_000_000; the seller's own call
    aborts for want of authority; and out of a pool of 500_000 the
    evaluation goes through and awards nothing. *)
Lemma reward_pool_balance_witness :
  pay_bonus_reward datadex datadex seller 150000000 "Top seller" now pooled
    = Err (Abort E_INSUFFICIENT_BALANCE) /\
  commit (pay_bonus_reward datadex datadex seller 150000000 "Top seller" now) pooled
    = pooled /\
  (exists s' p',
     pay_bonus_reward datadex datadex seller 5000000 "Excellent data quality" now pooled
       = Ok s' /\
     pool_at s' !! datadex = Some p' /\ RewardPool.balance p' = 95000000) /\
  (exists s' p',
     transfer_milestone_reward datadex datadex seller 1 pooled = Ok s' /\
     pool_at s' !! datadex = Some p' /\ RewardPool.balance p' = 99000000) /\
  pay_bonus_reward datadex seller seller 150000000 "Top seller" now pooled
    = Err (Abort E_UNAUTHORIZED) /\
  (exists s',
     check_milestones datadex seller 1 now meagre = Ok s' /\
     pool_at s' = pool_at meagre /\
     (UserAchievements.milestones_achieved <$> achievements_at s' !! seller) = Some []).
Proof.
  destruct (reward_pool_balance (Coin := gmap address Z) datadex)
    as (_ & _ & _ & _ & _ & _ & Hover & _ & _ & Hother & _ & Hskip & Hbonus & Hpay & _).
  assert (Hp : pool_at pooled !! datadex = Some (initial_pool datadex 100000000))
    by (vm_compute; reflexivity).
  destruct (Hover seller 150000000 "Top seller"%string now pooled
              (initial_pool datadex 100000000) pooled_reachable Hp) as [Hrefused Hsame];
    [simpl; lia|].
  split; [exact Hrefused|]. split; [exact Hsame|]. split; [|split; [|split]].
  - destruct (Hbonus seller 5000000 "Excellent data quality"%string now pooled
                (initial_pool datadex 100000000)
                (<[seller := 105000000]> (<[datadex := 995000000]> funded)) Hp)
      as (s' & p' & Hrun & Hp' & Hbal & _).
    + simpl. lia.
    + vm_compute. reflexivity.
    + simpl. unfold MAX_U64. lia.
    + exists s', p'. split; [exact Hrun|]. split; [exact Hp' | exact Hbal].
  - destruct (Hpay seller 1 1000000 pooled (initial_pool datadex 100000000)
                (<[seller := 101000000]> (<[datadex := 999000000]> funded)) Hp)
      as (s' & p' & Hrun & Hp' & Hbal & _).
    + reflexivity.
    + simpl. lia.
    + vm_compute. reflexivity.
    + simpl. unfold MAX_U64. lia.
    + exists s', p'. split; [exact Hrun|]. split; [exact Hp' | exact Hbal].
  - refine (proj1 (Hother seller seller 150000000 "Top seller"%string 1 now pooled
                     (initial_pool datadex 100000000) Hp _)).
    discriminate.
  - destruct (Hskip seller 1 now meagre (initial_pool datadex 500000))
      as (s' & Hrun & Hpools & _ & Hachieved).
    + vm_compute. reflexivity.
    + intros m Hm. simpl in Hm.
      repeat (apply elem_of_cons in Hm as [-> | Hm]; [simpl; lia|]).
      apply elem_of_nil in Hm. contradiction.
    + exists s'. split; [exact Hrun|]. split; [exact Hpools | exact Hachieved].
Defined.

(** C5, as stated, fails: an amount larger than the balance does not always
    end in [E_INSUFFICIENT_BALANCE].  Out of a pool of 500_000 the
    evaluation of the seller, who qualifies for the first milestone of
    1_000_000 but for the balance, goes through, awards nothing and leaves
    the balance; and the seller's own bonus of 150_000_000 out of a pool of
    100_000_000 aborts with [E_UNAUTHORIZED]. *)
Lemma over_amount_payout_not_refused :
  reachable datadex meagre /\
  (RewardPool.balance <$> pool_at meagre !! datadex) = Some 500000 /\
  (RewardPool.milestones <$> pool_at meagre !! datadex) = Some default_milestones /\
  qualifies first_upload [] 1 1000000 = true /\
  qualifies first_upload [] 1 500000 = false /\
  check_milestones datadex seller 1 now meagre = Ok passed_over /\
  (RewardPool.balance <$> pool_at passed_over !! datadex) = Some 500000 /\
  (UserAchievements.milestones_achieved <$> achievements_at passed_over !! seller)
    = Some [] /\
  reachable datadex pooled /\
  (RewardPool.balance <$> pool_at pooled !! datadex) = Some 100000000 /\
  pay_bonus_reward datadex seller seller 150000000 "Top seller" now pooled
    = Err (Abort E_UNAUTHORIZED).
Proof.
  split; [exact meagre_reachable|].
  do 7 (split; [vm_compute; reflexivity|]).
  split; [exact pooled_reachable|].
  split; vm_compute; reflexivity.
Qed.

(** With no achievements recorded at all, the transfer of the first
    milestone's reward goes through as it does after the evaluation. *)
Lemma milestone_accounting_witness :
  transfer_milestone_reward datadex datadex seller 1
    (mkState (pool_at evaluated) ∅ (coins evaluated))
  = Ok (mkState (pool_at rewarded) ∅ (coins rewarded)).
Proof.
  destruct (milestone_accounting (Coin := gmap address Z) datadex)
    as (_ & _ & _ & _ & Htransfer).
  refine (proj2 (Htransfer datadex seller 1 evaluated rewarded _) ∅).
  vm_compute. reflexivity.
Defined.

(** C6, as stated, fails: after the evaluation has debited the pool for the
    seller's first milestone, [transfer_milestone_reward] debits it for the
    same recipient and milestone, and then once more. *)
Lemma milestone_rewarded_twice :
  reachable datadex rewarded_twice /\
  (UserAchievements.milestones_achieved <$> achievements_at evaluated !! seller)
    = Some [1] /\
  transfer_milestone_reward datadex datadex seller 1 evaluated = Ok rewarded /\
  transfer_milestone_reward datadex datadex seller 1 rewarded = Ok rewarded_twice /\
  (RewardPool.balance <$> pool_at pooled !! datadex) = Some 100000000 /\
  (RewardPool.balance <$> pool_at evaluated !! datadex) = Some 99000000 /\
  (RewardPool.balance <$> pool_at rewarded !! datadex) = Some 98000000 /\
  (RewardPool.balance <$> pool_at rewarded_twice !! datadex) = Some 97000000 /\
  achievements_at rewarded_twice = achievements_at evaluated.
Proof.
  split; [exact rewarded_twice_reachable|].
  repeat split; vm_compute; reflexivity.
Qed.

(** The fifth scenario of the specification: the second evaluation with an
    upload count of 1 leaves the achieved ids at [1] and the pool alone. *)
Lemma check_milestones_idempotent_witness :
  pool_at (commit (check_milestones datadex seller 1 (now + 60)) evaluated)
    = pool_at evaluated /\
  (UserAchievements.milestones_achieved <$>
     achievements_at (commit (check_milestones datadex seller 1 (now + 60)) evaluated)
       !! seller) = Some [1].
Proof.
  destruct (check_milestones_idempotent datadex seller 1 now (now + 60) pooled
              pooled_reachable) as (Hpools & Hachieved & _).
  split; [exact Hpools|].
  etransitivity; [exact Hachieved|]. vm_compute. reflexivity.
Defined.

Lemma initialize_creates_default_milestones_witness :
  exists p,
    pool_at pooled !! datadex = Some p /\
    Milestone.id <$> RewardPool.milestones p = [1; 2; 3; 4] /\
    Milestone.reward_amount <$> RewardPool.milestones p
      = [1000000; 5000000; 10000000; 25000000].
Proof.
  destruct (initialize_creates_default_milestones datadex datadex 100000000
              (genesis funded) pooled)
    as (p & Hp & _ & _ & _ & Hids & _ & Hrewards & _).
  - constructor.
  - vm_compute. reflexivity.
  - exists p. auto.
Defined.

Lemma total_bonus_received_never_credited_witness :
  exists ua,
    achievements_at thanked !! seller = Some ua /\
    UserAchievements.total_bonus_received ua = 0 /\
    (RewardPool.bonus_rewards <$> pool_at thanked !! datadex)
      = Some [BonusReward.mk seller 5000000 "Excellent data quality" now].
Proof.
  destruct (total_bonus_received_never_credited (Coin := gmap address Z) datadex)
    as (Hzero & _ & _).
  eexists. split; [vm_compute; reflexivity|]. split.
  - eapply (Hzero thanked seller); [exact thanked_reachable | vm_compute; reflexivity].
  - vm_compute. reflexivity.
Defined.

End RewardSystemProperties.

(** ** Marketplace: the rest of the module *)

Module MarketplaceExtras.

Import Marketplace.

(** *** The view loops *)

Lemma datasets_owned_by_app (l1 l2 : list Dataset.t) (a : address) :
  datasets_owned_by (l1 ++ l2) a = datasets_owned_by l1 a ++ datasets_owned_by l2 a.
Proof.
  induction l1 as [|d l1 IH]; simpl; [reflexivity|].
  destruct (Dataset.owner d =? a)%N; simpl; now rewrite IH.
Qed.

Lemma datasets_owned_by_insert (ds : list Dataset.t) (i : nat) (d d' : Dataset.t)
  (a : address) :
  ds !! i = Some d -> Dataset.owner d' = Dataset.owner d ->
  length (datasets_owned_by (<[i := d']> ds) a) = length (datasets_owned_by ds a).
Proof.
  revert i. induction ds as [|d0 ds IH]; intros [|i] Hd Hown; simpl in *; try discriminate.
  - injection Hd as ->. rewrite Hown. now destruct (Dataset.owner d =? a)%N.
  - destruct (Dataset.owner d0 =? a)%N; simpl; now rewrite (IH i Hd Hown).
Qed.

Lemma datasets_owned_by_spec (ds : list Dataset.t) (a : address) (d : Dataset.t) :
  d ∈ datasets_owned_by ds a <-> d ∈ ds /\ Dataset.owner d = a.
Proof.
  induction ds as [|d0 ds IH]; simpl.
  - rewrite elem_of_nil. tauto.
  - destruct (N.eqb_spec (Dataset.owner d0) a) as [Heq|Hne].
    + rewrite !elem_of_cons, IH. intuition (subst; auto).
    + rewrite elem_of_cons, IH. intuition (subst; auto; congruence).
Qed.

Lemma active_datasets_spec (ds : list Dataset.t) (d : Dataset.t) :
  d ∈ active_datasets ds <-> d ∈ ds /\ Dataset.is_active d = true.
Proof.
  induction ds as [|d0 ds IH]; simpl.
  - rewrite elem_of_nil. tauto.
  - destruct (Dataset.is_active d0) eqn:Hact.
    + rewrite !elem_of_cons, IH. intuition (subst; auto).
    + rewrite elem_of_cons, IH. intuition (subst; auto; congruence).
Qed.

Lemma active_datasets_length (ds : list Dataset.t) :
  (length (active_datasets ds) <= length ds)%nat.
Proof.
  induction ds as [|d ds IH]; simpl; [lia|].
  destruct (Dataset.is_active d); simpl; lia.
Qed.

Lemma purchases_made_by_app (l1 l2 : list Purchase.t) (a : address) :
  purchases_made_by (l1 ++ l2) a = purchases_made_by l1 a ++ purchases_made_by l2 a.
Proof.
  induction l1 as [|p l1 IH]; simpl; [reflexivity|].
  destruct (Purchase.buyer p =? a)%N; simpl; now rewrite IH.
Qed.

Lemma purchases_made_by_spec (ps : list Purchase.t) (a : address) (p : Purchase.t) :
  p ∈ purchases_made_by ps a <-> p ∈ ps /\ Purchase.buyer p = a.
Proof.
  induction ps as [|p0 ps IH]; simpl.
  - rewrite elem_of_nil. tauto.
  - destruct (N.eqb_spec (Purchase.buyer p0) a) as [Heq|Hne].
    + rewrite !elem_of_cons, IH. intuition (subst; auto).
    + rewrite elem_of_cons, IH. intuition (subst; auto; congruence).
Qed.

Lemma total_price_app (l1 l2 : list Purchase.t) :
  total_price (l1 ++ l2) = total_price l1 + total_price l2.
Proof. induction l1 as [|p l1 IH]; simpl; [reflexivity | rewrite IH; lia]. Qed.

Section WithCoin.

Context {Coin : Type} `{CoinLedger Coin}.
Variable DataDex : address.

(** *** What each entry function leaves behind *)

Lemma initialize_exact (admin : address) (fee : Z) (recipient : address) (s s' : State Coin) :
  initialize admin fee recipient s = Ok s' ->
  marketplace_at s !! admin = None /\ fee <= 20 /\
  s' = mkState (<[admin := fresh_marketplace fee recipient]> (marketplace_at s))
         (stats_at s) (coins s).
Proof.
  unfold initialize. intros Hrun.
  take_assert Hrun. take_assert Hrun. rename Hassert0 into Hfee.
  apply bind_Ok in Hrun as (store & Hstore & Hrun).
  apply move_to_Ok in Hstore as [Hnone ->]. injection Hrun as <-.
  apply Z.leb_le in Hfee. auto.
Qed.

(** The marketplace after an upload, and the uploader's counters. *)
Lemma upload_dataset_exact (account : address)
  (ipfs_hash title description category : string) (price now : Z) (s s' : State Coin) :
  upload_dataset DataDex account ipfs_hash title description category price now s = Ok s' ->
  0 < price /\
  exists m,
    marketplace_at s !! DataDex = Some m /\
    s' = mkState
           (<[DataDex :=
                DataMarketplace.mk
                  (DataMarketplace.datasets m ++
                     [Dataset.mk (DataMarketplace.next_dataset_id m) ipfs_hash title
                        description category price account now 0 true])
                  (DataMarketplace.purchases m)
                  (DataMarketplace.next_dataset_id m + 1)
                  (DataMarketplace.platform_fee_percentage m)
                  (DataMarketplace.platform_fee_recipient m)
                  (DataMarketplace.dataset_uploaded_events m ++
                     [DatasetUploadedEvent.mk (DataMarketplace.next_dataset_id m) account
                        ipfs_hash title price now])
                  (DataMarketplace.dataset_purchased_events m)
                  (DataMarketplace.reward_paid_events m)]> (marketplace_at s))
           (<[account :=
                UserStats.mk (UserStats.datasets_uploaded (stats_of s account) + 1)
                  (UserStats.datasets_purchased (stats_of s account))
                  (UserStats.total_earned (stats_of s account))
                  (UserStats.total_spent (stats_of s account))]> (stats_at s))
           (coins s).
Proof.
  unfold upload_dataset. intros Hrun.
  take_assert Hrun. apply Z.ltb_lt in Hassert.
  apply bind_Ok in Hrun as (m & Hm & Hrun). apply borrow_global_Ok in Hm.
  apply bind_Ok in Hrun as (next_id & Hnext & Hrun). apply add_u64_Ok in Hnext as [-> _].
  apply bind_Ok in Hrun as (stats1 & Hstats1 & Hrun).
  apply bind_Ok in Hrun as (user_stats & Hus & Hrun). apply borrow_global_Ok in Hus.
  apply bind_Ok in Hrun as (uploaded & Hup & Hrun). apply add_u64_Ok in Hup as [-> _].
  injection Hrun as <-. split; [assumption|]. exists m. split; [assumption|].
  unfold stats_of.
  destruct (exists_at (stats_at s) account) eqn:Hex; simpl in Hstats1.
  - injection Hstats1 as <-. rewrite Hus. reflexivity.
  - apply move_to_Ok in Hstats1 as [Hnone ->].
    rewrite lookup_insert_eq in Hus. injection Hus as <-.
    rewrite Hnone, insert_insert_eq. reflexivity.
Qed.

Lemma purchase_dataset_exact (buyer : address) (dataset_id now : Z) (s s' : State Coin) :
  purchase_dataset DataDex buyer dataset_id now s = Ok s' ->
  exists m i d balance fee amount c,
    marketplace_at s !! DataDex = Some m /\
    find_dataset_by_id (DataMarketplace.datasets m) dataset_id = Some i /\
    DataMarketplace.datasets m !! i = Some d /\
    Dataset.is_active d = true /\
    Dataset.owner d <> buyer /\
    has_purchased_dataset (DataMarketplace.purchases m) buyer dataset_id = false /\
    coin_balance (coins s) buyer = Some balance /\ Dataset.price d <= balance /\
    payment_split (Dataset.price d) (DataMarketplace.platform_fee_percentage m)
      = Ok (fee, amount) /\
    s' = mkState
           (<[DataDex :=
                DataMarketplace.mk
                  (<[i := set_total_purchases d (Dataset.total_purchases d + 1)]>
                     (DataMarketplace.datasets m))
                  (DataMarketplace.purchases m ++
                     [Purchase.mk dataset_id buyer (Dataset.owner d) (Dataset.price d) now])
                  (DataMarketplace.next_dataset_id m)
                  (DataMarketplace.platform_fee_percentage m)
                  (DataMarketplace.platform_fee_recipient m)
                  (DataMarketplace.dataset_uploaded_events m)
                  (DataMarketplace.dataset_purchased_events m ++
                     [DatasetPurchasedEvent.mk dataset_id buyer (Dataset.owner d)
                        (Dataset.price d) now])
                  (DataMarketplace.reward_paid_events m ++
                     [RewardPaidEvent.mk (Dataset.owner d) amount dataset_id now])]>
              (marketplace_at s))
           (stats_after_purchase (stats_at s) buyer (Dataset.owner d) (Dataset.price d)
              amount)
           c.
Proof.
  unfold purchase_dataset. intros Hrun.
  apply bind_Ok in Hrun as (m & Hm & Hrun). apply borrow_global_Ok in Hm.
  take_assert Hrun.
  apply bind_Ok in Hrun as (i & Hi & Hrun). apply option_extract_Ok in Hi.
  apply bind_Ok in Hrun as (d & Hd & Hrun). apply vector_borrow_Ok in Hd.
  take_assert Hrun. rename Hassert0 into Hactive.
  take_assert Hrun. rename Hassert0 into Hself.
  take_assert Hrun. rename Hassert0 into Hnew.
  apply bind_Ok in Hrun as (balance & Hbalance & Hrun). apply of_framework_Ok in Hbalance.
  take_assert Hrun. rename Hassert0 into Hfunds.
  apply bind_Ok in Hrun as ([fee amount] & Hsplit & Hrun).
  apply bind_Ok in Hrun as (coins1 & _ & Hrun).
  apply bind_Ok in Hrun as (c & _ & Hrun).
  apply bind_Ok in Hrun as (total & Htotal & Hrun). apply add_u64_Ok in Htotal as [-> _].
  apply bind_Ok in Hrun as (stats1 & Hstats1 & Hrun).
  apply bind_Ok in Hrun as (buyer_stats & Hbs & Hrun). apply borrow_global_Ok in Hbs.
  apply bind_Ok in Hrun as (purchased & Hp & Hrun). apply add_u64_Ok in Hp as [-> _].
  apply bind_Ok in Hrun as (spent & Hsp & Hrun). apply add_u64_Ok in Hsp as [-> _].
  apply bind_Ok in Hrun as (stats3 & Hstats3 & Hrun).
  injection Hrun as <-.
  apply negb_true_iff, N.eqb_neq in Hself.
  apply negb_true_iff in Hnew. apply Z.leb_le in Hfunds.
  exists m, i, d, balance, fee, amount, c.
  repeat (split; [assumption|]).
  f_equal. unfold stats_after_purchase.
  assert (Hstats2 : <[buyer := UserStats.mk (UserStats.datasets_uploaded buyer_stats)
                                 (UserStats.datasets_purchased buyer_stats + 1)
                                 (UserStats.total_earned buyer_stats)
                                 (UserStats.total_spent buyer_stats + Dataset.price d)]> stats1
                    = <[buyer := buyer_bump (Dataset.price d)
                                   (default new_user_stats (stats_at s !! buyer))]> (stats_at s)).
  { destruct (exists_at (stats_at s) buyer) eqn:Hex; simpl in Hstats1.
    - injection Hstats1 as <-. rewrite Hbs. reflexivity.
    - apply move_to_Ok in Hstats1 as [Hnone ->].
      rewrite lookup_insert_eq in Hbs. injection Hbs as <-.
      rewrite Hnone, insert_insert_eq. reflexivity. }
  rewrite Hstats2 in Hstats3. clear Hstats2.
  unfold exists_at, borrow_global in Hstats3.
  rewrite lookup_insert_ne in Hstats3 by congruence.
  destruct (stats_at s !! Dataset.owner d) as [st|]; simpl in Hstats3.
  - apply bind_Ok in Hstats3 as (earned & He & Hstats3).
    apply add_u64_Ok in He as [-> _]. now injection Hstats3 as <-.
  - now injection Hstats3 as <-.
Qed.

Lemma deactivate_dataset_exact (owner : address) (dataset_id : Z) (s s' : State Coin) :
  deactivate_dataset DataDex owner dataset_id s = Ok s' ->
  exists m i d,
    marketplace_at s !! DataDex = Some m /\
    find_dataset_by_id (DataMarketplace.datasets m) dataset_id = Some i /\
    DataMarketplace.datasets m !! i = Some d /\
    Dataset.owner d = owner /\
    s' = mkState
           (<[DataDex := set_datasets m (<[i := set_is_active d false]>
                                            (DataMarketplace.datasets m))]>
              (marketplace_at s))
           (stats_at s) (coins s).
Proof.
  unfold deactivate_dataset. intros Hrun.
  apply bind_Ok in Hrun as (m & Hm & Hrun). apply borrow_global_Ok in Hm.
  take_assert Hrun.
  apply bind_Ok in Hrun as (i & Hi & Hrun). apply option_extract_Ok in Hi.
  apply bind_Ok in Hrun as (d & Hd & Hrun). apply vector_borrow_Ok in Hd.
  take_assert Hrun. apply N.eqb_eq in Hassert0.
  injection Hrun as <-. exists m, i, d. auto.
Qed.

Lemma update_dataset_price_exact (owner : address) (dataset_id new_price : Z)
  (s s' : State Coin) :
  update_dataset_price DataDex owner dataset_id new_price s = Ok s' ->
  0 < new_price /\
  exists m i d,
    marketplace_at s !! DataDex = Some m /\
    find_dataset_by_id (DataMarketplace.datasets m) dataset_id = Some i /\
    DataMarketplace.datasets m !! i = Some d /\
    Dataset.owner d = owner /\
    s' = mkState
           (<[DataDex := set_datasets m (<[i := set_price d new_price]>
                                            (DataMarketplace.datasets m))]>
              (marketplace_at s))
           (stats_at s) (coins s).
Proof.
  unfold update_dataset_price. intros Hrun.
  take_assert Hrun. apply Z.ltb_lt in Hassert.
  apply bind_Ok in Hrun as (m & Hm & Hrun). apply borrow_global_Ok in Hm.
  take_assert Hrun.
  apply bind_Ok in Hrun as (i & Hi & Hrun). apply option_extract_Ok in Hi.
  apply bind_Ok in Hrun as (d & Hd & Hrun). apply vector_borrow_Ok in Hd.
  take_assert Hrun. apply N.eqb_eq in Hassert1.
  injection Hrun as <-. split; [assumption|]. exists m, i, d. auto.
Qed.

(** *** The books are kept *)

Lemma stats_after_purchase_of (stats : gmap address UserStats.t) (b sl : address)
  (pr amt : Z) (a : address) :
  b <> sl ->
  default new_user_stats (stats_after_purchase stats b sl pr amt !! a) =
    if decide (a = b) then buyer_bump pr (default new_user_stats (stats !! b))
    else if decide (a = sl)
         then match stats !! sl with
              | Some st => seller_credit amt st
              | None => new_user_stats
              end
         else default new_user_stats (stats !! a).
Proof.
  intros Hne. unfold stats_after_purchase.
  destruct (decide (a = b)) as [->|Hab].
  - destruct (stats !! sl); [rewrite lookup_insert_ne by congruence|];
      now rewrite lookup_insert_eq.
  - destruct (decide (a = sl)) as [->|Hasl].
    + destruct (stats !! sl) as [st|] eqn:Hsl.
      * now rewrite lookup_insert_eq.
      * rewrite lookup_insert_ne by congruence. now rewrite Hsl.
    + destruct (stats !! sl); rewrite !lookup_insert_ne by congruence; reflexivity.
Qed.

Lemma payment_split_bounds (price pct fee amount : Z) :
  payment_split price pct = Ok (fee, amount) -> 0 <= price -> 0 <= pct ->
  0 <= amount <= price.
Proof.
  unfold payment_split. intros Hsplit Hprice Hpct.
  apply bind_Ok in Hsplit as (product & Hmul & Hsplit).
  unfold mul_u64 in Hmul. destruct (price * pct <=? MAX_U64); [|discriminate].
  injection Hmul as <-.
  apply bind_Ok in Hsplit as (f & Hdiv & Hsplit). injection Hdiv as <-.
  apply bind_Ok in Hsplit as (am & Hsub & Hsplit). apply sub_u64_Ok in Hsub as [-> Hle].
  injection Hsplit as <- <-.
  assert (0 <= price * pct / 100) by (apply Z.div_pos; nia). lia.
Qed.

Lemma filter_none {A : Type} (P : A -> Prop) `{forall x, Decision (P x)} (l : list A) :
  (forall x, x ∈ l -> ~ P x) -> filter P l = [].
Proof.
  induction l as [|x l IH]; intros Hnone; [reflexivity|].
  rewrite filter_cons_False by (apply Hnone; left).
  apply IH. intros y Hy. apply Hnone. now right.
Qed.

(** The purchases of a reachable marketplace are of ids handed out. *)
Lemma purchase_ids_below (m : DataMarketplace.t) (p : Purchase.t) :
  marketplace_inv m -> p ∈ DataMarketplace.purchases m ->
  0 < Purchase.dataset_id p < DataMarketplace.next_dataset_id m.
Proof.
  intros [_ Hids Hnext Hpur _] Hin.
  destruct (Hpur p Hin) as (i & d & Hfind & Hd & _).
  apply MarketplaceProperties.find_dataset_by_id_lookup in Hfind as (d' & Hd' & Hid).
  rewrite Hd in Hd'. injection Hd' as <-.
  rewrite <- Hid, (Hids i d Hd), Hnext. apply lookup_lt_Some in Hd. lia.
Qed.

Lemma books_genesis (c : Coin) : ledger_inv DataDex (genesis c).
Proof.
  constructor; unfold genesis; simpl; try (intros *; rewrite lookup_empty; discriminate).
  reflexivity.
Qed.

Lemma books_initialize (admin : address) (fee : Z) (recipient : address) (s : State Coin) :
  ledger_inv DataDex s -> marketplace_at s !! admin = None ->
  ledger_inv DataDex
    (mkState (<[admin := fresh_marketplace fee recipient]> (marketplace_at s))
       (stats_at s) (coins s)).
Proof.
  intros [Hforeign Hprices Hcounts Hsold Hup Hpur Hearn Hnobody] Hnone.
  destruct (decide (admin = DataDex)) as [->|Hne].
  - specialize (Hnobody Hnone).
    constructor; simpl; try rewrite lookup_insert_eq.
    + intros a m Hm Ha. rewrite lookup_insert_ne in Hm by congruence. eauto.
    + intros m d [= <-] Hd. inversion Hd.
    + intros m i d [= <-] Hd. destruct i; discriminate.
    + intros m p [= <-] Hp. inversion Hp.
    + intros m a [= <-]. unfold stats_of. simpl. rewrite Hnobody, lookup_empty. reflexivity.
    + intros m a [= <-]. unfold stats_of. simpl. rewrite Hnobody, lookup_empty. auto.
    + intros m a [= <-]. unfold stats_of. simpl. rewrite Hnobody, lookup_empty. simpl.
      lia.
    + discriminate.
  - constructor; simpl; try rewrite lookup_insert_ne by assumption; try assumption.
    intros a m Hm Ha. destruct (decide (admin = a)) as [<-|Hna].
    + rewrite lookup_insert_eq in Hm. injection Hm as <-. eauto.
    + rewrite lookup_insert_ne in Hm by assumption. eauto.
Qed.

(** The frame of a transaction on the package's marketplace. *)
Lemma books_update (s : State Coin) (m m' : DataMarketplace.t)
  (stats' : gmap address UserStats.t) (c : Coin) :
  ledger_inv DataDex s -> marketplace_at s !! DataDex = Some m ->
  (forall d, d ∈ DataMarketplace.datasets m' -> 0 < Dataset.price d <= MAX_U64) ->
  (forall i d, DataMarketplace.datasets m' !! i = Some d ->
     Dataset.total_purchases d =
       Z.of_nat (length (filter (fun p => Purchase.dataset_id p = Dataset.id d)
                           (DataMarketplace.purchases m')))) ->
  (forall p, p ∈ DataMarketplace.purchases m' -> 0 < Purchase.price p) ->
  (forall a, UserStats.datasets_uploaded (default new_user_stats (stats' !! a)) =
     Z.of_nat (length (datasets_owned_by (DataMarketplace.datasets m') a))) ->
  (forall a, UserStats.datasets_purchased (default new_user_stats (stats' !! a)) =
     Z.of_nat (length (purchases_made_by (DataMarketplace.purchases m') a))
     /\ UserStats.total_spent (default new_user_stats (stats' !! a)) =
          total_price (purchases_made_by (DataMarketplace.purchases m') a)) ->
  (forall a, 0 <= UserStats.total_earned (default new_user_stats (stats' !! a)) <=
     total_price (filter (fun p => Purchase.seller p = a) (DataMarketplace.purchases m'))) ->
  ledger_inv DataDex (mkState (<[DataDex := m']> (marketplace_at s)) stats' c).
Proof.
  intros [Hforeign _ _ _ _ _ _ _] Hm Hprices Hcounts Hsold Hup Hpur Hearn.
  constructor; simpl; try rewrite lookup_insert_eq.
  - intros a m0 Hm0 Ha. rewrite lookup_insert_ne in Hm0 by congruence. eauto.
  - intros m0 d [= <-]. apply Hprices.
  - intros m0 i d [= <-]. apply Hcounts.
  - intros m0 p [= <-]. apply Hsold.
  - intros m0 a [= <-]. apply Hup.
  - intros m0 a [= <-]. apply Hpur.
  - intros m0 a [= <-]. apply Hearn.
  - discriminate.
Qed.

(** An edit of a listing that keeps id, owner and count. *)
Lemma books_edit (s : State Coin) (m : DataMarketplace.t) (i : nat) (d d' : Dataset.t) :
  ledger_inv DataDex s -> marketplace_at s !! DataDex = Some m ->
  DataMarketplace.datasets m !! i = Some d ->
  Dataset.id d' = Dataset.id d -> Dataset.owner d' = Dataset.owner d ->
  Dataset.total_purchases d' = Dataset.total_purchases d ->
  0 < Dataset.price d' <= MAX_U64 ->
  ledger_inv DataDex
    (mkState (<[DataDex := set_datasets m (<[i := d']> (DataMarketplace.datasets m))]>
                (marketplace_at s)) (stats_at s) (coins s)).
Proof.
  intros Hinv Hm Hd Hid Hown Htotal Hprice.
  pose proof Hinv as [_ Hprices Hcounts Hsold Hup Hpur Hearn _].
  apply books_update with (m := m); try assumption; simpl.
  - intros d0 Hd0. apply list_elem_of_lookup in Hd0 as [j Hj].
    apply list_lookup_insert_Some in Hj as [(_ & <- & _)|(_ & Hj)]; [assumption|].
    apply (Hprices m); [assumption|]. now apply list_elem_of_lookup_2 in Hj.
  - intros j d0 Hj.
    apply list_lookup_insert_Some in Hj as [(<- & <- & _)|(_ & Hj)].
    + rewrite Hid, Htotal. exact (Hcounts m i d Hm Hd).
    + exact (Hcounts m j d0 Hm Hj).
  - intros p. exact (Hsold m p Hm).
  - intros a. rewrite (datasets_owned_by_insert _ _ d) by assumption. exact (Hup m a Hm).
  - intros a. exact (Hpur m a Hm).
  - intros a. exact (Hearn m a Hm).
Qed.

Lemma books_run (tx : Tx) (now : Z) (s s' : State Coin) :
  (forall a m, marketplace_at s !! a = Some m -> marketplace_inv m) ->
  ledger_inv DataDex s -> tx_wf tx -> run DataDex tx now s = Ok s' ->
  ledger_inv DataDex s'.
Proof.
  intros Hminv Hinv Hwf Hrun.
  pose proof Hinv as [_ Hprices Hcounts Hsold Hup Hpur Hearn _].
  destruct tx; simpl in Hrun, Hwf.
  - apply initialize_exact in Hrun as (Hnone & _ & ->). now apply books_initialize.
  - (* upload *)
    apply upload_dataset_exact in Hrun as (Hpos & m & Hm & ->).
    pose proof (Hminv _ _ Hm) as Hmi.
    apply books_update with (m := m); try assumption; simpl.
    + intros d Hd. apply elem_of_app in Hd as [Hd|Hd]; [now apply (Hprices m)|].
      apply list_elem_of_singleton in Hd as ->. simpl. unfold is_u64 in Hwf. lia.
    + intros i d Hd. apply lookup_app_Some in Hd as [Hd|[Hlen Hd]].
      * exact (Hcounts m i d Hm Hd).
      * destruct (i - length (DataMarketplace.datasets m))%nat; [|destruct n; discriminate].
        injection Hd as <-. simpl. rewrite filter_none; [reflexivity|].
        intros p Hp Hid. pose proof (purchase_ids_below m p Hmi Hp). lia.
    + intros p. exact (Hsold m p Hm).
    + intros a. rewrite datasets_owned_by_app, length_app. simpl.
      specialize (Hup m a Hm). unfold stats_of in Hup.
      destruct (N.eqb_spec account a) as [->|Hne].
      * rewrite lookup_insert_eq. simpl. unfold stats_of. lia.
      * rewrite lookup_insert_ne by assumption. simpl. lia.
    + intros a. specialize (Hpur m a Hm). unfold stats_of in Hpur.
      destruct (decide (account = a)) as [->|Hne].
      * rewrite lookup_insert_eq. simpl. exact Hpur.
      * rewrite lookup_insert_ne by assumption. exact Hpur.
    + intros a. specialize (Hearn m a Hm). unfold stats_of in Hearn.
      destruct (decide (account = a)) as [->|Hne].
      * rewrite lookup_insert_eq. simpl. exact Hearn.
      * rewrite lookup_insert_ne by assumption. exact Hearn.
  - (* purchase *)
    apply purchase_dataset_exact in Hrun
      as (m & i & d & bal & fee & amount & c & Hm & Hfind & Hd & _ & Hself & _ & _ & _
          & Hsplit & ->).
    pose proof (Hminv _ _ Hm) as Hmi. pose proof Hmi as [Hfee Hids _ _ _].
    pose proof (MarketplaceProperties.find_dataset_by_id_lookup _ _ _ Hfind)
      as (d0 & Hd0 & Hid).
    rewrite Hd in Hd0. injection Hd0 as <-.
    assert (Hdprice : 0 < Dataset.price d <= MAX_U64).
    { apply (Hprices m); [assumption|]. now apply list_elem_of_lookup_2 in Hd. }
    assert (Hamount : 0 <= amount <= Dataset.price d).
    { apply (payment_split_bounds _ _ _ _ Hsplit); lia. }
    apply books_update with (m := m); try assumption; simpl.
    + intros d0 Hd0. apply list_elem_of_lookup in Hd0 as [j Hj].
      apply list_lookup_insert_Some in Hj as [(_ & <- & _)|(_ & Hj)]; [assumption|].
      apply (Hprices m); [assumption|]. now apply list_elem_of_lookup_2 in Hj.
    + intros j d0 Hj. rewrite filter_app, length_app.
      apply list_lookup_insert_Some in Hj as [(<- & <- & _)|(Hne & Hj)]; simpl.
      * rewrite filter_cons_True by (simpl; congruence). simpl.
        rewrite (Hcounts m i d Hm Hd). lia.
      * rewrite filter_cons_False.
        -- simpl. rewrite (Hcounts m j d0 Hm Hj). lia.
        -- simpl. rewrite <- Hid, (Hids i d Hd), (Hids j d0 Hj). lia.
    + intros p Hp. apply elem_of_app in Hp as [Hp|Hp]; [exact (Hsold m p Hm Hp)|].
      apply list_elem_of_singleton in Hp as ->. simpl. lia.
    + intros a. rewrite stats_after_purchase_of by congruence.
      rewrite (datasets_owned_by_insert _ _ d) by (assumption || reflexivity).
      rewrite <- (Hup m a Hm). unfold stats_of.
      destruct (decide (a = buyer)) as [->|Hab]; [reflexivity|].
      destruct (decide (a = Dataset.owner d)) as [->|Has]; [|reflexivity].
      now destruct (stats_at s !! Dataset.owner d).
    + intros a. rewrite stats_after_purchase_of by congruence.
      rewrite purchases_made_by_app, length_app, total_price_app. simpl.
      destruct (Hpur m a Hm) as [Hn Hspent]. unfold stats_of in Hn, Hspent.
      destruct (decide (a = buyer)) as [->|Hab].
      * rewrite N.eqb_refl. simpl. lia.
      * destruct (N.eqb_spec buyer a) as [Heq|_]; [congruence|]. simpl.
        rewrite Z.add_0_r, Nat.add_0_r.
        destruct (decide (a = Dataset.owner d)) as [->|Has]; [|auto].
        destruct (stats_at s !! Dataset.owner d); simpl; auto.
    + intros a. rewrite stats_after_purchase_of by congruence.
      rewrite filter_app, total_price_app.
      specialize (Hearn m a Hm). unfold stats_of in Hearn.
      destruct (decide (a = buyer)) as [->|Hab].
      * rewrite filter_cons_False by (simpl; congruence). simpl. lia.
      * destruct (decide (a = Dataset.owner d)) as [->|Has].
        -- rewrite filter_cons_True by reflexivity. simpl.
           destruct (stats_at s !! Dataset.owner d); simpl in *; lia.
        -- rewrite filter_cons_False by (simpl; congruence). simpl. lia.
  - apply deactivate_dataset_exact in Hrun as (m & i & d & Hm & _ & Hd & _ & ->).
    apply books_edit with (d := d); try assumption; try reflexivity.
    simpl. apply (Hprices m); [assumption|]. now apply list_elem_of_lookup_2 in Hd.
  - apply update_dataset_price_exact in Hrun as (Hpos & m & i & d & Hm & _ & Hd & _ & ->).
    apply books_edit with (d := d); try assumption; try reflexivity.
    simpl. unfold is_u64 in Hwf. lia.
Qed.

Lemma reachable_books (s : State Coin) : reachable DataDex s -> ledger_inv DataDex s.
Proof.
  induction 1 as [c | s tx now s' Hreach IH Hwf _ Hrun | s c _ IH].
  - apply books_genesis.
  - eapply books_run; [|eassumption..].
    exact (MarketplaceProperties.reachable_inv DataDex s Hreach).
  - destruct IH. constructor; assumption.
Qed.

(** *** The counters and the records *)

Lemma get_user_stats_lookup (a : address) (s : State Coin) :
  get_user_stats a s = stats_at s !! a.
Proof.
  unfold get_user_stats, exists_at. now destruct (stats_at s !! a).
Qed.

(** X1: in a reachable state the [total_purchases] of a dataset is the
    number of purchase records that carry its id. *)
Theorem total_purchases_counts_records (s : State Coin) (m : DataMarketplace.t)
  (i : nat) (d : Dataset.t) :
  reachable DataDex s ->
  marketplace_at s !! DataDex = Some m ->
  DataMarketplace.datasets m !! i = Some d ->
  Dataset.total_purchases d =
    Z.of_nat (length (filter (fun p => Purchase.dataset_id p = Dataset.id d)
                        (DataMarketplace.purchases m))).
Proof.
  intros Hreach Hm Hd. apply reachable_books in Hreach.
  exact (books_counts _ _ Hreach m i d Hm Hd).
Qed.

(** X2: in a reachable state what [get_datasets_by_owner] returns for an
    address are datasets of that owner, as many as the address's
    [datasets_uploaded] counter says; an address without counters owns
    none. *)
Theorem uploaded_counter_matches_listings (s : State Coin) (a : address)
  (l : list Dataset.t) :
  reachable DataDex s ->
  get_datasets_by_owner DataDex a s = Ok l ->
  (forall d, d ∈ l -> Dataset.owner d = a) /\
  match get_user_stats a s with
  | Some st => UserStats.datasets_uploaded st = Z.of_nat (length l)
  | None => l = []
  end.
Proof.
  intros Hreach Hview. apply reachable_books in Hreach.
  unfold get_datasets_by_owner in Hview.
  apply bind_Ok in Hview as (m & Hm & Hview). apply borrow_global_Ok in Hm.
  injection Hview as <-. split.
  - intros d Hd. now apply datasets_owned_by_spec in Hd.
  - pose proof (books_uploaded _ _ Hreach m a Hm) as Hup. unfold stats_of in Hup.
    rewrite get_user_stats_lookup. destruct (stats_at s !! a); simpl in Hup; [assumption|].
    apply length_zero_iff_nil. lia.
Qed.

(** X3: in a reachable state what [get_purchases_by_buyer] returns for an
    address are the records with that buyer, as many as the address's
    [datasets_purchased] counter says, and the sum of their prices is the
    address's [total_spent]; an address without counters has bought
    nothing. *)
Theorem purchased_counters_match_records (s : State Coin) (a : address)
  (l : list Purchase.t) :
  reachable DataDex s ->
  get_purchases_by_buyer DataDex a s = Ok l ->
  (forall p, p ∈ l -> Purchase.buyer p = a) /\
  match get_user_stats a s with
  | Some st => UserStats.datasets_purchased st = Z.of_nat (length l)
               /\ UserStats.total_spent st = total_price l
  | None => l = []
  end.
Proof.
  intros Hreach Hview. apply reachable_books in Hreach.
  unfold get_purchases_by_buyer in Hview.
  apply bind_Ok in Hview as (m & Hm & Hview). apply borrow_global_Ok in Hm.
  injection Hview as <-. split.
  - intros p Hp. now apply purchases_made_by_spec in Hp.
  - pose proof (books_purchased _ _ Hreach m a Hm) as [Hn Hspent].
    unfold stats_of in Hn, Hspent.
    rewrite get_user_stats_lookup. destruct (stats_at s !! a); simpl in Hn; [auto|].
    apply length_zero_iff_nil. lia.
Qed.

(** X4: in a reachable state an address has earned at most the sum of the
    prices of the purchase records that name it as seller, and never a
    negative amount. *)
Theorem earned_bounded_by_sales (s : State Coin) (m : DataMarketplace.t)
  (a : address) (st : UserStats.t) :
  reachable DataDex s ->
  marketplace_at s !! DataDex = Some m ->
  get_user_stats a s = Some st ->
  0 <= UserStats.total_earned st <=
    total_price (filter (fun p => Purchase.seller p = a) (DataMarketplace.purchases m)).
Proof.
  intros Hreach Hm Hst. apply reachable_books in Hreach.
  pose proof (books_earned _ _ Hreach m a Hm) as Hearn. unfold stats_of in Hearn.
  rewrite get_user_stats_lookup in Hst. now rewrite Hst in Hearn.
Qed.

(** X5: in a reachable state every listing has a positive price that fits
    a [u64], and every purchase record a positive price. *)
Theorem prices_stay_positive (s : State Coin) (m : DataMarketplace.t) :
  reachable DataDex s ->
  marketplace_at s !! DataDex = Some m ->
  (forall d, d ∈ DataMarketplace.datasets m -> 0 < Dataset.price d <= MAX_U64) /\
  (forall p, p ∈ DataMarketplace.purchases m -> 0 < Purchase.price p).
Proof.
  intros Hreach Hm. apply reachable_books in Hreach. split.
  - intros d. exact (books_prices _ _ Hreach m d Hm).
  - intros p. exact (books_sold _ _ Hreach m p Hm).
Qed.

(** *** Looking a dataset up by its id *)

Lemma find_from_sequential (ds : list Dataset.t) (x : Z) (k : nat) :
  (forall j d, ds !! j = Some d -> Dataset.id d = Z.of_nat (k + j) + 1) ->
  find_from ds x k =
    if decide (Z.of_nat k + 1 <= x <= Z.of_nat (k + length ds))
    then Some (Z.to_nat (x - 1)) else None.
Proof.
  revert k. induction ds as [|d ds IH]; intros k Hids; simpl.
  - destruct (decide _); [lia | reflexivity].
  - pose proof (Hids 0%nat d eq_refl) as Hd. rewrite Nat.add_0_r in Hd.
    destruct (Z.eqb_spec (Dataset.id d) x) as [Heq|Hne].
    + destruct (decide _) as [_|Hno]; [|lia]. f_equal. lia.
    + rewrite IH.
      * destruct (decide _) as [Hin|Hout]; destruct (decide _) as [Hin'|Hout'];
          try reflexivity; lia.
      * intros j dj Hj. rewrite (Hids (S j) dj Hj). f_equal. lia.
Qed.

Lemma find_dataset_by_id_sequential (m : DataMarketplace.t) (x : Z) :
  marketplace_inv m ->
  find_dataset_by_id (DataMarketplace.datasets m) x =
    if decide (1 <= x <= Z.of_nat (length (DataMarketplace.datasets m)))
    then Some (Z.to_nat (x - 1)) else None.
Proof.
  intros [_ Hids _ _ _]. unfold find_dataset_by_id.
  rewrite find_from_sequential by (intros j d Hj; now rewrite (Hids j d Hj)).
  simpl. reflexivity.
Qed.

Lemma find_own_id (m : DataMarketplace.t) (i : nat) (d : Dataset.t) :
  marketplace_inv m -> DataMarketplace.datasets m !! i = Some d ->
  find_dataset_by_id (DataMarketplace.datasets m) (Dataset.id d) = Some i.
Proof.
  intros Hinv Hd. rewrite find_dataset_by_id_sequential by assumption.
  destruct Hinv as [_ Hids _ _ _]. rewrite (Hids i d Hd).
  pose proof (lookup_lt_Some _ _ _ Hd).
  destruct (decide _); [f_equal; lia | lia].
Qed.

Lemma get_dataset_by_id_found (x : Z) (s : State Coin) (m : DataMarketplace.t) :
  marketplace_at s !! DataDex = Some m ->
  get_dataset_by_id DataDex x s =
    Ok (match find_dataset_by_id (DataMarketplace.datasets m) x with
        | Some i => DataMarketplace.datasets m !! i
        | None => None
        end).
Proof.
  intros Hm. unfold get_dataset_by_id, borrow_global. rewrite Hm. simpl.
  destruct (find_dataset_by_id (DataMarketplace.datasets m) x) as [i|] eqn:Hfind; simpl.
  - apply MarketplaceProperties.find_dataset_by_id_lookup in Hfind as (d & Hd & _).
    unfold vector_borrow. now rewrite Hd.
  - reflexivity.
Qed.

(** The view after a listing has been replaced by one of the same id. *)
Lemma get_dataset_by_id_edit (x : Z) (s : State Coin) (m : DataMarketplace.t)
  (i : nat) (d d' : Dataset.t) (stats : gmap address UserStats.t) (c : Coin) :
  marketplace_at s !! DataDex = Some m ->
  find_dataset_by_id (DataMarketplace.datasets m) (Dataset.id d) = Some i ->
  DataMarketplace.datasets m !! i = Some d ->
  Dataset.id d' = Dataset.id d ->
  get_dataset_by_id DataDex x
    (mkState (<[DataDex := set_datasets m (<[i := d']> (DataMarketplace.datasets m))]>
                (marketplace_at s)) stats c)
  = if decide (x = Dataset.id d) then Ok (Some d') else get_dataset_by_id DataDex x s.
Proof.
  intros Hm Hfind Hd Hid.
  rewrite (get_dataset_by_id_found x s m Hm).
  rewrite (get_dataset_by_id_found x _ (set_datasets m (<[i := d']> (DataMarketplace.datasets m))))
    by (simpl; apply lookup_insert_eq).
  simpl. unfold find_dataset_by_id in *.
  rewrite (MarketplaceProperties.find_from_ids _ (DataMarketplace.datasets m))
    by (now apply MarketplaceProperties.map_insert_same with (x := d)).
  destruct (decide (x = Dataset.id d)) as [->|Hne].
  - rewrite Hfind. rewrite list_lookup_insert_eq by (now apply lookup_lt_Some in Hd).
    reflexivity.
  - destruct (find_from (DataMarketplace.datasets m) x 0) as [j|] eqn:Hj; [|reflexivity].
    f_equal. apply list_lookup_insert_ne. intros <-.
    apply MarketplaceProperties.find_from_lookup in Hj as (_ & dj & Hdj & Hidj).
    rewrite Nat.sub_0_r, Hd in Hdj. injection Hdj as <-. congruence.
Qed.

(** X6: in a reachable state [get_dataset_by_id] is positional: the id 1
    is the first dataset of the vector, the id 2 the second, and so on; an
    id below 1 or above the number of datasets gives nothing.  The number of
    datasets is the next id less one. *)
Theorem get_dataset_by_id_positional (s : State Coin) (m : DataMarketplace.t) (x : Z) :
  reachable DataDex s ->
  marketplace_at s !! DataDex = Some m ->
  get_dataset_by_id DataDex x s =
    Ok (if decide (1 <= x) then DataMarketplace.datasets m !! Z.to_nat (x - 1) else None) /\
  get_dataset_count DataDex s = Ok (DataMarketplace.next_dataset_id m - 1).
Proof.
  intros Hreach Hm.
  pose proof (MarketplaceProperties.reachable_inv DataDex s Hreach DataDex m Hm) as Hinv.
  split.
  - rewrite (get_dataset_by_id_found x s m Hm), find_dataset_by_id_sequential by assumption.
    f_equal. destruct (decide (1 <= x <= _)) as [Hin|Hout]; destruct (decide (1 <= x));
      try reflexivity; try lia.
    symmetry. apply lookup_ge_None. lia.
  - unfold get_dataset_count, borrow_global. rewrite Hm. simpl.
    destruct Hinv as [_ _ Hnext _ _]. rewrite Hnext. f_equal. lia.
Qed.

(** X7: after an upload in a reachable state the dataset count has grown
    by one, [get_dataset_by_id] of the new count returns the dataset as
    uploaded, active and with no purchases, and returns for every other id
    what it returned before. *)
Theorem upload_then_lookup (account : address)
  (ipfs_hash title description category : string) (price now : Z) (s s' : State Coin) :
  reachable DataDex s ->
  upload_dataset DataDex account ipfs_hash title description category price now s = Ok s' ->
  exists n,
    get_dataset_count DataDex s = Ok (n - 1) /\
    get_dataset_count DataDex s' = Ok n /\
    get_dataset_by_id DataDex n s' =
      Ok (Some (Dataset.mk n ipfs_hash title description category price account now 0 true)) /\
    (forall x, x <> n -> get_dataset_by_id DataDex x s' = get_dataset_by_id DataDex x s).
Proof.
  intros Hreach Hrun.
  apply upload_dataset_exact in Hrun as (_ & m & Hm & ->).
  pose proof (MarketplaceProperties.reachable_inv DataDex s Hreach DataDex m Hm) as Hinv.
  pose proof Hinv as [_ Hids Hnext _ _].
  exists (DataMarketplace.next_dataset_id m).
  split; [|split; [|split]].
  - unfold get_dataset_count, borrow_global. rewrite Hm. simpl. f_equal. lia.
  - unfold get_dataset_count, borrow_global. simpl. rewrite lookup_insert_eq. simpl.
    rewrite length_app. simpl. f_equal. lia.
  - erewrite get_dataset_by_id_found by (simpl; apply lookup_insert_eq). simpl.
    unfold find_dataset_by_id. rewrite find_from_sequential.
    + rewrite length_app. simpl.
      destruct (decide _) as [_|Hout]; [|lia].
      rewrite lookup_app_r by lia.
      replace (Z.to_nat (DataMarketplace.next_dataset_id m - 1)
               - length (DataMarketplace.datasets m))%nat with 0%nat by lia.
      reflexivity.
    + intros j d Hj. apply lookup_app_Some in Hj as [Hj|[Hlen Hj]].
      * now rewrite (Hids j d Hj).
      * destruct (j - length (DataMarketplace.datasets m))%nat eqn:Hk;
          [|destruct n; discriminate].
        injection Hj as <-. simpl. lia.
  - intros x Hx.
    erewrite get_dataset_by_id_found by (simpl; apply lookup_insert_eq).
    rewrite (get_dataset_by_id_found x s m Hm). simpl. f_equal.
    unfold find_dataset_by_id.
    destruct (find_from (DataMarketplace.datasets m) x 0) as [j|] eqn:Hj.
    + rewrite (MarketplaceProperties.find_from_app _ _ _ _ _ Hj).
      apply MarketplaceProperties.find_from_lookup in Hj as (_ & dj & Hdj & _).
      rewrite Nat.sub_0_r in Hdj. rewrite Hdj. now apply lookup_app_l_Some.
    + fold (find_dataset_by_id (DataMarketplace.datasets m) x) in Hj.
      rewrite find_dataset_by_id_sequential in Hj by assumption.
      destruct (decide _) as [|Hout] in Hj; [discriminate|].
      rewrite find_from_sequential.
      * rewrite length_app. simpl. destruct (decide _) as [Hin|]; [lia | reflexivity].
      * intros j d Hj'. apply lookup_app_Some in Hj' as [Hj'|[Hlen Hj']].
        -- now rewrite (Hids j d Hj').
        -- destruct (j - length (DataMarketplace.datasets m))%nat eqn:Hk;
             [|destruct n; discriminate].
           injection Hj' as <-. simpl. lia.
Qed.

(** *** What happens to a dataset *)

Lemma run_dataset_step (tx : Tx) (now : Z) (s s' : State Coin) (m : DataMarketplace.t)
  (i : nat) (d : Dataset.t) :
  run DataDex tx now s = Ok s' ->
  marketplace_at s !! DataDex = Some m -> DataMarketplace.datasets m !! i = Some d ->
  exists m' d',
    marketplace_at s' !! DataDex = Some m' /\
    DataMarketplace.datasets m' !! i = Some d' /\
    dataset_step tx d d'.
Proof.
  intros Hrun Hm Hd. destruct tx; simpl in Hrun.
  - apply initialize_exact in Hrun as (Hnone & _ & ->). simpl.
    exists m, d. rewrite lookup_insert_ne by congruence. repeat split; auto. now left.
  - apply upload_dataset_exact in Hrun as (_ & m0 & Hm0 & ->).
    rewrite Hm in Hm0. injection Hm0 as <-. simpl. rewrite lookup_insert_eq.
    eexists. exists d. split; [reflexivity|]. simpl.
    split; [now apply lookup_app_l_Some | now left].
  - apply purchase_dataset_exact in Hrun
      as (m0 & i0 & d0 & bal & fee & amount & c & Hm0 & Hfind & Hd0 & Hact & Hself & _ & _
          & _ & _ & ->).
    rewrite Hm in Hm0. injection Hm0 as <-. simpl. rewrite lookup_insert_eq.
    apply MarketplaceProperties.find_dataset_by_id_lookup in Hfind as (d1 & Hd1 & Hid).
    rewrite Hd0 in Hd1. injection Hd1 as <-.
    destruct (decide (i0 = i)) as [->|Hne].
    + rewrite Hd in Hd0. injection Hd0 as <-.
      eexists. eexists. split; [reflexivity|]. simpl.
      rewrite list_lookup_insert_eq by (now apply lookup_lt_Some in Hd).
      split; [reflexivity|]. right. auto.
    + eexists. exists d. split; [reflexivity|]. simpl.
      rewrite list_lookup_insert_ne by assumption. split; [assumption | now left].
  - apply deactivate_dataset_exact in Hrun as (m0 & i0 & d0 & Hm0 & Hfind & Hd0 & Hown & ->).
    rewrite Hm in Hm0. injection Hm0 as <-. simpl. rewrite lookup_insert_eq.
    apply MarketplaceProperties.find_dataset_by_id_lookup in Hfind as (d1 & Hd1 & Hid).
    rewrite Hd0 in Hd1. injection Hd1 as <-.
    destruct (decide (i0 = i)) as [->|Hne].
    + rewrite Hd in Hd0. injection Hd0 as <-.
      eexists. eexists. split; [reflexivity|]. simpl.
      rewrite list_lookup_insert_eq by (now apply lookup_lt_Some in Hd).
      split; [reflexivity|]. right. auto.
    + eexists. exists d. split; [reflexivity|]. simpl.
      rewrite list_lookup_insert_ne by assumption. split; [assumption | now left].
  - apply update_dataset_price_exact in Hrun
      as (Hpos & m0 & i0 & d0 & Hm0 & Hfind & Hd0 & Hown & ->).
    rewrite Hm in Hm0. injection Hm0 as <-. simpl. rewrite lookup_insert_eq.
    apply MarketplaceProperties.find_dataset_by_id_lookup in Hfind as (d1 & Hd1 & Hid).
    rewrite Hd0 in Hd1. injection Hd1 as <-.
    destruct (decide (i0 = i)) as [->|Hne].
    + rewrite Hd in Hd0. injection Hd0 as <-.
      eexists. eexists. split; [reflexivity|]. simpl.
      rewrite list_lookup_insert_eq by (now apply lookup_lt_Some in Hd).
      split; [reflexivity|]. right. auto.
    + eexists. exists d. split; [reflexivity|]. simpl.
      rewrite list_lookup_insert_ne by assumption. split; [assumption | now left].
Qed.

(** X8: whatever a transaction does, a dataset keeps its place, its id,
    owner, content reference, title, description, category and creation
    time.  Its price changes only by an [update_dataset_price] of its owner
    that names its id, its [is_active] only by a [deactivate_dataset] of its
    owner that names its id, and then to [false]; its [total_purchases]
    changes only by a [purchase_dataset] of its id by somebody else, and
    then by one. *)
Theorem only_the_owner_edits (tx : Tx) (now : Z) (s s' : State Coin)
  (m : DataMarketplace.t) (i : nat) (d : Dataset.t) :
  run DataDex tx now s = Ok s' ->
  marketplace_at s !! DataDex = Some m -> DataMarketplace.datasets m !! i = Some d ->
  exists m' d',
    marketplace_at s' !! DataDex = Some m' /\
    DataMarketplace.datasets m' !! i = Some d' /\
    Dataset.id d' = Dataset.id d /\ Dataset.owner d' = Dataset.owner d /\
    Dataset.ipfs_hash d' = Dataset.ipfs_hash d /\ Dataset.title d' = Dataset.title d /\
    Dataset.description d' = Dataset.description d /\
    Dataset.category d' = Dataset.category d /\
    Dataset.created_at d' = Dataset.created_at d /\
    (Dataset.price d' <> Dataset.price d ->
       tx = TxUpdatePrice (Dataset.owner d) (Dataset.id d) (Dataset.price d')) /\
    (Dataset.is_active d' <> Dataset.is_active d ->
       tx = TxDeactivate (Dataset.owner d) (Dataset.id d) /\ Dataset.is_active d' = false) /\
    (Dataset.total_purchases d' <> Dataset.total_purchases d ->
       exists buyer, tx = TxPurchase buyer (Dataset.id d) /\ buyer <> Dataset.owner d /\
         Dataset.total_purchases d' = Dataset.total_purchases d + 1).
Proof.
  intros Hrun Hm Hd.
  destruct (run_dataset_step tx now s s' m i d Hrun Hm Hd) as (m' & d' & Hm' & Hd' & Hstep).
  exists m', d'. split; [assumption|]. split; [assumption|].
  assert (Hsplit : forall A B C : Prop, A -> B -> C -> A /\ B /\ C) by tauto.
  destruct Hstep as [->|Hstep].
  - repeat (split; [reflexivity|]).
    apply Hsplit; intros Hne; exfalso; apply Hne; reflexivity.
  - destruct tx; try contradiction.
    + destruct Hstep as (-> & Hself & Hact & ->). simpl.
      repeat (split; [reflexivity|]).
      apply Hsplit; intros Hne; try (exfalso; apply Hne; reflexivity).
      exists buyer. auto.
    + destruct Hstep as (-> & -> & ->). simpl.
      repeat (split; [reflexivity|]).
      apply Hsplit; intros Hne; try (exfalso; apply Hne; reflexivity). auto.
    + destruct Hstep as (-> & -> & Hpos & ->). simpl.
      do 7 (split; [reflexivity|]).
      apply Hsplit; intros Hne; try (exfalso; apply Hne; reflexivity). reflexivity.
Qed.

(** The package's marketplace stays, and stays well-formed. *)
Lemma later_marketplace_inv (s s' : State Coin) (m : DataMarketplace.t) :
  later DataDex s s' -> marketplace_at s !! DataDex = Some m -> marketplace_inv m ->
  exists m', marketplace_at s' !! DataDex = Some m' /\ marketplace_inv m'.
Proof.
  intros Hlater Hm Hinv. induction Hlater as [| s1 tx now s2 _ IH Hrun | s1 c _ IH].
  - eauto.
  - destruct IH as (m1 & Hm1 & Hinv1).
    pose proof (MarketplaceProperties.run_slots DataDex _ _ _ _ Hrun DataDex) as Hstep.
    rewrite Hm1 in Hstep.
    destruct (marketplace_at s2 !! DataDex) as [m2|]; simpl in Hstep; [|contradiction].
    exists m2. split; [reflexivity|].
    eapply MarketplaceProperties.evolves_inv; eassumption.
  - exact IH.
Qed.

(** X9: a dataset that is deactivated in a reachable state is deactivated
    in every later state and has the purchases it had: nothing switches it
    on again, and every [purchase_dataset] of its id, by anybody, aborts
    with [E_DATASET_NOT_FOUND]. *)
Theorem deactivation_is_permanent (s s' : State Coin) (m : DataMarketplace.t)
  (i : nat) (d : Dataset.t) :
  reachable DataDex s -> later DataDex s s' ->
  marketplace_at s !! DataDex = Some m -> DataMarketplace.datasets m !! i = Some d ->
  Dataset.is_active d = false ->
  exists m' d',
    marketplace_at s' !! DataDex = Some m' /\
    DataMarketplace.datasets m' !! i = Some d' /\
    Dataset.is_active d' = false /\
    Dataset.total_purchases d' = Dataset.total_purchases d /\
    forall buyer now,
      purchase_dataset DataDex buyer (Dataset.id d) now s' = Err (Abort E_DATASET_NOT_FOUND).
Proof.
  intros Hreach Hlater Hm Hd Hoff.
  pose proof (MarketplaceProperties.reachable_inv DataDex s Hreach DataDex m Hm) as Hinv.
  assert (Hkeep : exists m' d',
             marketplace_at s' !! DataDex = Some m' /\
             DataMarketplace.datasets m' !! i = Some d' /\
             Dataset.id d' = Dataset.id d /\ Dataset.is_active d' = false /\
             Dataset.total_purchases d' = Dataset.total_purchases d).
  { clear Hreach Hinv. induction Hlater as [| s1 tx now s2 _ IH Hrun | s1 c _ IH].
    - exists m, d. auto.
    - destruct IH as (m1 & d1 & Hm1 & Hd1 & Hid1 & Hoff1 & Htot1).
      destruct (run_dataset_step tx now s1 s2 m1 i d1 Hrun Hm1 Hd1)
        as (m2 & d2 & Hm2 & Hd2 & Hstep).
      exists m2, d2. split; [assumption|]. split; [assumption|].
      destruct Hstep as [->|Hstep]; [auto|].
      destruct tx; try contradiction.
      + destruct Hstep as (_ & _ & Hact & _). congruence.
      + destruct Hstep as (_ & _ & ->). simpl. auto.
      + destruct Hstep as (_ & _ & _ & ->). simpl. auto.
    - exact IH. }
  destruct Hkeep as (m' & d' & Hm' & Hd' & Hid' & Hoff' & Htot').
  exists m', d'. repeat (split; [assumption|]).
  intros buyer now.
  destruct (later_marketplace_inv s s' m Hlater Hm Hinv) as (m0 & Hm0 & Hinv').
  rewrite Hm' in Hm0. injection Hm0 as <-.
  pose proof (find_own_id m' i d' Hinv' Hd') as Hfind. rewrite Hid' in Hfind.
  unfold purchase_dataset, borrow_global. rewrite Hm'. simpl. rewrite Hfind. simpl.
  unfold vector_borrow. rewrite Hd'. simpl. rewrite Hoff'. reflexivity.
Qed.

(** X10: in a reachable state the owner of a dataset, active or not, can
    always set a positive price: [update_dataset_price] with the dataset's
    id goes through, after it [get_dataset_by_id] returns the dataset with
    the new price for that id and what it returned before for every other
    id, and counters, coins and purchase records are as they were. *)
Theorem owner_can_reprice (s : State Coin) (m : DataMarketplace.t) (i : nat)
  (d : Dataset.t) (new_price : Z) :
  reachable DataDex s ->
  marketplace_at s !! DataDex = Some m -> DataMarketplace.datasets m !! i = Some d ->
  0 < new_price ->
  exists s',
    update_dataset_price DataDex (Dataset.owner d) (Dataset.id d) new_price s = Ok s' /\
    stats_at s' = stats_at s /\ coins s' = coins s /\
    (forall x, get_dataset_by_id DataDex x s' =
       if decide (x = Dataset.id d)
       then Ok (Some (Dataset.mk (Dataset.id d) (Dataset.ipfs_hash d) (Dataset.title d)
                        (Dataset.description d) (Dataset.category d) new_price
                        (Dataset.owner d) (Dataset.created_at d)
                        (Dataset.total_purchases d) (Dataset.is_active d)))
       else get_dataset_by_id DataDex x s) /\
    (exists d', get_dataset_by_id DataDex (Dataset.id d) s' = Ok (Some d')
                /\ Dataset.price d' = new_price) /\
    (forall b, get_purchases_by_buyer DataDex b s' = get_purchases_by_buyer DataDex b s).
Proof.
  intros Hreach Hm Hd Hpos.
  pose proof (MarketplaceProperties.reachable_inv DataDex s Hreach DataDex m Hm) as Hinv.
  pose proof (find_own_id m i d Hinv Hd) as Hfind.
  eexists. split.
  { unfold update_dataset_price, borrow_global.
    apply Z.ltb_lt in Hpos. rewrite Hpos, Hm. simpl. rewrite Hfind. simpl.
    unfold vector_borrow. rewrite Hd. simpl. rewrite N.eqb_refl. simpl. reflexivity. }
  simpl. split; [reflexivity|]. split; [reflexivity|].
  assert (Hlookup : forall x,
            get_dataset_by_id DataDex x
              (mkState (<[DataDex := set_datasets m (<[i := set_price d new_price]>
                                                       (DataMarketplace.datasets m))]>
                          (marketplace_at s)) (stats_at s) (coins s))
            = if decide (x = Dataset.id d) then Ok (Some (set_price d new_price))
              else get_dataset_by_id DataDex x s).
  { intros x. now apply get_dataset_by_id_edit. }
  split; [|split].
  - intros x. exact (Hlookup x).
  - eexists. split.
    + rewrite (Hlookup (Dataset.id d)). destruct (decide _); [reflexivity | contradiction].
    + reflexivity.
  - intros b. unfold get_purchases_by_buyer, borrow_global. simpl.
    rewrite lookup_insert_eq, Hm. reflexivity.
Qed.

(** X11: in a reachable state the owner of a dataset can always deactivate
    it: [deactivate_dataset] with the dataset's id goes through, also on a
    dataset that is deactivated already, and doing it again leaves the
    state as it is.  After it [get_dataset_by_id] returns the dataset
    switched off, [get_active_datasets] returns no dataset of that id, and
    counters, coins and purchase records are as they were. *)
Theorem owner_can_deactivate (s : State Coin) (m : DataMarketplace.t) (i : nat)
  (d : Dataset.t) :
  reachable DataDex s ->
  marketplace_at s !! DataDex = Some m -> DataMarketplace.datasets m !! i = Some d ->
  exists s',
    deactivate_dataset DataDex (Dataset.owner d) (Dataset.id d) s = Ok s' /\
    deactivate_dataset DataDex (Dataset.owner d) (Dataset.id d) s' = Ok s' /\
    stats_at s' = stats_at s /\ coins s' = coins s /\
    (forall x, get_dataset_by_id DataDex x s' =
       if decide (x = Dataset.id d) then Ok (Some (set_is_active d false))
       else get_dataset_by_id DataDex x s) /\
    (forall b, get_purchases_by_buyer DataDex b s' = get_purchases_by_buyer DataDex b s) /\
    (exists l, get_active_datasets DataDex s' = Ok l /\
               forall d0, d0 ∈ l -> Dataset.id d0 <> Dataset.id d).
Proof.
  intros Hreach Hm Hd.
  pose proof (MarketplaceProperties.reachable_inv DataDex s Hreach DataDex m Hm) as Hinv.
  pose proof (find_own_id m i d Hinv Hd) as Hfind.
  pose proof (lookup_lt_Some _ _ _ Hd) as Hlt.
  eexists. split.
  { unfold deactivate_dataset, borrow_global. rewrite Hm. simpl. rewrite Hfind. simpl.
    unfold vector_borrow. rewrite Hd. simpl. rewrite N.eqb_refl. simpl. reflexivity. }
  split.
  { unfold deactivate_dataset, borrow_global. simpl. rewrite lookup_insert_eq. simpl.
    unfold find_dataset_by_id in *.
    rewrite (MarketplaceProperties.find_from_ids _ (DataMarketplace.datasets m))
      by (now apply MarketplaceProperties.map_insert_same with (x := d)).
    rewrite Hfind. simpl. unfold vector_borrow.
    rewrite list_lookup_insert_eq by assumption. simpl. rewrite N.eqb_refl. simpl.
    rewrite insert_insert_eq. unfold set_datasets. simpl.
    rewrite list_insert_insert_eq. reflexivity. }
  simpl. split; [reflexivity|]. split; [reflexivity|]. split; [|split].
  - intros x. now apply get_dataset_by_id_edit.
  - intros b. unfold get_purchases_by_buyer, borrow_global. simpl.
    rewrite lookup_insert_eq, Hm. reflexivity.
  - eexists. split.
    { unfold get_active_datasets, borrow_global. simpl. rewrite lookup_insert_eq.
      reflexivity. }
    simpl. intros d0 Hd0. apply active_datasets_spec in Hd0 as [Hin Hact].
    apply list_elem_of_lookup in Hin as [j Hj].
    apply list_lookup_insert_Some in Hj as [(_ & <- & _)|(Hne & Hj)]; [discriminate|].
    destruct Hinv as [_ Hids _ _ _]. rewrite (Hids j d0 Hj), (Hids i d Hd). lia.
Qed.

(** *** The purchase records *)

Lemma evolves_purchases (m m' : DataMarketplace.t) :
  evolves m m' -> DataMarketplace.purchases m `prefix_of` DataMarketplace.purchases m'.
Proof.
  intros [-> | d _ _ _ Hps _ | i d p _ _ _ _ _ _ Hps _ _ | i d d' _ _ _ _ Hps _ _].
  - reflexivity.
  - now rewrite Hps.
  - rewrite Hps. now apply prefix_app_r.
  - now rewrite Hps.
Qed.

(** X12: purchase records are only ever appended: the records of a state
    are, unchanged and in order, the first records of every later state, so
    a later change of price leaves the price of a record alone and
    [has_user_purchased_dataset], once true, stays true.  Right after a
    purchase that went through it is true for the buyer and the dataset. *)
Theorem purchase_history_append_only :
  (forall (s s' : State Coin) m,
     later DataDex s s' -> marketplace_at s !! DataDex = Some m ->
     exists m', marketplace_at s' !! DataDex = Some m' /\
       DataMarketplace.purchases m `prefix_of` DataMarketplace.purchases m' /\
       forall b x, has_user_purchased_dataset DataDex b x s = Ok true ->
                   has_user_purchased_dataset DataDex b x s' = Ok true) /\
  (forall buyer dataset_id now (s s' : State Coin),
     purchase_dataset DataDex buyer dataset_id now s = Ok s' ->
     has_user_purchased_dataset DataDex buyer dataset_id s = Ok false /\
     has_user_purchased_dataset DataDex buyer dataset_id s' = Ok true).
Proof.
  split.
  - intros s s' m Hlater Hm.
    assert (Hpre : exists m', marketplace_at s' !! DataDex = Some m' /\
              DataMarketplace.purchases m `prefix_of` DataMarketplace.purchases m').
    { induction Hlater as [| s1 tx now s2 _ IH Hrun | s1 c _ IH].
      - exists m. split; [assumption | reflexivity].
      - destruct IH as (m1 & Hm1 & Hpre1).
        pose proof (MarketplaceProperties.run_slots DataDex _ _ _ _ Hrun DataDex) as Hstep.
        rewrite Hm1 in Hstep.
        destruct (marketplace_at s2 !! DataDex) as [m2|]; simpl in Hstep; [|contradiction].
        exists m2. split; [reflexivity|].
        etransitivity; [exact Hpre1 | now apply evolves_purchases].
      - exact IH. }
    destruct Hpre as (m' & Hm' & Hpre). exists m'. split; [assumption|]. split; [assumption|].
    intros b x. unfold has_user_purchased_dataset, borrow_global. rewrite Hm, Hm'. simpl.
    intros [= Hhas]. f_equal.
    apply MarketplaceProperties.has_purchased_dataset_spec.
    apply MarketplaceProperties.has_purchased_dataset_spec in Hhas.
    destruct Hpre as [extra ->]. rewrite fmap_app. apply elem_of_app. now left.
  - intros buyer dataset_id now s s' Hrun.
    apply purchase_dataset_exact in Hrun
      as (m & i & d & bal & fee & amount & c & Hm & _ & _ & _ & _ & Hnew & _ & _ & _ & ->).
    unfold has_user_purchased_dataset, borrow_global. simpl.
    rewrite Hm, lookup_insert_eq. simpl. rewrite Hnew. split; [reflexivity|]. f_equal.
    apply MarketplaceProperties.has_purchased_dataset_spec.
    rewrite fmap_app. apply elem_of_app. right. simpl. left.
Qed.

(** *** Counters never go back *)

(** X13: no transaction on a reachable state removes the counters of an
    address or lowers one of them. *)
Theorem counters_never_decrease (tx : Tx) (now : Z) (s s' : State Coin) (a : address)
  (st : UserStats.t) :
  reachable DataDex s -> run DataDex tx now s = Ok s' ->
  stats_at s !! a = Some st ->
  exists st', stats_at s' !! a = Some st' /\
    UserStats.datasets_uploaded st <= UserStats.datasets_uploaded st' /\
    UserStats.datasets_purchased st <= UserStats.datasets_purchased st' /\
    UserStats.total_earned st <= UserStats.total_earned st' /\
    UserStats.total_spent st <= UserStats.total_spent st'.
Proof.
  intros Hreach Hrun Hst.
  assert (Hsame : stats_at s' = stats_at s ->
            exists st', stats_at s' !! a = Some st' /\
              UserStats.datasets_uploaded st <= UserStats.datasets_uploaded st' /\
              UserStats.datasets_purchased st <= UserStats.datasets_purchased st' /\
              UserStats.total_earned st <= UserStats.total_earned st' /\
              UserStats.total_spent st <= UserStats.total_spent st').
  { intros ->. exists st. repeat split; (assumption || lia). }
  destruct tx; simpl in Hrun.
  - apply initialize_exact in Hrun as (_ & _ & ->). now apply Hsame.
  - apply upload_dataset_exact in Hrun as (_ & m & _ & ->). simpl.
    destruct (decide (account = a)) as [->|Hne].
    + rewrite lookup_insert_eq. eexists. split; [reflexivity|].
      unfold stats_of. rewrite Hst. simpl. lia.
    + rewrite lookup_insert_ne by assumption. exists st. repeat split; (assumption || lia).
  - apply purchase_dataset_exact in Hrun
      as (m & i & d & bal & fee & amount & c & Hm & _ & Hd & _ & Hself & _ & _ & _
          & Hsplit & ->).
    simpl.
    pose proof (MarketplaceProperties.reachable_inv DataDex s Hreach DataDex m Hm)
      as [Hfee _ _ _ _].
    pose proof (reachable_books s Hreach) as Hbooks.
    assert (Hprice : 0 < Dataset.price d <= MAX_U64).
    { apply (books_prices _ _ Hbooks m); [assumption|].
      now apply list_elem_of_lookup_2 in Hd. }
    assert (Hamount : 0 <= amount <= Dataset.price d).
    { apply (payment_split_bounds _ _ _ _ Hsplit); lia. }
    pose proof (stats_after_purchase_of (stats_at s) buyer (Dataset.owner d)
                  (Dataset.price d) amount a ltac:(congruence)) as Hof.
    assert (Hsome : is_Some (stats_after_purchase (stats_at s) buyer (Dataset.owner d)
                               (Dataset.price d) amount !! a)).
    { unfold stats_after_purchase.
      destruct (stats_at s !! Dataset.owner d) as [sst|].
      - destruct (decide (a = Dataset.owner d)) as [->|Has];
          [rewrite lookup_insert_eq; eauto | rewrite lookup_insert_ne by congruence].
        destruct (decide (a = buyer)) as [->|Hab];
          [rewrite lookup_insert_eq | rewrite lookup_insert_ne by congruence]; eauto.
      - destruct (decide (a = buyer)) as [->|Hab];
          [rewrite lookup_insert_eq | rewrite lookup_insert_ne by congruence]; eauto. }
    destruct Hsome as [st' Hst']. exists st'. split; [assumption|].
    rewrite Hst' in Hof. simpl in Hof. rewrite Hof.
    destruct (decide (a = buyer)) as [->|Hab].
    + rewrite Hst. simpl. lia.
    + destruct (decide (a = Dataset.owner d)) as [->|Has].
      * rewrite Hst. simpl. lia.
      * rewrite Hst. simpl. lia.
  - apply deactivate_dataset_exact in Hrun as (m & i & d & _ & _ & _ & _ & ->).
    now apply Hsame.
  - apply update_dataset_price_exact in Hrun as (_ & m & i & d & _ & _ & _ & _ & ->).
    now apply Hsame.
Qed.

(** *** The codes a transaction aborts with *)

Lemma aw_payment_split (cs : list Z) (price pct : Z) :
  aborts_within cs (payment_split price pct).
Proof.
  intros c. unfold payment_split, mul_u64, div_u64, sub_u64. simpl.
  destruct (price * pct <=? MAX_U64); simpl; [|discriminate].
  destruct (price * pct / 100 <=? price); simpl; discriminate.
Qed.

Ltac aw_chain := aw_chain_with ltac:(apply aw_payment_split).

(** X14: a transaction that aborts in one of the module's own [assert!]s
    does so with a code of its list ([abort_codes]); no transaction ever
    aborts with [E_NOT_INITIALIZED].  Before the package address has
    initialised, purchases, deactivations, and uploads and price updates
    with a positive price abort for want of the resource, and with a price
    of zero with [E_INVALID_PRICE]. *)
Theorem abort_codes_complete :
  (forall tx now (s : State Coin) c,
     run DataDex tx now s = Err (Abort c) ->
     c ∈ abort_codes tx /\ c <> E_NOT_INITIALIZED) /\
  (forall (s : State Coin),
     marketplace_at s !! DataDex = None ->
     (forall buyer x now, purchase_dataset DataDex buyer x now s = Err MissingResource) /\
     (forall owner x, deactivate_dataset DataDex owner x s = Err MissingResource) /\
     (forall account h t d c price now,
        upload_dataset DataDex account h t d c price now s =
          if 0 <? price then Err MissingResource else Err (Abort E_INVALID_PRICE)) /\
     (forall owner x price,
        update_dataset_price DataDex owner x price s =
          if 0 <? price then Err MissingResource else Err (Abort E_INVALID_PRICE))).
Proof.
  split.
  - intros tx now s c Hc.
    assert (Hin : aborts_within (abort_codes tx) (run DataDex tx now s)).
    { destruct tx; simpl.
      - unfold initialize. aw_chain.
      - unfold upload_dataset. aw_chain.
      - unfold purchase_dataset. aw_chain.
      - unfold deactivate_dataset. aw_chain.
      - unfold update_dataset_price. aw_chain. }
    specialize (Hin c Hc). split; [assumption|].
    apply list_elem_of_In in Hin. intros ->.
    destruct tx; simpl in Hin; intuition discriminate.
  - intros s Hnone. repeat split; intros.
    + unfold purchase_dataset, borrow_global. now rewrite Hnone.
    + unfold deactivate_dataset, borrow_global. now rewrite Hnone.
    + unfold upload_dataset, borrow_global. rewrite Hnone. now destruct (0 <? price).
    + unfold update_dataset_price, borrow_global. rewrite Hnone. now destruct (0 <? price).
Qed.

(** X15: only the marketplace at the package address is ever used.  In a
    reachable state a marketplace published at any other address is as
    [initialize] left it, without datasets and without purchases; and an
    [initialize] by another address leaves what the package address holds,
    or does not hold, as it was. *)
Theorem foreign_marketplaces_stay_empty :
  (forall (s : State Coin) a m,
     reachable DataDex s -> marketplace_at s !! a = Some m -> a <> DataDex ->
     DataMarketplace.datasets m = [] /\ DataMarketplace.purchases m = [] /\
     DataMarketplace.next_dataset_id m = 1) /\
  (forall admin fee recipient (s s' : State Coin),
     initialize admin fee recipient s = Ok s' -> admin <> DataDex ->
     marketplace_at s' !! DataDex = marketplace_at s !! DataDex /\
     marketplace_at s' !! admin = Some (fresh_marketplace fee recipient) /\
     stats_at s' = stats_at s).
Proof.
  split.
  - intros s a m Hreach Hm Ha. apply reachable_books in Hreach.
    destruct (books_foreign _ _ Hreach a m Hm Ha) as (fee & recipient & ->). auto.
  - intros admin fee recipient s s' Hrun Hne.
    apply initialize_exact in Hrun as (_ & _ & ->). simpl.
    rewrite lookup_insert_ne by assumption. rewrite lookup_insert_eq. auto.
Qed.

(** *** The platform statistics *)

Lemma sum_total_purchases_app (l1 l2 : list Dataset.t) :
  sum_total_purchases (l1 ++ l2) = sum_total_purchases l1 + sum_total_purchases l2.
Proof. induction l1 as [|d l1 IH]; simpl; [reflexivity | rewrite IH; lia]. Qed.

Lemma sum_total_purchases_insert (ds : list Dataset.t) (i : nat) (d d' : Dataset.t) :
  ds !! i = Some d ->
  sum_total_purchases (<[i := d']> ds) =
    sum_total_purchases ds - Dataset.total_purchases d + Dataset.total_purchases d'.
Proof.
  revert i. induction ds as [|d0 ds IH]; intros [|i] Hd; simpl in *; try discriminate.
  - injection Hd as ->. lia.
  - rewrite (IH i Hd). lia.
Qed.

Lemma reachable_sum_total_purchases (s : State Coin) (a : address) (m : DataMarketplace.t) :
  reachable DataDex s -> marketplace_at s !! a = Some m ->
  sum_total_purchases (DataMarketplace.datasets m) =
    Z.of_nat (length (DataMarketplace.purchases m)).
Proof.
  intros Hreach. revert a m.
  induction Hreach as [c | s tx now s' _ IH _ _ Hrun | s c _ IH]; intros a m Hm.
  - simpl in Hm. rewrite lookup_empty in Hm. discriminate.
  - destruct tx; simpl in Hrun.
    + apply initialize_exact in Hrun as (_ & _ & ->). simpl in Hm.
      destruct (decide (admin = a)) as [->|Hne].
      * rewrite lookup_insert_eq in Hm. now injection Hm as <-.
      * rewrite lookup_insert_ne in Hm by assumption. eauto.
    + apply upload_dataset_exact in Hrun as (_ & m0 & Hm0 & ->). simpl in Hm.
      destruct (decide (DataDex = a)) as [<-|Hne].
      * rewrite lookup_insert_eq in Hm. injection Hm as <-. simpl.
        rewrite sum_total_purchases_app, (IH _ _ Hm0). simpl. lia.
      * rewrite lookup_insert_ne in Hm by assumption. eauto.
    + apply purchase_dataset_exact in Hrun
        as (m0 & i & d & bal & fee & amount & c & Hm0 & _ & Hd & _ & _ & _ & _ & _ & _ & ->).
      simpl in Hm. destruct (decide (DataDex = a)) as [<-|Hne].
      * rewrite lookup_insert_eq in Hm. injection Hm as <-. simpl.
        rewrite (sum_total_purchases_insert _ _ d) by assumption.
        rewrite length_app, (IH _ _ Hm0). simpl. lia.
      * rewrite lookup_insert_ne in Hm by assumption. eauto.
    + apply deactivate_dataset_exact in Hrun as (m0 & i & d & Hm0 & _ & Hd & _ & ->).
      simpl in Hm. destruct (decide (DataDex = a)) as [<-|Hne].
      * rewrite lookup_insert_eq in Hm. injection Hm as <-. simpl.
        rewrite (sum_total_purchases_insert _ _ d) by assumption.
        rewrite (IH _ _ Hm0). simpl. lia.
      * rewrite lookup_insert_ne in Hm by assumption. eauto.
    + apply update_dataset_price_exact in Hrun as (_ & m0 & i & d & Hm0 & _ & Hd & _ & ->).
      simpl in Hm. destruct (decide (DataDex = a)) as [<-|Hne].
      * rewrite lookup_insert_eq in Hm. injection Hm as <-. simpl.
        rewrite (sum_total_purchases_insert _ _ d) by assumption.
        rewrite (IH _ _ Hm0). simpl. lia.
      * rewrite lookup_insert_ne in Hm by assumption. eauto.
  - simpl in Hm. eauto.
Qed.

(** X16: in a reachable state the three numbers of [get_platform_stats]
    fit together: the number of datasets is the next id less one, the
    number of purchases is the sum of the [total_purchases] of all datasets,
    and the number of active datasets is the length of what
    [get_active_datasets] returns, at most the number of datasets. *)
Theorem platform_stats_consistent (s : State Coin) (m : DataMarketplace.t)
  (total_datasets total_purchases active : Z) :
  reachable DataDex s ->
  marketplace_at s !! DataDex = Some m ->
  get_platform_stats DataDex s = Ok (total_datasets, total_purchases, active) ->
  total_datasets = DataMarketplace.next_dataset_id m - 1 /\
  total_purchases = sum_total_purchases (DataMarketplace.datasets m) /\
  (exists l, get_active_datasets DataDex s = Ok l /\ active = Z.of_nat (length l) /\
             forall d, d ∈ l <-> d ∈ DataMarketplace.datasets m /\ Dataset.is_active d = true) /\
  0 <= active <= total_datasets.
Proof.
  intros Hreach Hm Hstats.
  pose proof (MarketplaceProperties.reachable_inv DataDex s Hreach DataDex m Hm)
    as [_ _ Hnext _ _].
  pose proof (reachable_sum_total_purchases s DataDex m Hreach Hm) as Hsum.
  unfold get_platform_stats, get_active_datasets, borrow_global in *.
  rewrite Hm in *. simpl in Hstats. injection Hstats as <- <- <-.
  split; [lia|]. split; [lia|]. split.
  - eexists. split; [reflexivity|]. split; [reflexivity|].
    intros d. apply active_datasets_spec.
  - pose proof (active_datasets_length (DataMarketplace.datasets m)). lia.
Qed.

(** X17: what is refused, and with which code.  In a reachable state an id
    that is not between 1 and the number of datasets makes
    [purchase_dataset], [deactivate_dataset] and, with a positive price,
    [update_dataset_price] abort with [E_DATASET_NOT_FOUND], whoever calls.
    With the id of a dataset, the deactivation and the price update of
    anybody but the owner abort with [E_UNAUTHORIZED]; and the purchase of
    an active dataset, not bought before, by somebody else whose coin
    balance is below the price aborts with [E_INSUFFICIENT_BALANCE]. *)
Theorem unknown_dataset_refused (caller : address) (dataset_id new_price now : Z)
  (s : State Coin) (m : DataMarketplace.t) :
  reachable DataDex s ->
  marketplace_at s !! DataDex = Some m ->
  (~ (1 <= dataset_id <= Z.of_nat (length (DataMarketplace.datasets m))) ->
     purchase_dataset DataDex caller dataset_id now s = Err (Abort E_DATASET_NOT_FOUND) /\
     deactivate_dataset DataDex caller dataset_id s = Err (Abort E_DATASET_NOT_FOUND) /\
     (0 < new_price ->
      update_dataset_price DataDex caller dataset_id new_price s
        = Err (Abort E_DATASET_NOT_FOUND))) /\
  (forall i d,
     DataMarketplace.datasets m !! i = Some d -> Dataset.owner d <> caller ->
     deactivate_dataset DataDex caller (Dataset.id d) s = Err (Abort E_UNAUTHORIZED) /\
     (0 < new_price ->
      update_dataset_price DataDex caller (Dataset.id d) new_price s
        = Err (Abort E_UNAUTHORIZED)) /\
     (forall balance,
        Dataset.is_active d = true ->
        has_purchased_dataset (DataMarketplace.purchases m) caller (Dataset.id d) = false ->
        coin_balance (coins s) caller = Some balance -> balance < Dataset.price d ->
        purchase_dataset DataDex caller (Dataset.id d) now s
          = Err (Abort E_INSUFFICIENT_BALANCE))).
Proof.
  intros Hreach Hm.
  pose proof (MarketplaceProperties.reachable_inv DataDex s Hreach DataDex m Hm) as Hinv.
  split.
  - intros Hrange.
    assert (Hfind : find_dataset_by_id (DataMarketplace.datasets m) dataset_id = None).
    { rewrite find_dataset_by_id_sequential by assumption.
      destruct (decide _); [contradiction | reflexivity]. }
    split; [|split].
    + unfold purchase_dataset, borrow_global. rewrite Hm. simpl. now rewrite Hfind.
    + unfold deactivate_dataset, borrow_global. rewrite Hm. simpl. now rewrite Hfind.
    + intros Hpos. unfold update_dataset_price, borrow_global.
      destruct (Z.ltb_spec 0 new_price); [simpl | lia].
      rewrite Hm. simpl. now rewrite Hfind.
  - intros i d Hd Hown.
    pose proof (find_own_id m i d Hinv Hd) as Hfind.
    apply N.eqb_neq in Hown.
    split; [|split].
    + unfold deactivate_dataset, borrow_global. rewrite Hm. simpl. rewrite Hfind. simpl.
      unfold vector_borrow. rewrite Hd. simpl. now rewrite Hown.
    + intros Hpos. unfold update_dataset_price, borrow_global.
      destruct (Z.ltb_spec 0 new_price); [simpl | lia].
      rewrite Hm. simpl. rewrite Hfind. simpl.
      unfold vector_borrow. rewrite Hd. simpl. now rewrite Hown.
    + intros balance Hact Hnew Hbal Hlt.
      unfold purchase_dataset, borrow_global. rewrite Hm. simpl. rewrite Hfind. simpl.
      unfold vector_borrow. rewrite Hd. simpl. rewrite Hact. simpl.
      rewrite Hown. simpl. rewrite Hnew. simpl. rewrite Hbal. simpl.
      destruct (Z.leb_spec (Dataset.price d) balance); [lia | reflexivity].
Qed.

End WithCoin.

(** *** The scenario of the test module *)

Import Scenario.

Lemma total_purchases_counts_records_witness :
  Dataset.total_purchases (set_total_purchases the_dataset 1) =
    Z.of_nat (length (filter (fun p => Purchase.dataset_id p = 1) [the_purchase])).
Proof.
  refine (total_purchases_counts_records datadex sold sold_marketplace 0%nat
            (set_total_purchases the_dataset 1)
            MarketplaceProperties.sold_reachable _ _).
  - vm_compute. reflexivity.
  - reflexivity.
Defined.

Lemma uploaded_counter_matches_listings_witness :
  (forall d, d ∈ [set_total_purchases the_dataset 1] -> Dataset.owner d = seller) /\
  match get_user_stats seller sold with
  | Some st => UserStats.datasets_uploaded st = 1
  | None => [set_total_purchases the_dataset 1] = []
  end.
Proof.
  refine (uploaded_counter_matches_listings datadex sold seller
            [set_total_purchases the_dataset 1] MarketplaceProperties.sold_reachable _).
  vm_compute. reflexivity.
Defined.

Lemma purchased_counters_match_records_witness :
  (forall p, p ∈ [the_purchase] -> Purchase.buyer p = buyer) /\
  match get_user_stats buyer sold with
  | Some st => UserStats.datasets_purchased st = 1
               /\ UserStats.total_spent st = total_price [the_purchase]
  | None => [the_purchase] = []
  end.
Proof.
  refine (purchased_counters_match_records datadex sold buyer [the_purchase]
            MarketplaceProperties.sold_reachable _).
  vm_compute. reflexivity.
Defined.

Lemma earned_bounded_by_sales_witness :
  0 <= 47500000 <= total_price (filter (fun p => Purchase.seller p = seller) [the_purchase]).
Proof.
  refine (earned_bounded_by_sales datadex sold sold_marketplace seller
            (UserStats.mk 1 0 47500000 0) MarketplaceProperties.sold_reachable _ _).
  - vm_compute. reflexivity.
  - vm_compute. reflexivity.
Defined.

Lemma prices_stay_positive_witness :
  (forall d, d ∈ DataMarketplace.datasets sold_marketplace ->
     0 < Dataset.price d <= MAX_U64) /\
  (forall p, p ∈ DataMarketplace.purchases sold_marketplace -> 0 < Purchase.price p).
Proof.
  refine (prices_stay_positive datadex sold sold_marketplace
            MarketplaceProperties.sold_reachable _).
  vm_compute. reflexivity.
Defined.

Lemma get_dataset_by_id_positional_witness :
  get_dataset_by_id datadex 1 sold = Ok (Some (set_total_purchases the_dataset 1)) /\
  get_dataset_by_id datadex 2 sold = Ok None /\
  get_dataset_count datadex sold = Ok 1.
Proof.
  pose proof (get_dataset_by_id_positional datadex sold sold_marketplace) as Hpos.
  assert (Hm : marketplace_at sold !! datadex = Some sold_marketplace)
    by (vm_compute; reflexivity).
  split; [|split].
  - exact (proj1 (Hpos 1 MarketplaceProperties.sold_reachable Hm)).
  - exact (proj1 (Hpos 2 MarketplaceProperties.sold_reachable Hm)).
  - exact (proj2 (Hpos 1 MarketplaceProperties.sold_reachable Hm)).
Defined.

Lemma upload_then_lookup_witness :
  get_dataset_count datadex opened = Ok 0 /\
  get_dataset_count datadex listed = Ok 1 /\
  get_dataset_by_id datadex 1 listed = Ok (Some the_dataset).
Proof.
  destruct (upload_then_lookup datadex seller
              "QmXhJKgKJhGJhGJhGJhGJhGJhGJhGJhGJhGJhGJhGJh" "Sales Data Q1 2024"
              "Quarterly sales data for retail business" "Business Analytics"
              50000000 now opened listed MarketplaceProperties.opened_reachable)
    as (n & Hbefore & Hafter & Hnew & _).
  - vm_compute. reflexivity.
  - assert (n = 1) as ->.
    { vm_compute in Hafter. now injection Hafter as <-. }
    auto.
Defined.

Lemma only_the_owner_edits_witness :
  exists m' d',
    marketplace_at repriced !! datadex = Some m' /\
    DataMarketplace.datasets m' !! 0%nat = Some d' /\
    Dataset.owner d' = seller /\ Dataset.price d' = 60000000.
Proof.
  destruct (only_the_owner_edits datadex tx_reprice now sold repriced sold_marketplace
              0%nat (set_total_purchases the_dataset 1))
    as (m' & d' & Hm' & Hd' & _ & Hown & _).
  - vm_compute. reflexivity.
  - vm_compute. reflexivity.
  - reflexivity.
  - exists m', d'. split; [assumption|]. split; [assumption|]. split; [exact Hown|].
    vm_compute in Hm'. injection Hm' as <-.
    vm_compute in Hd'. now injection Hd' as <-.
Defined.

Lemma repriced_after_later : later datadex delisted repriced_after.
Proof.
  apply later_tx with (s1 := delisted) (tx := tx_reprice) (now := now);
    [constructor | vm_compute; reflexivity].
Qed.

Lemma deactivation_is_permanent_witness :
  purchase_dataset datadex buyer 1 now repriced_after = Err (Abort E_DATASET_NOT_FOUND) /\
  purchase_dataset datadex seller 1 now repriced_after = Err (Abort E_DATASET_NOT_FOUND).
Proof.
  destruct (deactivation_is_permanent datadex delisted repriced_after
              (set_datasets sold_marketplace
                 [set_is_active (set_total_purchases the_dataset 1) false])
              0%nat (set_is_active (set_total_purchases the_dataset 1) false)
              MarketplaceProperties.delisted_reachable repriced_after_later)
    as (m' & d' & _ & _ & _ & _ & Hrefused).
  - vm_compute. reflexivity.
  - reflexivity.
  - reflexivity.
  - split; apply Hrefused.
Defined.

Lemma owner_can_reprice_witness :
  exists s' d',
    update_dataset_price datadex seller 1 60000000 sold = Ok s' /\
    get_dataset_by_id datadex 1 s' = Ok (Some d') /\
    Dataset.price d' = 60000000 /\
    Dataset.owner d' = seller /\ Dataset.total_purchases d' = 1 /\
    Dataset.is_active d' = true.
Proof.
  destruct (owner_can_reprice datadex sold sold_marketplace 0%nat
              (set_total_purchases the_dataset 1) 60000000
              MarketplaceProperties.sold_reachable)
    as (s' & Hrun & _ & _ & Hlookup & (d' & Hd' & Hprice) & _).
  - vm_compute. reflexivity.
  - reflexivity.
  - lia.
  - exists s', d'. split; [exact Hrun|]. split; [exact Hd'|]. split; [exact Hprice|].
    pose proof (Hlookup 1) as Hone. simpl in Hone.
    change (get_dataset_by_id datadex 1 s' = Ok (Some d')) in Hd'.
    rewrite Hd' in Hone. injection Hone as ->. repeat split.
Defined.

Lemma owner_can_deactivate_witness :
  exists s',
    deactivate_dataset datadex seller 1 sold = Ok s' /\
    deactivate_dataset datadex seller 1 s' = Ok s' /\
    get_active_datasets datadex s' = Ok [].
Proof.
  destruct (owner_can_deactivate datadex sold sold_marketplace 0%nat
              (set_total_purchases the_dataset 1) MarketplaceProperties.sold_reachable)
    as (s' & Hrun & Hagain & _ & _ & _ & _ & _).
  - vm_compute. reflexivity.
  - reflexivity.
  - exists s'. split; [exact Hrun|]. split; [exact Hagain|].
    vm_compute in Hrun. injection Hrun as <-. vm_compute. reflexivity.
Defined.

Lemma purchase_history_append_only_witness :
  has_user_purchased_dataset datadex buyer 1 listed = Ok false /\
  has_user_purchased_dataset datadex buyer 1 sold = Ok true /\
  has_user_purchased_dataset datadex buyer 1 repriced_after = Ok true.
Proof.
  destruct (purchase_history_append_only (Coin := gmap address Z) datadex)
    as (Hlater & Hbuy).
  destruct (Hbuy buyer 1 now listed sold ltac:(vm_compute; reflexivity)) as [Hno Hyes].
  split; [exact Hno|]. split; [exact Hyes|].
  destruct (Hlater sold repriced_after sold_marketplace) as (m' & _ & _ & Hstays).
  - apply later_tx with (s1 := delisted) (tx := tx_reprice) (now := now);
      [|vm_compute; reflexivity].
    apply later_tx with (s1 := sold) (tx := tx_deactivate) (now := now);
      [constructor | vm_compute; reflexivity].
  - vm_compute. reflexivity.
  - apply Hstays. exact Hyes.
Defined.

Lemma counters_never_decrease_witness :
  exists st',
    stats_at sold !! seller = Some st' /\
    1 <= UserStats.datasets_uploaded st' /\ 0 <= UserStats.total_earned st'.
Proof.
  destruct (counters_never_decrease datadex tx_purchase now listed sold seller
              (UserStats.mk 1 0 0 0) MarketplaceProperties.listed_reachable)
    as (st' & Hst' & Hup & _ & Hearned & _).
  - vm_compute. reflexivity.
  - vm_compute. reflexivity.
  - exists st'. auto.
Defined.

Lemma abort_codes_complete_witness :
  E_DATASET_NOT_FOUND ∈ abort_codes tx_purchase /\ E_DATASET_NOT_FOUND <> E_NOT_INITIALIZED.
Proof.
  refine (proj1 (abort_codes_complete (Coin := gmap address Z) datadex)
            tx_purchase now delisted E_DATASET_NOT_FOUND _).
  vm_compute. reflexivity.
Defined.

Lemma foreign_marketplaces_stay_empty_witness :
  exists s',
    initialize seller 7 seller opened = Ok s' /\
    marketplace_at s' !! datadex = marketplace_at opened !! datadex /\
    marketplace_at s' !! seller = Some (fresh_marketplace 7 seller).
Proof.
  eexists. split; [vm_compute; reflexivity|].
  destruct (proj2 (foreign_marketplaces_stay_empty (Coin := gmap address Z) datadex)
              seller 7 seller opened _ ltac:(vm_compute; reflexivity)
              ltac:(discriminate)) as (Hsame & Hnew & _).
  split; [exact Hsame | exact Hnew].
Defined.

Lemma platform_stats_consistent_witness :
  1 = DataMarketplace.next_dataset_id
        (set_datasets sold_marketplace
           [set_is_active (set_total_purchases the_dataset 1) false]) - 1 /\
  0 <= 0 <= 1.
Proof.
  destruct (platform_stats_consistent datadex delisted
              (set_datasets sold_marketplace
                 [set_is_active (set_total_purchases the_dataset 1) false])
              1 1 0 MarketplaceProperties.delisted_reachable)
    as (Htotal & _ & _ & Hactive).
  - vm_compute. reflexivity.
  - vm_compute. reflexivity.
  - split; [exact Htotal | exact Hactive].
Defined.

Lemma unknown_dataset_refused_witness :
  purchase_dataset datadex buyer 7 now listed = Err (Abort E_DATASET_NOT_FOUND) /\
  deactivate_dataset datadex buyer 7 listed = Err (Abort E_DATASET_NOT_FOUND) /\
  update_dataset_price datadex buyer 7 60000000 listed = Err (Abort E_DATASET_NOT_FOUND) /\
  deactivate_dataset datadex buyer 1 listed = Err (Abort E_UNAUTHORIZED).
Proof.
  destruct (unknown_dataset_refused datadex buyer 7 60000000 now listed
              (DataMarketplace.mk [the_dataset] [] 2 5 datadex
                 [DatasetUploadedEvent.mk 1 seller (Dataset.ipfs_hash the_dataset)
                    (Dataset.title the_dataset) 50000000 now] [] [])
              MarketplaceProperties.listed_reachable)
    as [Hunknown Hother].
  - vm_compute. reflexivity.
  - destruct Hunknown as (Hbuy & Hoff & Hprice); [simpl; lia|].
    split; [exact Hbuy|]. split; [exact Hoff|]. split; [apply Hprice; lia|].
    destruct (Hother 0%nat the_dataset) as (Hdenied & _);
      [reflexivity | discriminate | exact Hdenied].
Defined.

End MarketplaceExtras.

(** ** Reward system: the rest of the module *)

Module RewardSystemExtras.

Import RewardSystem.

(** *** The loops *)

Lemma active_milestones_spec (ms : list Milestone.t) (m : Milestone.t) :
  m ∈ active_milestones ms <-> m ∈ ms /\ Milestone.is_active m = true.
Proof.
  induction ms as [|m0 ms IH]; simpl.
  - rewrite elem_of_nil. tauto.
  - destruct (Milestone.is_active m0) eqn:Hact.
    + rewrite !elem_of_cons, IH. intuition (subst; auto).
    + rewrite elem_of_cons, IH. intuition (subst; auto; congruence).
Qed.

Lemma active_milestones_app (l1 l2 : list Milestone.t) :
  active_milestones (l1 ++ l2) = active_milestones l1 ++ active_milestones l2.
Proof.
  induction l1 as [|m l1 IH]; simpl; [reflexivity|].
  destruct (Milestone.is_active m); simpl; now rewrite IH.
Qed.

Lemma bonus_rewards_of_spec (bs : list BonusReward.t) (a : address) (b : BonusReward.t) :
  b ∈ bonus_rewards_of bs a <-> b ∈ bs /\ BonusReward.recipient b = a.
Proof.
  induction bs as [|b0 bs IH]; simpl.
  - rewrite elem_of_nil. tauto.
  - destruct (N.eqb_spec (BonusReward.recipient b0) a) as [Heq|Hne].
    + rewrite !elem_of_cons, IH. intuition (subst; auto).
    + rewrite elem_of_cons, IH. intuition (subst; auto; congruence).
Qed.

Lemma total_bonus_app (l1 l2 : list BonusReward.t) :
  total_bonus (l1 ++ l2) = total_bonus l1 + total_bonus l2.
Proof. induction l1 as [|b l1 IH]; simpl; lia. Qed.

Lemma total_achieved_app (l1 l2 : list MilestoneAchievedEvent.t) :
  total_achieved (l1 ++ l2) = total_achieved l1 + total_achieved l2.
Proof. induction l1 as [|e l1 IH]; simpl; lia. Qed.

Lemma total_replenished_app (l1 l2 : list RewardPoolReplenishedEvent.t) :
  total_replenished (l1 ++ l2) = total_replenished l1 + total_replenished l2.
Proof. induction l1 as [|e l1 IH]; simpl; lia. Qed.

Lemma total_achieved_awards (u : address) (t : Z) (awarded : list Milestone.t) :
  total_achieved (achieved_event u t <$> awarded) = total_reward awarded.
Proof.
  induction awarded as [|m awarded IH]; [reflexivity|].
  rewrite fmap_cons. simpl. rewrite IH. reflexivity.
Qed.

Lemma total_bonus_of_le (bs : list BonusReward.t) (a : address) :
  Forall (fun b => 0 < BonusReward.amount b) bs ->
  0 <= total_bonus (bonus_rewards_of bs a) <= total_bonus bs.
Proof.
  induction 1 as [|b bs Hb _ IH]; simpl; [lia|].
  destruct (BonusReward.recipient b =? a)%N; simpl; lia.
Qed.

(** *** Milestones numbered by their position *)

Lemma find_milestone_found (ms : list Milestone.t) (k i : nat) (m : Milestone.t) :
  (forall j m', ms !! j = Some m' -> Milestone.id m' = Z.of_nat (k + j) + 1) ->
  ms !! i = Some m ->
  find_milestone ms (Z.of_nat (k + i) + 1) = (true, Milestone.reward_amount m).
Proof.
  revert k i. induction ms as [|m0 ms IH]; intros k i Hids Hm; [discriminate|].
  simpl. destruct i as [|i]; simpl in Hm.
  - injection Hm as ->. rewrite (Hids 0%nat m eq_refl), Z.eqb_refl. reflexivity.
  - rewrite (Hids 0%nat m0 eq_refl).
    destruct (Z.eqb_spec (Z.of_nat (k + 0) + 1) (Z.of_nat (k + S i) + 1)) as [Heq|_]; [lia|].
    replace (k + S i)%nat with (S k + i)%nat by lia.
    apply IH; [|assumption].
    intros j m' Hm'. rewrite (Hids (S j) m' Hm'). f_equal. lia.
Qed.

Lemma find_milestone_missing (ms : list Milestone.t) (x : Z) :
  (forall m, m ∈ ms -> Milestone.id m <> x) -> find_milestone ms x = (false, 0).
Proof.
  induction ms as [|m0 ms IH]; intros Hne; simpl; [reflexivity|].
  destruct (Z.eqb_spec (Milestone.id m0) x) as [Heq|_].
  - exfalso. apply (Hne m0); [left | assumption].
  - apply IH. intros m Hm. apply Hne. now right.
Qed.

Lemma deactivate_first_found (ms : list Milestone.t) (k i : nat) (m : Milestone.t) :
  (forall j m', ms !! j = Some m' -> Milestone.id m' = Z.of_nat (k + j) + 1) ->
  ms !! i = Some m ->
  deactivate_first ms (Z.of_nat (k + i) + 1) = <[i := set_inactive m]> ms.
Proof.
  revert k i. induction ms as [|m0 ms IH]; intros k i Hids Hm; [discriminate|].
  simpl. destruct i as [|i]; simpl in Hm.
  - injection Hm as ->. pose proof (Hids 0%nat m eq_refl) as Hid.
    destruct (Z.eqb_spec (Milestone.id m) (Z.of_nat (k + 0) + 1)); [reflexivity | contradiction].
  - pose proof (Hids 0%nat m0 eq_refl) as Hid.
    destruct (Z.eqb_spec (Milestone.id m0) (Z.of_nat (k + S i) + 1)) as [Heq|_]; [lia|].
    replace (k + S i)%nat with (S k + i)%nat by lia.
    change (<[S i := set_inactive m]> (m0 :: ms)) with (m0 :: <[i := set_inactive m]> ms).
    f_equal. apply IH; [|assumption].
    intros j m' Hm'. rewrite (Hids (S j) m' Hm'). f_equal. lia.
Qed.

Lemma deactivate_first_missing (ms : list Milestone.t) (x : Z) :
  (forall m, m ∈ ms -> Milestone.id m <> x) -> deactivate_first ms x = ms.
Proof.
  induction ms as [|m0 ms IH]; intros Hne; simpl; [reflexivity|].
  destruct (Z.eqb_spec (Milestone.id m0) x) as [Heq|_].
  - exfalso. apply (Hne m0); [left | assumption].
  - f_equal. apply IH. intros m Hm. apply Hne. now right.
Qed.

Lemma deactivate_first_length (ms : list Milestone.t) (x : Z) :
  length (deactivate_first ms x) = length ms.
Proof.
  induction ms as [|m0 ms IH]; simpl; [reflexivity|].
  destruct (Milestone.id m0 =? x); simpl; congruence.
Qed.

Lemma deactivate_first_lookup (ms : list Milestone.t) (x : Z) (i : nat) (m : Milestone.t) :
  ms !! i = Some m ->
  exists m', deactivate_first ms x !! i = Some m' /\ (m' = m \/ m' = set_inactive m).
Proof.
  revert i. induction ms as [|m0 ms IH]; intros i Hm; [discriminate|]. simpl.
  destruct (Milestone.id m0 =? x).
  - destruct i as [|i]; simpl in *.
    + injection Hm as ->. eexists. split; [reflexivity|]. now right.
    + exists m. auto.
  - destruct i as [|i]; simpl in *.
    + exists m0. split; [reflexivity|]. left. congruence.
    + now apply IH.
Qed.

Lemma deactivate_first_lookup_inv (ms : list Milestone.t) (x : Z) (i : nat)
  (m' : Milestone.t) :
  deactivate_first ms x !! i = Some m' ->
  exists m, ms !! i = Some m /\ (m' = m \/ m' = set_inactive m).
Proof.
  intros Hm'.
  destruct (ms !! i) as [m|] eqn:Hm.
  - destruct (deactivate_first_lookup ms x i m Hm) as (m2 & Hm2 & Hor).
    exists m. split; [reflexivity|]. congruence.
  - apply lookup_ge_None in Hm. apply lookup_lt_Some in Hm'.
    rewrite deactivate_first_length in Hm'. lia.
Qed.

Lemma find_milestone_deactivate_first (ms : list Milestone.t) (y x : Z) :
  find_milestone (deactivate_first ms y) x = find_milestone ms x.
Proof.
  induction ms as [|m0 ms IH]; simpl; [reflexivity|].
  destruct (Milestone.id m0 =? y); simpl.
  - reflexivity.
  - now rewrite IH.
Qed.

Lemma milestone_kept_refl (m : Milestone.t) : milestone_kept m m.
Proof. unfold milestone_kept. auto 10. Qed.

Lemma milestone_kept_inactive (m : Milestone.t) : milestone_kept m (set_inactive m).
Proof. unfold milestone_kept. simpl. repeat split; auto. discriminate. Qed.

Lemma milestone_kept_trans (m1 m2 m3 : Milestone.t) :
  milestone_kept m1 m2 -> milestone_kept m2 m3 -> milestone_kept m1 m3.
Proof. unfold milestone_kept. intuition congruence. Qed.

Lemma pool_step_refl (p : RewardPool.t) : pool_step p p.
Proof.
  constructor; try reflexivity.
  intros i m Hm. exists m. split; [assumption | apply milestone_kept_refl].
Qed.

Lemma pool_step_trans (p1 p2 p3 : RewardPool.t) :
  pool_step p1 p2 -> pool_step p2 p3 -> pool_step p1 p3.
Proof.
  intros [Hf1 Ha1 Hm1 Hb1 He1 Hr1] [Hf2 Ha2 Hm2 Hb2 He2 Hr2]. constructor.
  - congruence.
  - congruence.
  - intros i m Hm. destruct (Hm1 i m Hm) as (m2 & Hm2' & Hk1).
    destruct (Hm2 i m2 Hm2') as (m3 & Hm3 & Hk2).
    exists m3. split; [assumption|]. eapply milestone_kept_trans; eassumption.
  - etransitivity; eassumption.
  - etransitivity; eassumption.
  - etransitivity; eassumption.
Qed.

Section WithCoin.

Context {Coin : Type} `{CoinLedger Coin}.
Variable DataDex : address.

(** *** What a transaction does to the pool of the package address *)

Lemma add_milestone_step (admin : address) (name description : string)
  (requirement reward_amount : Z) (s s' : State Coin) (p : RewardPool.t) :
  add_milestone DataDex admin name description requirement reward_amount s = Ok s' ->
  pool_at s !! DataDex = Some p ->
  exists p', pool_at s' !! DataDex = Some p' /\ pool_step p p'.
Proof.
  intros Hrun Hp.
  apply RewardSystemProperties.add_milestone_Ok in Hrun as (p0 & Hp0 & _ & _ & ->).
  rewrite Hp in Hp0. injection Hp0 as <-.
  eexists. simpl. rewrite lookup_insert_eq. split; [reflexivity|].
  constructor; simpl; try reflexivity.
  intros i m Hm. exists m. split; [|apply milestone_kept_refl].
  now apply lookup_app_l_Some.
Qed.

Lemma run_pool_step (tx : Tx) (now : Z) (s s' : State Coin) (p : RewardPool.t) :
  run DataDex tx now s = Ok s' -> pool_at s !! DataDex = Some p ->
  exists p', pool_at s' !! DataDex = Some p' /\ pool_step p p'.
Proof.
  intros Hrun Hp. destruct tx; simpl in Hrun.
  - unfold initialize_reward_system in Hrun.
    take_assert Hrun. apply negb_true_iff, exists_at_false in Hassert.
    assert (Hne : admin <> DataDex) by congruence.
    apply bind_Ok in Hrun as (c & _ & Hrun).
    apply bind_Ok in Hrun as (pools & Hpools & Hrun).
    apply move_to_Ok in Hpools as [_ ->].
    unfold create_default_milestones in Hrun.
    apply bind_Ok in Hrun as (s1 & H1 & Hrun).
    eapply add_milestone_step in H1 as (p1 & Hp1 & Hstep1);
      [|simpl; rewrite lookup_insert_ne by assumption; exact Hp].
    apply bind_Ok in Hrun as (s2 & H2 & Hrun).
    eapply add_milestone_step in H2 as (p2 & Hp2 & Hstep2); [|exact Hp1].
    apply bind_Ok in Hrun as (s3 & H3 & Hrun).
    eapply add_milestone_step in H3 as (p3 & Hp3 & Hstep3); [|exact Hp2].
    eapply add_milestone_step in Hrun as (p4 & Hp4 & Hstep4); [|exact Hp3].
    exists p4. split; [assumption|].
    eauto using pool_step_trans.
  - eapply add_milestone_step; eassumption.
  - apply RewardSystemProperties.pay_bonus_reward_Ok in Hrun as (p0 & c & Hp0 & _ & _ & ->).
    rewrite Hp in Hp0. injection Hp0 as <-.
    eexists. simpl. rewrite lookup_insert_eq. split; [reflexivity|].
    constructor; simpl; try reflexivity.
    + unfold net_funding. simpl. lia.
    + intros i m Hm. exists m. split; [assumption | apply milestone_kept_refl].
    + now apply prefix_app_r.
  - apply RewardSystemProperties.transfer_milestone_reward_Ok in Hrun
      as (p0 & reward & c & Hp0 & _ & _ & _ & _ & _ & ->).
    rewrite Hp in Hp0. injection Hp0 as <-.
    eexists. simpl. rewrite lookup_insert_eq. split; [reflexivity|].
    constructor; simpl; try reflexivity.
    + unfold net_funding. simpl. lia.
    + intros i m Hm. exists m. split; [assumption | apply milestone_kept_refl].
  - apply RewardSystemProperties.initialize_user_achievements_Ok in Hrun as [_ ->].
    exists p. split; [assumption | apply pool_step_refl].
  - apply RewardSystemProperties.check_milestones_Ok in Hrun
      as (p0 & awarded & Hp0 & _ & _ & _ & _ & ->).
    rewrite Hp in Hp0. injection Hp0 as <-.
    eexists. simpl. rewrite lookup_insert_eq. split; [reflexivity|].
    constructor; simpl; try reflexivity.
    + unfold net_funding. simpl. lia.
    + intros i m Hm. exists m. split; [assumption | apply milestone_kept_refl].
    + now apply prefix_app_r.
  - apply RewardSystemProperties.replenish_pool_Ok in Hrun as (p0 & c & Hp0 & _ & _ & _ & ->).
    rewrite Hp in Hp0. injection Hp0 as <-.
    eexists. simpl. rewrite lookup_insert_eq. split; [reflexivity|].
    constructor; simpl; try reflexivity.
    + unfold net_funding. simpl. rewrite total_replenished_app. simpl. lia.
    + intros i m Hm. exists m. split; [assumption | apply milestone_kept_refl].
    + now apply prefix_app_r.
  - apply RewardSystemProperties.deactivate_milestone_Ok in Hrun as (p0 & Hp0 & _ & ->).
    rewrite Hp in Hp0. injection Hp0 as <-.
    eexists. simpl. rewrite lookup_insert_eq. split; [reflexivity|].
    constructor; simpl; try reflexivity.
    intros i m Hm.
    destruct (deactivate_first_lookup (RewardPool.milestones p) milestone_id i m Hm)
      as (m' & Hm' & [-> | ->]).
    + exists m. split; [assumption | apply milestone_kept_refl].
    + eexists. split; [eassumption | apply milestone_kept_inactive].
Qed.

Lemma later_pool_step (s s' : State Coin) (p : RewardPool.t) :
  later DataDex s s' -> pool_at s !! DataDex = Some p ->
  exists p', pool_at s' !! DataDex = Some p' /\ pool_step p p'.
Proof.
  intros Hlater Hp. induction Hlater as [| s1 tx now s2 _ IH Hrun | s1 c _ IH].
  - exists p. split; [assumption | apply pool_step_refl].
  - destruct IH as (p1 & Hp1 & Hstep1).
    destruct (run_pool_step _ _ _ _ _ Hrun Hp1) as (p2 & Hp2 & Hstep2).
    exists p2. split; [assumption|]. eapply pool_step_trans; eassumption.
  - exact IH.
Qed.

(** *** The books of the pool of a reachable state *)

Lemma initial_pool_books (initial_balance : Z) :
  pool_books (initial_pool DataDex initial_balance).
Proof.
  constructor; simpl; try reflexivity.
  - intros i m Hm.
    do 4 (destruct i as [|i]; [injection Hm as <-; reflexivity|]). discriminate.
  - constructor.
Qed.

Lemma run_pool_books (tx : Tx) (now : Z) (s s' : State Coin) :
  state_inv DataDex s ->
  (forall p, pool_at s !! DataDex = Some p -> pool_books p) ->
  run DataDex tx now s = Ok s' ->
  forall p', pool_at s' !! DataDex = Some p' -> pool_books p'.
Proof.
  intros [Hpools _ _] Hbooks Hrun p' Hp'. destruct tx; simpl in Hrun.
  - apply RewardSystemProperties.initialize_reward_system_Ok in Hrun as (_ & _ & c & ->).
    + simpl in Hp'. rewrite lookup_insert_eq in Hp'. injection Hp' as <-.
      apply initial_pool_books.
    + intros p Hp. now apply Hpools in Hp as (_ & Hadm & _).
  - apply RewardSystemProperties.add_milestone_Ok in Hrun as (p & Hp & _ & _ & ->).
    simpl in Hp'. rewrite lookup_insert_eq in Hp'. injection Hp' as <-.
    destruct (Hbooks p Hp) as [Hids Hnext Hev Hpos Hpaid].
    constructor; simpl; try assumption.
    + intros i m Hm. apply lookup_app_Some in Hm as [Hm | [Hlen Hm]]; [now apply Hids|].
      apply list_lookup_singleton_Some in Hm as [Hi <-]. simpl. lia.
    + rewrite length_app. simpl. lia.
  - apply RewardSystemProperties.pay_bonus_reward_Ok in Hrun
      as (p & c & Hp & _ & Hamount & ->).
    simpl in Hp'. rewrite lookup_insert_eq in Hp'. injection Hp' as <-.
    destruct (Hbooks p Hp) as [Hids Hnext Hev Hpos Hpaid].
    constructor; simpl; try assumption.
    + rewrite fmap_app, Hev. reflexivity.
    + apply Forall_app. split; [assumption|]. constructor; [simpl; lia | constructor].
    + rewrite total_bonus_app. simpl. lia.
  - apply RewardSystemProperties.transfer_milestone_reward_Ok in Hrun
      as (p & reward & c & Hp & _ & Hfind & _ & _ & _ & ->).
    simpl in Hp'. rewrite lookup_insert_eq in Hp'. injection Hp' as <-.
    destruct (Hbooks p Hp) as [Hids Hnext Hev Hpos Hpaid].
    destruct (Hpools _ _ Hp) as (_ & _ & _ & Hms).
    pose proof (RewardSystemProperties.find_milestone_positive _ _ _ Hms Hfind).
    constructor; simpl; try assumption. lia.
  - apply RewardSystemProperties.initialize_user_achievements_Ok in Hrun as [_ ->].
    now apply Hbooks.
  - apply RewardSystemProperties.check_milestones_Ok in Hrun
      as (p & awarded & Hp & _ & _ & _ & _ & ->).
    simpl in Hp'. rewrite lookup_insert_eq in Hp'. injection Hp' as <-.
    destruct (Hbooks p Hp) as [Hids Hnext Hev Hpos Hpaid].
    constructor; simpl; try assumption.
    rewrite total_achieved_app, total_achieved_awards. lia.
  - apply RewardSystemProperties.replenish_pool_Ok in Hrun as (p & c & Hp & _ & _ & _ & ->).
    simpl in Hp'. rewrite lookup_insert_eq in Hp'. injection Hp' as <-.
    destruct (Hbooks p Hp) as [Hids Hnext Hev Hpos Hpaid].
    constructor; simpl; assumption.
  - apply RewardSystemProperties.deactivate_milestone_Ok in Hrun as (p & Hp & _ & ->).
    simpl in Hp'. rewrite lookup_insert_eq in Hp'. injection Hp' as <-.
    destruct (Hbooks p Hp) as [Hids Hnext Hev Hpos Hpaid].
    constructor; simpl; try assumption.
    + intros i m' Hm'. apply deactivate_first_lookup_inv in Hm' as (m & Hm & [-> | ->]).
      * now apply Hids.
      * simpl. now apply Hids.
    + now rewrite deactivate_first_length.
Qed.

Lemma reachable_pool_books (s : State Coin) (p : RewardPool.t) :
  reachable DataDex s -> pool_at s !! DataDex = Some p -> pool_books p.
Proof.
  intros Hreach. revert p.
  induction Hreach as [c | s tx now s' Hreach IH Hwf _ Hrun | s c _ IH]; intros p Hp.
  - unfold genesis in Hp. simpl in Hp. rewrite lookup_empty in Hp. discriminate.
  - eapply run_pool_books; try eassumption.
    now apply RewardSystemProperties.reachable_state_inv.
  - now apply IH.
Qed.

(** X18: the pool's books balance.  At any time after
    [initialize_reward_system] has gone through in a reachable state, the
    balance and the total of the rewards paid add up to the initial balance
    and the amounts of the replenishments: what has left the balance is
    counted as paid, whether as bonus, transfer or award. *)
Theorem pool_funding_conserved (admin : address) (initial_balance : Z)
  (s0 s s' : State Coin) :
  reachable DataDex s0 ->
  initialize_reward_system DataDex admin initial_balance s0 = Ok s ->
  later DataDex s s' ->
  exists balance paid p',
    get_reward_pool_balance DataDex s' = Ok balance /\
    get_total_rewards_paid DataDex s' = Ok paid /\
    pool_at s' !! DataDex = Some p' /\
    balance + paid =
      initial_balance + total_replenished (RewardPool.pool_replenished_events p').
Proof.
  intros Hreach Hinit Hlater.
  apply RewardSystemProperties.reachable_state_inv in Hreach as [Hpools _ _].
  apply RewardSystemProperties.initialize_reward_system_Ok in Hinit as (_ & _ & c & ->).
  - destruct (later_pool_step _ _ (initial_pool DataDex initial_balance) Hlater)
      as (p' & Hp' & [Hnet _ _ _ _ _]).
    { simpl. apply lookup_insert_eq. }
    exists (RewardPool.balance p'), (RewardPool.total_rewards_paid p'), p'.
    unfold get_reward_pool_balance, get_total_rewards_paid, borrow_global.
    rewrite Hp'. simpl. repeat split.
    unfold net_funding in Hnet. simpl in Hnet. lia.
  - intros p Hp. now apply Hpools in Hp as (_ & Hadm & _).
Qed.

(** X19: the reward system is initialised once, by the package address.
    In a reachable state pools are held by the package address only and
    administered by it; an [initialize_reward_system] that goes through is
    the package address's, on a state without a pool; and once there is a
    pool every call aborts, the package address's with
    [E_ALREADY_INITIALIZED]. *)
Theorem initialize_reward_system_once (admin : address) (initial_balance : Z)
  (s : State Coin) :
  reachable DataDex s ->
  (forall a p, pool_at s !! a = Some p -> a = DataDex /\ RewardPool.admin p = DataDex) /\
  (forall s', initialize_reward_system DataDex admin initial_balance s = Ok s' ->
     admin = DataDex /\ pool_at s !! DataDex = None /\
     pool_at s' !! DataDex = Some (initial_pool DataDex initial_balance)) /\
  (forall p, pool_at s !! DataDex = Some p ->
     (exists e, initialize_reward_system DataDex admin initial_balance s = Err e) /\
     initialize_reward_system DataDex DataDex initial_balance s
       = Err (Abort E_ALREADY_INITIALIZED)).
Proof.
  intros Hreach.
  apply RewardSystemProperties.reachable_state_inv in Hreach as [Hpools _ _].
  assert (Hadmin : forall p, pool_at s !! DataDex = Some p -> RewardPool.admin p = DataDex).
  { intros p Hp. now apply Hpools in Hp as (_ & Hadm & _). }
  split; [|split].
  - intros a p Hp. destruct (Hpools a p Hp) as (-> & Hadm & _). auto.
  - intros s' Hrun.
    apply RewardSystemProperties.initialize_reward_system_Ok in Hrun
      as (-> & Hnone & c & ->); [|assumption].
    simpl. rewrite lookup_insert_eq. auto.
  - intros p Hp. split.
    + destruct (initialize_reward_system DataDex admin initial_balance s) as [s'|e] eqn:Hrun;
        [|now exists e].
      apply RewardSystemProperties.initialize_reward_system_Ok in Hrun
        as (_ & Hnone & _); [congruence | assumption].
    + unfold initialize_reward_system, exists_at. rewrite Hp. reflexivity.
Qed.

Lemma find_milestone_by_id (p : RewardPool.t) (x : Z) :
  pool_books p ->
  (~ (1 <= x <= Z.of_nat (length (RewardPool.milestones p))) ->
     find_milestone (RewardPool.milestones p) x = (false, 0)
     /\ deactivate_first (RewardPool.milestones p) x = RewardPool.milestones p) /\
  (1 <= x <= Z.of_nat (length (RewardPool.milestones p)) ->
     exists m,
       RewardPool.milestones p !! Z.to_nat (x - 1) = Some m /\ Milestone.id m = x /\
       find_milestone (RewardPool.milestones p) x = (true, Milestone.reward_amount m) /\
       deactivate_first (RewardPool.milestones p) x =
         <[Z.to_nat (x - 1) := set_inactive m]> (RewardPool.milestones p)).
Proof.
  intros [Hids _ _ _ _]. split.
  - intros Hout.
    assert (Hne : forall m, m ∈ RewardPool.milestones p -> Milestone.id m <> x).
    { intros m Hm. apply list_elem_of_lookup in Hm as (i & Hm).
      rewrite (Hids i m Hm). apply lookup_lt_Some in Hm. lia. }
    split; [now apply find_milestone_missing | now apply deactivate_first_missing].
  - intros Hin.
    destruct (lookup_lt_is_Some_2 (RewardPool.milestones p) (Z.to_nat (x - 1))) as [m Hm];
      [lia|].
    assert (Hx : x = Z.of_nat (0 + Z.to_nat (x - 1)) + 1) by lia.
    exists m. split; [assumption|]. split; [rewrite (Hids _ _ Hm); lia|]. split.
    + rewrite Hx at 1. now apply find_milestone_found.
    + rewrite Hx at 1. now apply deactivate_first_found.
Qed.

(** X20: milestones are numbered by their position.  In a reachable state
    the milestone at position [i] of the pool has the id [i + 1] and a
    positive reward, and the next id is one more than the number of
    milestones; so an [add_milestone] of the package address with a positive
    reward goes through (short of the last [u64]) and its milestone, active
    and with that next id, comes last among the active ones. *)
Theorem milestone_ids_sequential (s : State Coin) (p : RewardPool.t) :
  reachable DataDex s -> pool_at s !! DataDex = Some p ->
  (forall i m, RewardPool.milestones p !! i = Some m ->
     Milestone.id m = Z.of_nat i + 1 /\ 0 < Milestone.reward_amount m) /\
  RewardPool.next_milestone_id p = Z.of_nat (length (RewardPool.milestones p)) + 1 /\
  (forall name description requirement reward_amount,
     0 < reward_amount -> RewardPool.next_milestone_id p + 1 <= MAX_U64 ->
     exists s',
       add_milestone DataDex DataDex name description requirement reward_amount s = Ok s' /\
       get_active_milestones DataDex s' =
         Ok (active_milestones (RewardPool.milestones p) ++
             [Milestone.mk (Z.of_nat (length (RewardPool.milestones p)) + 1)
                name description requirement reward_amount true]) /\
       achievements_at s' = achievements_at s /\ coins s' = coins s).
Proof.
  intros Hreach Hp.
  pose proof (reachable_pool_books s p Hreach Hp) as [Hids Hnext _ _ _].
  apply RewardSystemProperties.reachable_state_inv in Hreach as [Hpools _ _].
  destruct (Hpools _ _ Hp) as (_ & Hadm & _ & Hms).
  split; [|split].
  - intros i m Hm. split; [now apply Hids|].
    exact (Forall_lookup_1 _ _ _ _ Hms Hm).
  - assumption.
  - intros name description requirement reward_amount Hpos Hroom.
    unfold add_milestone, borrow_global. rewrite Hp. simpl.
    rewrite Hadm, N.eqb_refl. simpl.
    destruct (Z.ltb_spec 0 reward_amount) as [_|]; [simpl | lia].
    unfold add_u64.
    destruct (Z.leb_spec (RewardPool.next_milestone_id p + 1) MAX_U64) as [_|]; [simpl | lia].
    eexists. split; [reflexivity|].
    unfold get_active_milestones, borrow_global. simpl. rewrite lookup_insert_eq. simpl.
    rewrite active_milestones_app, Hnext. simpl. auto.
Qed.

(** X21: [transfer_milestone_reward] goes by the id alone.  In a reachable
    state an id that is not between 1 and the number of milestones makes
    the package address's call abort with [E_INVALID_AMOUNT], and any other
    signer's call aborts with [E_UNAUTHORIZED]; a call that goes through
    has paid the recipient the reward of the milestone at position
    [milestone_id - 1], out of the signer's coins, debited the balance and
    credited the total paid with it, and left the milestones and every
    user's achievements as they were. *)
Theorem transfer_milestone_reward_by_id (admin recipient : address) (milestone_id : Z)
  (s : State Coin) (p : RewardPool.t) :
  reachable DataDex s -> pool_at s !! DataDex = Some p ->
  (~ (1 <= milestone_id <= Z.of_nat (length (RewardPool.milestones p))) ->
     transfer_milestone_reward DataDex DataDex recipient milestone_id s
       = Err (Abort E_INVALID_AMOUNT)) /\
  (admin <> DataDex ->
     transfer_milestone_reward DataDex admin recipient milestone_id s
       = Err (Abort E_UNAUTHORIZED)) /\
  (forall s',
     transfer_milestone_reward DataDex admin recipient milestone_id s = Ok s' ->
     exists m,
       RewardPool.milestones p !! Z.to_nat (milestone_id - 1) = Some m /\
       Milestone.id m = milestone_id /\
       coin_transfer (coins s) admin recipient (Milestone.reward_amount m)
         = Some (coins s') /\
       get_reward_pool_balance DataDex s'
         = Ok (RewardPool.balance p - Milestone.reward_amount m) /\
       get_total_rewards_paid DataDex s'
         = Ok (RewardPool.total_rewards_paid p + Milestone.reward_amount m) /\
       get_active_milestones DataDex s' = get_active_milestones DataDex s /\
       achievements_at s' = achievements_at s /\
       (exists p', pool_at s' !! DataDex = Some p'
                   /\ RewardPool.milestones p' = RewardPool.milestones p)).
Proof.
  intros Hreach Hp.
  pose proof (reachable_pool_books s p Hreach Hp) as Hbooks.
  apply RewardSystemProperties.reachable_state_inv in Hreach as [Hpools _ _].
  destruct (Hpools _ _ Hp) as (_ & Hadm & _ & _).
  destruct (find_milestone_by_id p milestone_id Hbooks) as [Hout Hin].
  split; [|split].
  - intros Hrange. destruct (Hout Hrange) as [Hfind _].
    unfold transfer_milestone_reward, borrow_global. rewrite Hp. simpl.
    rewrite Hadm, N.eqb_refl. simpl. rewrite Hfind. reflexivity.
  - intros Hne.
    unfold transfer_milestone_reward, borrow_global. rewrite Hp. simpl.
    rewrite Hadm. destruct (N.eqb_spec DataDex admin) as [Heq|_]; [congruence | reflexivity].
  - intros s' Hrun.
    apply RewardSystemProperties.transfer_milestone_reward_Ok in Hrun
      as (p0 & reward & c & Hp0 & _ & Hfind & _ & Hc & _ & ->).
    rewrite Hp in Hp0. injection Hp0 as <-.
    destruct (Z_le_dec 1 milestone_id) as [Hlo|Hlo];
      [destruct (Z_le_dec milestone_id (Z.of_nat (length (RewardPool.milestones p))))
         as [Hhi|Hhi]|].
    + destruct (Hin (conj Hlo Hhi)) as (m & Hm & Hid & Hfound & _).
      rewrite Hfound in Hfind. injection Hfind as <-.
      exists m. unfold get_reward_pool_balance, get_total_rewards_paid,
        get_active_milestones, borrow_global. simpl.
      rewrite lookup_insert_eq, Hp. simpl.
      do 7 (split; [first [assumption | reflexivity]|]).
      eexists. split; reflexivity.
    + destruct (Hout ltac:(lia)) as [Hmiss _]. congruence.
    + destruct (Hout ltac:(lia)) as [Hmiss _]. congruence.
Qed.

(** X22: deactivating a milestone does not stop its reward from being
    transferred.  When the administrator's [deactivate_milestone] and
    [transfer_milestone_reward] both go through in a state, whatever the
    two ids, they go through one after the other in either order, and with
    the same state at the end: the transfer after the deactivation pays
    what it pays without it. *)
Theorem transfer_ignores_deactivation (admin recipient : address) (x y : Z)
  (s s1 s2 : State Coin) :
  deactivate_milestone DataDex admin y s = Ok s1 ->
  transfer_milestone_reward DataDex admin recipient x s = Ok s2 ->
  exists s3,
    transfer_milestone_reward DataDex admin recipient x s1 = Ok s3 /\
    deactivate_milestone DataDex admin y s2 = Ok s3 /\
    coins s3 = coins s2 /\
    get_reward_pool_balance DataDex s3 = get_reward_pool_balance DataDex s2.
Proof.
  intros Hoff Hpay.
  apply RewardSystemProperties.deactivate_milestone_Ok in Hoff as (p & Hp & Hadm & ->).
  apply RewardSystemProperties.transfer_milestone_reward_Ok in Hpay
    as (p0 & reward & c & Hp0 & _ & Hfind & Hle & Hc & Hpaid & ->).
  rewrite Hp in Hp0. injection Hp0 as <-.
  apply N.eqb_eq in Hadm.
  eexists. split; [|split; [|split]].
  - unfold transfer_milestone_reward, borrow_global. simpl.
    rewrite lookup_insert_eq. simpl. rewrite Hadm. simpl.
    rewrite find_milestone_deactivate_first, Hfind. simpl.
    destruct (Z.leb_spec reward (RewardPool.balance p)) as [_|]; [simpl | lia].
    rewrite Hc. simpl. rewrite sub_u64_le by assumption. simpl.
    unfold add_u64.
    destruct (Z.leb_spec (RewardPool.total_rewards_paid p + reward) MAX_U64) as [_|];
      [simpl | lia].
    rewrite insert_insert_eq. reflexivity.
  - unfold deactivate_milestone, borrow_global. simpl.
    rewrite lookup_insert_eq. simpl. rewrite Hadm. simpl.
    rewrite insert_insert_eq. reflexivity.
  - reflexivity.
  - unfold get_reward_pool_balance, borrow_global. simpl.
    rewrite !lookup_insert_eq. reflexivity.
Qed.

(** X23: a milestone is never removed nor edited, only switched off, and
    for good.  Whatever happens to a state with a pool, the milestone at a
    position is later still at that position with the same id, name,
    description, requirement and reward, and active only if it was active;
    the pool keeps its administrator, and its bonus history and its two
    other event lists are only appended to. *)
Theorem milestones_only_deactivated (s s' : State Coin) (p : RewardPool.t)
  (i : nat) (m : Milestone.t) :
  later DataDex s s' ->
  pool_at s !! DataDex = Some p ->
  RewardPool.milestones p !! i = Some m ->
  exists p' m',
    pool_at s' !! DataDex = Some p' /\
    RewardPool.milestones p' !! i = Some m' /\
    Milestone.id m' = Milestone.id m /\
    Milestone.name m' = Milestone.name m /\
    Milestone.description m' = Milestone.description m /\
    Milestone.requirement m' = Milestone.requirement m /\
    Milestone.reward_amount m' = Milestone.reward_amount m /\
    (Milestone.is_active m = false -> Milestone.is_active m' = false) /\
    RewardPool.admin p' = RewardPool.admin p /\
    RewardPool.bonus_rewards p `prefix_of` RewardPool.bonus_rewards p' /\
    RewardPool.milestone_events p `prefix_of` RewardPool.milestone_events p' /\
    RewardPool.pool_replenished_events p
      `prefix_of` RewardPool.pool_replenished_events p'.
Proof.
  intros Hlater Hp Hm.
  destruct (later_pool_step s s' p Hlater Hp) as (p' & Hp' & [_ Hadm Hms Hb He Hr]).
  destruct (Hms i m Hm) as (m' & Hm' & Hid & Hname & Hdesc & Hreq & Hrew & Hact).
  exists p', m'. repeat (split; [assumption|]). split; [|auto].
  intros Hoff. destruct (Milestone.is_active m') eqn:Hon; [|reflexivity].
  rewrite Hact in Hoff by reflexivity. discriminate.
Qed.

(** X24: what [deactivate_milestone] does.  In a reachable state the
    package address's call with the id of a milestone goes through: the
    milestone at its position is switched off and nothing else changes,
    neither the other milestones, the balance and the histories, nor any
    user's achieved ids, nor the coins; the active milestones are afterwards
    those that were active, less that one; and a second call changes nothing
    more. *)
Theorem deactivate_milestone_effect (s : State Coin) (p : RewardPool.t)
  (i : nat) (m : Milestone.t) :
  reachable DataDex s ->
  pool_at s !! DataDex = Some p ->
  RewardPool.milestones p !! i = Some m ->
  exists s' l',
    deactivate_milestone DataDex DataDex (Milestone.id m) s = Ok s' /\
    pool_at s' !! DataDex =
      Some (set_milestones p (<[i := set_inactive m]> (RewardPool.milestones p))) /\
    achievements_at s' = achievements_at s /\
    coins s' = coins s /\
    get_active_milestones DataDex s' = Ok l' /\
    (forall m', m' ∈ l' <->
       m' ∈ RewardPool.milestones p /\ Milestone.is_active m' = true
       /\ Milestone.id m' <> Milestone.id m) /\
    deactivate_milestone DataDex DataDex (Milestone.id m) s' = Ok s'.
Proof.
  intros Hreach Hp Hm.
  pose proof (reachable_pool_books s p Hreach Hp) as [Hids _ _ _ _].
  apply RewardSystemProperties.reachable_state_inv in Hreach as [Hpools _ _].
  destruct (Hpools _ _ Hp) as (_ & Hadm & _ & _).
  apply N.eqb_eq in Hadm.
  set (ms1 := <[i := set_inactive m]> (RewardPool.milestones p)).
  assert (Hid : Milestone.id m = Z.of_nat (0 + i) + 1) by (rewrite (Hids i m Hm); lia).
  assert (Hoff : deactivate_first (RewardPool.milestones p) (Milestone.id m) = ms1).
  { rewrite Hid. apply deactivate_first_found; [|assumption].
    intros j m' Hm'. rewrite (Hids j m' Hm'). lia. }
  assert (Hids1 : forall j m', ms1 !! j = Some m' -> Milestone.id m' = Z.of_nat (0 + j) + 1).
  { intros j m' Hm'. unfold ms1 in Hm'.
    apply list_lookup_insert_Some in Hm' as [(<- & <- & _) | [_ Hm']].
    - exact Hid.
    - rewrite (Hids j m' Hm'). lia. }
  assert (Hm1 : ms1 !! i = Some (set_inactive m)).
  { unfold ms1. apply list_lookup_insert_eq. now apply lookup_lt_Some in Hm. }
  assert (Hagain : deactivate_first ms1 (Milestone.id m) = ms1).
  { rewrite Hid. rewrite (deactivate_first_found ms1 0 i (set_inactive m) Hids1 Hm1).
    unfold ms1. now rewrite list_insert_insert_eq. }
  exists (mkState (<[DataDex := set_milestones p ms1]> (pool_at s)) (achievements_at s)
            (coins s)), (active_milestones ms1).
  split; [|split; [|split; [|split; [|split; [|split]]]]].
  - unfold deactivate_milestone, borrow_global. rewrite Hp. simpl.
    rewrite Hadm. simpl. rewrite Hoff. reflexivity.
  - simpl. apply lookup_insert_eq.
  - reflexivity.
  - reflexivity.
  - unfold get_active_milestones, borrow_global. simpl. rewrite lookup_insert_eq.
    reflexivity.
  - intros m'. rewrite active_milestones_spec. split.
    + intros [Hin Hact]. apply list_elem_of_lookup in Hin as (j & Hj). unfold ms1 in Hj.
      apply list_lookup_insert_Some in Hj as [(_ & <- & _) | [Hne Hj]]; [discriminate|].
      split; [now apply list_elem_of_lookup_2 in Hj|]. split; [assumption|].
      rewrite (Hids j m' Hj), (Hids i m Hm). lia.
    + intros (Hin & Hact & Hne). split; [|assumption].
      apply list_elem_of_lookup in Hin as (j & Hj).
      apply list_elem_of_lookup. exists j. unfold ms1.
      rewrite list_lookup_insert_ne; [assumption|].
      intros ->. rewrite Hm in Hj. congruence.
  - unfold deactivate_milestone, borrow_global. simpl. rewrite lookup_insert_eq. simpl.
    rewrite Hadm. simpl. rewrite Hagain, insert_insert_eq. reflexivity.
Qed.

(** X25: an unknown id is passed over in silence.  In a reachable state the
    package address's [deactivate_milestone] with an id that no milestone
    has goes through and leaves the state exactly as it was, where
    [transfer_milestone_reward] aborts; any other signer's call aborts with
    [E_UNAUTHORIZED], whatever the id. *)
Theorem deactivate_unknown_milestone (admin : address) (milestone_id : Z)
  (s : State Coin) (p : RewardPool.t) :
  reachable DataDex s ->
  pool_at s !! DataDex = Some p ->
  (~ (1 <= milestone_id <= Z.of_nat (length (RewardPool.milestones p))) ->
     deactivate_milestone DataDex DataDex milestone_id s = Ok s) /\
  (admin <> DataDex ->
     deactivate_milestone DataDex admin milestone_id s = Err (Abort E_UNAUTHORIZED)).
Proof.
  intros Hreach Hp.
  pose proof (reachable_pool_books s p Hreach Hp) as Hbooks.
  apply RewardSystemProperties.reachable_state_inv in Hreach as [Hpools _ _].
  destruct (Hpools _ _ Hp) as (_ & Hadm & _ & _).
  split.
  - intros Hrange.
    destruct (find_milestone_by_id p milestone_id Hbooks) as [Hout _].
    destruct (Hout Hrange) as [_ Hsame].
    unfold deactivate_milestone, borrow_global. rewrite Hp. simpl.
    rewrite (proj2 (N.eqb_eq _ _) Hadm). simpl. rewrite Hsame.
    destruct p. simpl in *. rewrite insert_id by assumption.
    destruct s. reflexivity.
  - intros Hne.
    unfold deactivate_milestone, borrow_global. rewrite Hp. simpl.
    rewrite Hadm. destruct (N.eqb_spec DataDex admin) as [Heq|_]; [congruence | reflexivity].
Qed.

(** *** The evaluation *)

Lemma qualifies_true (m : Milestone.t) (achieved : list Z) (n balance : Z) :
  qualifies m achieved n balance = true ->
  Milestone.is_active m = true /\ (Milestone.id m ∉ achieved) /\
  Milestone.requirement m <= n /\ Milestone.reward_amount m <= balance.
Proof.
  unfold qualifies. rewrite !andb_true_iff, negb_true_iff, !Z.leb_le.
  intros [[[Hact Hnot] Hreq] Hafford]. repeat split; try assumption.
  intros Hin. apply vector_contains_spec in Hin. congruence.
Qed.

Lemma qualifies_false (m : Milestone.t) (achieved : list Z) (n balance : Z) :
  qualifies m achieved n balance = false ->
  Milestone.is_active m = true -> Milestone.requirement m <= n ->
  Milestone.id m ∈ achieved \/ balance < Milestone.reward_amount m.
Proof.
  unfold qualifies. intros Hq Hact Hreq. rewrite Hact in Hq. simpl in Hq.
  destruct (vector_contains achieved (Milestone.id m)) eqn:Hc; simpl in Hq.
  - left. now apply vector_contains_spec.
  - destruct (Z.leb_spec (Milestone.requirement m) n); [simpl in Hq | lia].
    right. now apply Z.leb_gt.
Qed.

(** An id that the loop has added is that of an active milestone whose
    requirement is met and whose reward the balance covered. *)
Lemma check_loop_new_ids (u : address) (n t : Z) (ms : list Milestone.t)
  (p p' : RewardPool.t) (ua ua' : UserAchievements.t) :
  Forall (fun m => 0 < Milestone.reward_amount m) ms ->
  check_loop u n t ms p ua = Ok (p', ua') ->
  forall x, x ∈ UserAchievements.milestones_achieved ua' ->
    x ∈ UserAchievements.milestones_achieved ua \/
    exists m, m ∈ ms /\ Milestone.id m = x /\ Milestone.is_active m = true /\
              Milestone.requirement m <= n /\
              Milestone.reward_amount m <= RewardPool.balance p.
Proof.
  intros Hpos. revert p ua.
  induction Hpos as [|m ms Hm Hpos IH]; intros p ua Hrun x Hx; simpl in Hrun.
  - injection Hrun as <- <-. now left.
  - destruct (qualifies m (UserAchievements.milestones_achieved ua) n (RewardPool.balance p))
      eqn:Hq.
    + apply bind_Ok in Hrun as ([p1 ua1] & Haward & Hrun).
      apply RewardSystemProperties.award_Ok in Haward as (Hle & Hbal & -> & ->).
      apply qualifies_true in Hq as (Hact & _ & Hreq & Hafford).
      destruct (IH _ _ Hrun x Hx) as [Hold | (m' & Hm' & Hid & Hact' & Hreq' & Hafford')].
      * simpl in Hold. apply elem_of_app in Hold as [Hold | Hnew]; [now left|].
        apply list_elem_of_singleton in Hnew. subst x.
        right. exists m. split; [left|]. auto.
      * right. exists m'. split; [now right|]. simpl in Hafford'.
        repeat (split; [assumption|]). lia.
    + destruct (IH _ _ Hrun x Hx) as [Hold | (m' & Hm' & Hrest)]; [now left|].
      right. exists m'. split; [now right | assumption].
Qed.

(** After the loop no milestone is left that is active, whose requirement
    is met, that the user has not achieved and that the balance covers. *)
Lemma check_loop_complete (u : address) (n t : Z) (ms : list Milestone.t)
  (p p' : RewardPool.t) (ua ua' : UserAchievements.t) :
  Forall (fun m => 0 < Milestone.reward_amount m) ms ->
  check_loop u n t ms p ua = Ok (p', ua') ->
  forall m, m ∈ ms -> Milestone.is_active m = true -> Milestone.requirement m <= n ->
    Milestone.id m ∈ UserAchievements.milestones_achieved ua' \/
    RewardPool.balance p' < Milestone.reward_amount m.
Proof.
  intros Hpos. revert p ua.
  induction Hpos as [|m0 ms Hm0 Hpos IH]; intros p ua Hrun m Hm Hact Hreq; simpl in Hrun.
  - apply elem_of_nil in Hm. contradiction.
  - destruct (qualifies m0 (UserAchievements.milestones_achieved ua) n (RewardPool.balance p))
      eqn:Hq.
    + apply bind_Ok in Hrun as ([p1 ua1] & Haward & Hrun).
      apply RewardSystemProperties.award_Ok in Haward as (_ & _ & -> & ->).
      apply elem_of_cons in Hm as [-> | Hm]; [|eapply IH; eassumption].
      apply RewardSystemProperties.check_loop_Ok in Hrun as (awarded & _ & -> & _).
      left. simpl. rewrite <- app_assoc. apply elem_of_app. right. left.
    + apply elem_of_cons in Hm as [-> | Hm]; [|eapply IH; eassumption].
      apply RewardSystemProperties.check_loop_Ok in Hrun as (awarded & -> & -> & _ & _ & Hsum).
      destruct (Hsum Hpos) as [Hsum0 _].
      destruct (qualifies_false _ _ _ _ Hq Hact Hreq) as [Hold | Hshort].
      * left. simpl. apply elem_of_app. now left.
      * right. simpl. lia.
Qed.

(** The loop carries the time of the last evaluation along and does not
    look at it. *)
Lemma check_loop_last_check (u : address) (n t : Z) (ms : list Milestone.t)
  (p : RewardPool.t) (ua : UserAchievements.t) (c : Z) :
  check_loop u n t ms p
    (UserAchievements.mk (UserAchievements.milestones_achieved ua)
       (UserAchievements.total_bonus_received ua) c)
  = let* '(p', ua') := check_loop u n t ms p ua in
    Ok (p', UserAchievements.mk (UserAchievements.milestones_achieved ua')
              (UserAchievements.total_bonus_received ua') c).
Proof.
  revert p ua. induction ms as [|m ms IH]; intros p ua; simpl; [reflexivity|].
  destruct (qualifies m (UserAchievements.milestones_achieved ua) n (RewardPool.balance p)).
  - unfold award.
    destruct (sub_u64 (RewardPool.balance p) (Milestone.reward_amount m)) as [b|e];
      simpl; [|reflexivity].
    destruct (add_u64 (RewardPool.total_rewards_paid p) (Milestone.reward_amount m))
      as [paid|e]; simpl; [|reflexivity].
    apply (IH _ (UserAchievements.mk
                   (UserAchievements.milestones_achieved ua ++ [Milestone.id m])
                   (UserAchievements.total_bonus_received ua)
                   (UserAchievements.last_milestone_check ua))).
  - apply IH.
Qed.

Lemma get_user_achievements_lookup (u : address) (s : State Coin) :
  get_user_achievements u s = achievements_at s !! u.
Proof.
  unfold get_user_achievements, exists_at. now destruct (achievements_at s !! u).
Qed.

(** X26: the evaluation awards nothing it should not.  When
    [check_milestones] goes through in a reachable state, the user has a
    record afterwards, stamped with the time of the call, and every id in
    it was either in the user's record before or is the id of the milestone
    at position [id - 1], which is active, whose requirement the upload
    count meets and whose reward the balance before the call covered. *)
Theorem check_milestones_sound (user : address) (datasets_uploaded now : Z)
  (s s' : State Coin) (p : RewardPool.t) :
  reachable DataDex s ->
  pool_at s !! DataDex = Some p ->
  check_milestones DataDex user datasets_uploaded now s = Ok s' ->
  exists ua',
    get_user_achievements user s' = Some ua' /\
    UserAchievements.last_milestone_check ua' = now /\
    forall x, x ∈ UserAchievements.milestones_achieved ua' ->
      (exists ua, get_user_achievements user s = Some ua
                  /\ x ∈ UserAchievements.milestones_achieved ua) \/
      (exists m, RewardPool.milestones p !! Z.to_nat (x - 1) = Some m /\
                 Milestone.id m = x /\ Milestone.is_active m = true /\
                 Milestone.requirement m <= datasets_uploaded /\
                 Milestone.reward_amount m <= RewardPool.balance p).
Proof.
  intros Hreach Hp Hrun.
  pose proof (reachable_pool_books s p Hreach Hp) as [Hids _ _ _ _].
  apply RewardSystemProperties.reachable_state_inv in Hreach as [Hpools _ _].
  destruct (Hpools _ _ Hp) as (_ & _ & _ & Hms).
  apply RewardSystemProperties.check_milestones_Ok in Hrun
    as (p0 & awarded & Hp0 & Hloop & _ & _ & _ & ->). cbv zeta in Hloop.
  rewrite Hp in Hp0. injection Hp0 as <-.
  eexists. rewrite get_user_achievements_lookup. simpl. rewrite lookup_insert_eq.
  split; [reflexivity|]. split; [reflexivity|]. simpl. intros x Hx.
  destruct (check_loop_new_ids _ _ _ _ _ _ _ _ Hms Hloop x Hx)
    as [Hold | (m & Hm & Hid & Hrest)].
  - left. rewrite get_user_achievements_lookup.
    destruct (achievements_at s !! user) as [ua|]; simpl in Hold.
    + exists ua. auto.
    + apply elem_of_nil in Hold. contradiction.
  - right. exists m. split; [|auto].
    apply list_elem_of_lookup in Hm as (j & Hj).
    rewrite <- Hid, (Hids j m Hj).
    replace (Z.to_nat (Z.of_nat j + 1 - 1)) with j by lia. assumption.
Qed.

(** X27: the evaluation leaves nothing behind that it could award.  After
    a [check_milestones] that went through in a reachable state, every
    milestone that is active and whose requirement the upload count meets
    is among the user's achieved ones, or has a reward larger than the
    balance that is left. *)
Theorem check_milestones_complete (user : address) (datasets_uploaded now : Z)
  (s s' : State Coin) :
  reachable DataDex s ->
  check_milestones DataDex user datasets_uploaded now s = Ok s' ->
  exists p' ua',
    pool_at s' !! DataDex = Some p' /\
    get_user_achievements user s' = Some ua' /\
    forall m, m ∈ RewardPool.milestones p' ->
      Milestone.is_active m = true ->
      Milestone.requirement m <= datasets_uploaded ->
      Milestone.id m ∈ UserAchievements.milestones_achieved ua' \/
      RewardPool.balance p' < Milestone.reward_amount m.
Proof.
  intros Hreach Hrun.
  apply RewardSystemProperties.reachable_state_inv in Hreach as [Hpools _ _].
  apply RewardSystemProperties.check_milestones_Ok in Hrun
    as (p & awarded & Hp & Hloop & _ & _ & _ & ->). cbv zeta in Hloop.
  destruct (Hpools _ _ Hp) as (_ & _ & _ & Hms).
  eexists. eexists. rewrite get_user_achievements_lookup. simpl. rewrite !lookup_insert_eq.
  split; [reflexivity|]. split; [reflexivity|]. simpl.
  intros m Hm Hact Hreq.
  exact (check_loop_complete _ _ _ _ _ _ _ _ Hms Hloop m Hm Hact Hreq).
Qed.

(** X28: initialising one's achievements is never needed.  For a user
    without a record, [initialize_user_achievements] goes through, and
    [check_milestones] gives after it exactly what it gives without it, the
    same state or the same error; and once the user has a record, from
    either call, [initialize_user_achievements] aborts with
    [E_ALREADY_INITIALIZED]. *)
Theorem initialize_user_achievements_redundant (user : address)
  (datasets_uploaded now1 now2 now3 : Z) (s : State Coin) :
  achievements_at s !! user = None ->
  exists s1,
    initialize_user_achievements user now1 s = Ok s1 /\
    check_milestones DataDex user datasets_uploaded now2 s1
      = check_milestones DataDex user datasets_uploaded now2 s /\
    initialize_user_achievements user now3 s1 = Err (Abort E_ALREADY_INITIALIZED) /\
    (forall s2, check_milestones DataDex user datasets_uploaded now2 s = Ok s2 ->
       initialize_user_achievements user now3 s2 = Err (Abort E_ALREADY_INITIALIZED)).
Proof.
  intros Hnone.
  exists (mkState (pool_at s) (<[user := new_user_achievements now1]> (achievements_at s))
            (coins s)).
  split; [|split; [|split]].
  - unfold initialize_user_achievements, exists_at, move_to. rewrite Hnone. reflexivity.
  - unfold check_milestones, borrow_global at 1 3. simpl.
    destruct (pool_at s !! DataDex) as [p|]; simpl; [|reflexivity].
    unfold exists_at, move_to, borrow_global. rewrite Hnone, !lookup_insert_eq. simpl.
    rewrite !lookup_insert_eq. simpl.
    change (new_user_achievements now2)
      with (UserAchievements.mk
              (UserAchievements.milestones_achieved (new_user_achievements now1))
              (UserAchievements.total_bonus_received (new_user_achievements now1)) now2).
    rewrite check_loop_last_check.
    destruct (check_loop user datasets_uploaded now2 (RewardPool.milestones p) p
                (new_user_achievements now1)) as [[p' ua']|e]; simpl; [|reflexivity].
    rewrite !insert_insert_eq. reflexivity.
  - unfold initialize_user_achievements, exists_at. simpl. rewrite lookup_insert_eq.
    reflexivity.
  - intros s2 Hrun.
    apply RewardSystemProperties.check_milestones_Ok in Hrun
      as (p & awarded & _ & _ & _ & _ & _ & ->).
    unfold initialize_user_achievements, exists_at. simpl. rewrite lookup_insert_eq.
    reflexivity.
Qed.

(** X29: the bonus history accounts for every bonus.  In a reachable state
    [get_bonus_rewards_for_user] returns the bonuses of the history that
    went to that user; every bonus of the history has a positive amount and
    its event in the event list, in the same order; and the bonuses together
    with the rewards of the milestone events come to at most
    [total_rewards_paid], the rest being the transfers, of which there is no
    record. *)
Theorem bonus_history_accounted (user : address) (s : State Coin) (p : RewardPool.t) :
  reachable DataDex s ->
  pool_at s !! DataDex = Some p ->
  exists l,
    get_bonus_rewards_for_user DataDex user s = Ok l /\
    (forall b, b ∈ l <-> b ∈ RewardPool.bonus_rewards p /\ BonusReward.recipient b = user) /\
    (forall b, b ∈ RewardPool.bonus_rewards p -> 0 < BonusReward.amount b) /\
    RewardPool.bonus_reward_events p = bonus_event <$> RewardPool.bonus_rewards p /\
    0 <= total_bonus l <= total_bonus (RewardPool.bonus_rewards p) /\
    total_bonus (RewardPool.bonus_rewards p)
      + total_achieved (RewardPool.milestone_events p)
    <= RewardPool.total_rewards_paid p.
Proof.
  intros Hreach Hp.
  pose proof (reachable_pool_books s p Hreach Hp) as [_ _ Hev Hpos Hpaid].
  exists (bonus_rewards_of (RewardPool.bonus_rewards p) user).
  split; [unfold get_bonus_rewards_for_user, borrow_global; now rewrite Hp|].
  split; [intros b; apply bonus_rewards_of_spec|].
  split; [intros b Hb; exact (proj1 (Forall_forall _ _) Hpos b Hb)|].
  split; [assumption|].
  split; [now apply total_bonus_of_le | assumption].
Qed.

(** *** The codes a transaction aborts with *)

Lemma aw_assert_true (cs : list Z) (code : Z) : aborts_within cs (assert true code).
Proof. intros c. discriminate. Qed.

Lemma aw_check_loop (cs : list Z) (u : address) (n t : Z) (ms : list Milestone.t)
  (p : RewardPool.t) (ua : UserAchievements.t) :
  aborts_within cs (check_loop u n t ms p ua).
Proof.
  revert p ua. induction ms as [|m ms IH]; intros p ua; simpl.
  - apply aw_Ok.
  - destruct (qualifies m _ n _); [|apply IH].
    apply aw_bind; [|intros [p1 ua1]; apply IH].
    unfold award. aw_chain_with fail.
Qed.

(** X30: a transaction that aborts in one of the module's own [assert!]s
    does so with a code of its list ([abort_codes]); none ever aborts with
    [E_NOT_INITIALIZED] or [E_REWARD_POOL_EMPTY], and [check_milestones]
    with none at all.  Before the package address has initialised, every
    entry function but the two initialisations aborts for want of the
    resource. *)
Theorem reward_abort_codes_complete :
  (forall tx now (s : State Coin) c,
     run DataDex tx now s = Err (Abort c) ->
     c ∈ abort_codes tx /\ c <> E_NOT_INITIALIZED /\ c <> E_REWARD_POOL_EMPTY) /\
  (forall tx now (s : State Coin),
     pool_at s !! DataDex = None -> needs_pool tx = true ->
     run DataDex tx now s = Err MissingResource).
Proof.
  split.
  - intros tx now s c Hc.
    assert (Hin : aborts_within (abort_codes tx) (run DataDex tx now s)).
    { destruct tx; simpl.
      - unfold initialize_reward_system, create_default_milestones, add_milestone.
        aw_chain_with ltac:(apply aw_assert_true).
      - unfold add_milestone. aw_chain_with fail.
      - unfold pay_bonus_reward. aw_chain_with fail.
      - unfold transfer_milestone_reward. aw_chain_with fail.
      - unfold initialize_user_achievements. aw_chain_with fail.
      - unfold check_milestones. aw_chain_with ltac:(apply aw_check_loop).
      - unfold replenish_pool. aw_chain_with fail.
      - unfold deactivate_milestone. aw_chain_with fail. }
    specialize (Hin c Hc). split; [assumption|].
    apply list_elem_of_In in Hin.
    split; intros ->; destruct tx; simpl in Hin; intuition discriminate.
  - intros tx now s Hnone Hneeds.
    destruct tx; try discriminate; simpl;
      [ unfold add_milestone | unfold pay_bonus_reward | unfold transfer_milestone_reward
      | unfold check_milestones | unfold replenish_pool | unfold deactivate_milestone ];
      unfold borrow_global; now rewrite Hnone.
Qed.

End WithCoin.

(** *** The scenario of the test module *)

Import Scenario.

Lemma pooled_later_topped_up : later datadex pooled topped_up.
Proof.
  apply later_tx with (s1 := thanked) (tx := tx_replenish) (now := now);
    [|vm_compute; reflexivity].
  apply later_tx with (s1 := rewarded_twice) (tx := tx_bonus) (now := now);
    [|vm_compute; reflexivity].
  apply later_tx with (s1 := rewarded) (tx := tx_transfer) (now := now);
    [|vm_compute; reflexivity].
  apply later_tx with (s1 := evaluated) (tx := tx_transfer) (now := now);
    [|vm_compute; reflexivity].
  apply later_tx with (s1 := pooled) (tx := tx_check) (now := now);
    [constructor | vm_compute; reflexivity].
Qed.

Lemma pooled_later_switched_off : later datadex pooled switched_off.
Proof.
  apply later_tx with (s1 := pooled) (tx := tx_switch_off) (now := now);
    [constructor | vm_compute; reflexivity].
Qed.

Lemma pool_funding_conserved_witness :
  exists balance paid p',
    get_reward_pool_balance datadex topped_up = Ok balance /\
    get_total_rewards_paid datadex topped_up = Ok paid /\
    pool_at topped_up !! datadex = Some p' /\
    balance + paid =
      100000000 + total_replenished (RewardPool.pool_replenished_events p').
Proof.
  refine (pool_funding_conserved datadex datadex 100000000 (genesis funded) pooled
            topped_up _ _ pooled_later_topped_up).
  - constructor.
  - vm_compute. reflexivity.
Defined.

Lemma initialize_reward_system_once_witness :
  (exists e, initialize_reward_system datadex seller 5 pooled = Err e) /\
  initialize_reward_system datadex datadex 5 pooled = Err (Abort E_ALREADY_INITIALIZED).
Proof.
  refine (proj2 (proj2 (initialize_reward_system_once datadex seller 5 pooled
                          RewardSystemProperties.pooled_reachable))
            (initial_pool datadex 100000000) _).
  vm_compute. reflexivity.
Defined.

Lemma milestone_ids_sequential_witness :
  exists s',
    add_milestone datadex datadex "Veteran" "Upload 50 datasets to the marketplace"
      50 50000000 pooled = Ok s' /\
    get_active_milestones datadex s' =
      Ok (default_milestones ++
          [Milestone.mk 5 "Veteran" "Upload 50 datasets to the marketplace"
             50 50000000 true]) /\
    achievements_at s' = achievements_at pooled /\ coins s' = coins pooled.
Proof.
  destruct (milestone_ids_sequential datadex pooled (initial_pool datadex 100000000)
              RewardSystemProperties.pooled_reachable) as (_ & _ & Hadd).
  - vm_compute. reflexivity.
  - apply (Hadd "Veteran"%string "Upload 50 datasets to the marketplace"%string
             50 50000000).
    + lia.
    + simpl. unfold MAX_U64. lia.
Defined.

Lemma transfer_milestone_reward_by_id_witness :
  transfer_milestone_reward datadex datadex seller 9 pooled = Err (Abort E_INVALID_AMOUNT) /\
  transfer_milestone_reward datadex seller seller 9 pooled = Err (Abort E_UNAUTHORIZED).
Proof.
  destruct (transfer_milestone_reward_by_id datadex seller seller 9 pooled
              (initial_pool datadex 100000000) RewardSystemProperties.pooled_reachable)
    as (Hunknown & Hother & _).
  - vm_compute. reflexivity.
  - split.
    + apply Hunknown. simpl. lia.
    + apply Hother. discriminate.
Defined.

Lemma transfer_ignores_deactivation_witness :
  exists s3,
    transfer_milestone_reward datadex datadex seller 1 switched_off = Ok s3 /\
    deactivate_milestone datadex datadex 1 paid_first = Ok s3 /\
    coins s3 = coins paid_first /\
    get_reward_pool_balance datadex s3 = get_reward_pool_balance datadex paid_first.
Proof.
  refine (transfer_ignores_deactivation datadex datadex seller 1 1 pooled switched_off
            paid_first _ _).
  - vm_compute. reflexivity.
  - vm_compute. reflexivity.
Defined.

Lemma milestones_only_deactivated_witness :
  exists p' m',
    pool_at switched_off !! datadex = Some p' /\
    RewardPool.milestones p' !! 0%nat = Some m' /\
    Milestone.id m' = 1 /\ Milestone.reward_amount m' = 1000000.
Proof.
  destruct (milestones_only_deactivated datadex pooled switched_off
              (initial_pool datadex 100000000) 0%nat first_upload
              pooled_later_switched_off)
    as (p' & m' & Hp' & Hm' & Hid & _ & _ & _ & Hreward & _).
  - vm_compute. reflexivity.
  - reflexivity.
  - exists p', m'. auto.
Defined.

Lemma deactivate_milestone_effect_witness :
  exists s' l',
    deactivate_milestone datadex datadex 1 pooled = Ok s' /\
    pool_at s' !! datadex =
      Some (set_milestones (initial_pool datadex 100000000)
              (<[0%nat := set_inactive first_upload]> default_milestones)) /\
    achievements_at s' = achievements_at pooled /\
    coins s' = coins pooled /\
    get_active_milestones datadex s' = Ok l' /\
    (forall m', m' ∈ l' <->
       m' ∈ default_milestones /\ Milestone.is_active m' = true /\ Milestone.id m' <> 1) /\
    deactivate_milestone datadex datadex 1 s' = Ok s'.
Proof.
  refine (deactivate_milestone_effect datadex pooled (initial_pool datadex 100000000)
            0%nat first_upload RewardSystemProperties.pooled_reachable _ _).
  - vm_compute. reflexivity.
  - reflexivity.
Defined.

Lemma deactivate_unknown_milestone_witness :
  deactivate_milestone datadex datadex 9 pooled = Ok pooled /\
  deactivate_milestone datadex seller 1 pooled = Err (Abort E_UNAUTHORIZED).
Proof.
  split.
  - refine (proj1 (deactivate_unknown_milestone datadex seller 9 pooled
                     (initial_pool datadex 100000000)
                     RewardSystemProperties.pooled_reachable _) _).
    + vm_compute. reflexivity.
    + simpl. lia.
  - refine (proj2 (deactivate_unknown_milestone datadex seller 1 pooled
                     (initial_pool datadex 100000000)
                     RewardSystemProperties.pooled_reachable _) _).
    + vm_compute. reflexivity.
    + discriminate.
Defined.

Lemma check_milestones_sound_witness :
  exists ua',
    get_user_achievements seller evaluated = Some ua' /\
    UserAchievements.last_milestone_check ua' = now /\
    forall x, x ∈ UserAchievements.milestones_achieved ua' ->
      (exists ua, get_user_achievements seller pooled = Some ua
                  /\ x ∈ UserAchievements.milestones_achieved ua) \/
      (exists m, default_milestones !! Z.to_nat (x - 1) = Some m /\
                 Milestone.id m = x /\ Milestone.is_active m = true /\
                 Milestone.requirement m <= 1 /\
                 Milestone.reward_amount m <= 100000000).
Proof.
  refine (check_milestones_sound datadex seller 1 now pooled evaluated
            (initial_pool datadex 100000000) RewardSystemProperties.pooled_reachable _ _).
  - vm_compute. reflexivity.
  - vm_compute. reflexivity.
Defined.

Lemma check_milestones_complete_witness :
  exists p' ua',
    pool_at evaluated !! datadex = Some p' /\
    get_user_achievements seller evaluated = Some ua' /\
    forall m, m ∈ RewardPool.milestones p' ->
      Milestone.is_active m = true ->
      Milestone.requirement m <= 1 ->
      Milestone.id m ∈ UserAchievements.milestones_achieved ua' \/
      RewardPool.balance p' < Milestone.reward_amount m.
Proof.
  refine (check_milestones_complete datadex seller 1 now pooled evaluated
            RewardSystemProperties.pooled_reachable _).
  vm_compute. reflexivity.
Defined.

Lemma initialize_user_achievements_redundant_witness :
  exists s1,
    initialize_user_achievements seller now pooled = Ok s1 /\
    check_milestones datadex seller 1 (now + 60) s1
      = check_milestones datadex seller 1 (now + 60) pooled /\
    initialize_user_achievements seller (now + 120) s1
      = Err (Abort E_ALREADY_INITIALIZED) /\
    (forall s2, check_milestones datadex seller 1 (now + 60) pooled = Ok s2 ->
       initialize_user_achievements seller (now + 120) s2
         = Err (Abort E_ALREADY_INITIALIZED)).
Proof.
  refine (initialize_user_achievements_redundant datadex seller 1 now (now + 60)
            (now + 120) pooled _).
  vm_compute. reflexivity.
Defined.

Lemma bonus_history_accounted_witness :
  exists l,
    get_bonus_rewards_for_user datadex seller thanked = Ok l /\
    (forall b, b ∈ l <->
       b ∈ RewardPool.bonus_rewards thanked_pool /\ BonusReward.recipient b = seller) /\
    (forall b, b ∈ RewardPool.bonus_rewards thanked_pool -> 0 < BonusReward.amount b) /\
    RewardPool.bonus_reward_events thanked_pool
      = bonus_event <$> RewardPool.bonus_rewards thanked_pool /\
    0 <= total_bonus l <= total_bonus (RewardPool.bonus_rewards thanked_pool) /\
    total_bonus (RewardPool.bonus_rewards thanked_pool)
      + total_achieved (RewardPool.milestone_events thanked_pool)
    <= RewardPool.total_rewards_paid thanked_pool.
Proof.
  refine (bonus_history_accounted datadex seller thanked thanked_pool
            RewardSystemProperties.thanked_reachable _).
  vm_compute. reflexivity.
Defined.

Lemma reward_abort_codes_complete_witness :
  E_INSUFFICIENT_BALANCE ∈ abort_codes (TxPayBonus datadex seller 150000000 "Top seller") /\
  E_INSUFFICIENT_BALANCE <> E_NOT_INITIALIZED /\
  E_INSUFFICIENT_BALANCE <> E_REWARD_POOL_EMPTY.
Proof.
  refine (proj1 (reward_abort_codes_complete (Coin := gmap address Z) datadex)
            (TxPayBonus datadex seller 150000000 "Top seller") now pooled
            E_INSUFFICIENT_BALANCE _).
  vm_compute. reflexivity.
Defined.

End RewardSystemExtras.
